(** * ScriptHub: the provisioning and execution pipeline of [scripts/newMain.py]

    A shallow embedding of the dependency analysis, dependency checking,
    environment provisioning, installation and execution code of ScriptHub,
    together with the properties its specification states about them and,
    in the last part, further properties of the same code and of the updater
    thread and the script list.

    Conventions.
    - A Python [str] is a Rocq [string], that is a sequence of bytes (the
      UTF-8 encoding of the text).  Byte-wise lexicographic order on UTF-8
      coincides with Python's code-point order, so [sorted] on strings is
      [merge_sort String.le].  White space ([str.strip], [str.split()]) is
      that of [str.isspace], read off the encoding; [str.lower] is modelled
      on the ASCII range.
    - An operation that may raise returns [exc A]: [Ret a] or [Raise msg],
      where [msg] is what [str(e)] gives in the handler.
    - A Qt signal emission is an element of an event trace.  A slot of an
      object of the main thread connected to a signal emitted in the main
      thread runs inside the emission; the signals of a background thread are
      delivered to the main thread in the order of their emission. *)

From Stdlib Require Import Strings.Ascii Strings.String ZArith Lia.
From stdpp Require Import base option list gmap strings sorting.

Set Default Proof Using "Type".

(** ** Exceptions *)

Inductive exc (A : Type) : Type :=
| Ret (a : A)
| Raise (e : string).
Arguments Ret {A} a.
Arguments Raise {A} e.

Definition exc_bind {A B} (m : exc A) (k : A → exc B) : exc B :=
  match m with
  | Ret a => k a
  | Raise e => Raise e
  end.

Notation "x ←! m ; k" := (exc_bind m (λ x, k))
  (at level 20, m at level 100, k at level 200, right associativity,
   only parsing).

(** ** Python string primitives *)

Module Py.

Definition LF : ascii := "010"%char.

(** [str.isspace] of a character of one byte: TAB, LF, VT, FF, CR, FS, GS,
    RS, US and the space. *)
Definition isspace (c : ascii) : bool :=
  let n := nat_of_ascii c in
  ((9 <=? n) && (n <=? 13)) || ((28 <=? n) && (n <=? 32)).

Definition utf8 (bytes : list nat) : string :=
  string_of_list_ascii (ascii_of_nat <$> bytes).

(** The encodings of the other characters [str.isspace] holds of: U+0085,
    U+00A0, U+1680, U+2000 to U+200A, U+2028, U+2029, U+202F, U+205F and
    U+3000. *)
Definition wide_spaces : list string :=
  utf8 <$> [[194; 133]; [194; 160]; [225; 154; 128]]
             ++ ((λ n, [226; 128; n]) <$> seq 128 11)
             ++ [[226; 128; 168]; [226; 128; 169]; [226; 128; 175];
                 [226; 129; 159]; [227; 128; 128]].

(** The number of bytes of the white-space character [s] starts with, 0 when
    it starts with none. *)
Definition space_len (s : string) : nat :=
  match s with
  | EmptyString => 0
  | String c _ =>
      if isspace c then 1
      else match List.find (λ w, String.prefix w s) wide_spaces with
           | Some w => String.length w
           | None => 0
           end
  end.

(** [s.lstrip()] *)
Fixpoint lstrip (s : string) : string :=
  match s with
  | EmptyString => EmptyString
  | String _ s1 =>
      match space_len s, s1 with
      | 0, _ => s
      | 1, _ => lstrip s1
      | 2, String _ s2 => lstrip s2
      | _, String _ (String _ s3) => lstrip s3
      | _, _ => s
      end
  end.

(** [s.rstrip()]: a suffix goes when it is white space only. *)
Fixpoint rstrip (s : string) : string :=
  match s with
  | EmptyString => EmptyString
  | String c s' =>
      if bool_decide (lstrip s = EmptyString) then EmptyString
      else String c (rstrip s')
  end.

(** [s.strip()] *)
Definition strip (s : string) : string := rstrip (lstrip s).

(** [s.startswith(p)] *)
Definition startswith (p s : string) : bool := String.prefix p s.

(** [s[n:]] *)
Fixpoint slice_from (n : nat) (s : string) : string :=
  match n, s with
  | O, _ => s
  | S n', String _ s' => slice_from n' s'
  | S _, EmptyString => EmptyString
  end.

(** [s.split(sep)] for a non-empty separator.  [skip] counts the bytes of a
    separator occurrence that are still to be consumed, [cur] is the current
    piece, reversed. *)
Fixpoint split_go (sep : string) (skip : nat) (cur : string) (s : string)
  : list string :=
  match s with
  | EmptyString => [String.rev cur]
  | String c s' =>
      match skip with
      | S k => split_go sep k cur s'
      | O =>
          if String.prefix sep s
          then String.rev cur :: split_go sep (String.length sep - 1) EmptyString s'
          else split_go sep O (String c cur) s'
      end
  end.

Definition split (sep s : string) : list string := split_go sep 0 EmptyString s.

(** [s.split()]: the maximal runs of characters that are not white space;
    [cur] is the current run, reversed. *)
Fixpoint split_ws_go (cur : option string) (s : string) : list string :=
  match s with
  | EmptyString => option_list (String.rev <$> cur)
  | String c s1 =>
      match space_len s, s1 with
      | 0, _ => split_ws_go (Some (String c (default EmptyString cur))) s1
      | 1, _ => option_list (String.rev <$> cur) ++ split_ws_go None s1
      | 2, String _ s2 => option_list (String.rev <$> cur) ++ split_ws_go None s2
      | _, String _ (String _ s3) =>
          option_list (String.rev <$> cur) ++ split_ws_go None s3
      | _, _ => split_ws_go (Some (String c (default EmptyString cur))) s1
      end
  end.

Definition split_ws (s : string) : list string := split_ws_go None s.

(** [l[0]] of a list produced by [split], which is never empty. *)
Definition item0 (l : list string) : string := default EmptyString (head l).

(** [sep.join(l)] *)
Definition join (sep : string) (l : list string) : string := String.concat sep l.

Definition lower_ascii (c : ascii) : ascii :=
  let n := nat_of_ascii c in
  if (65 <=? n) && (n <=? 90) then ascii_of_nat (n + 32) else c.

(** [s.lower()] *)
Fixpoint lower (s : string) : string :=
  match s with
  | EmptyString => EmptyString
  | String c s' => String (lower_ascii c) (lower s')
  end.

(** [sorted(xs)] on strings. *)
Definition sorted (l : list string) : list string := merge_sort String.le l.

(** Iterating over a text file: the lines, each with its terminator. *)
Fixpoint readlines_go (cur : string) (s : string) : list string :=
  match s with
  | EmptyString =>
      match cur with
      | EmptyString => []
      | _ => [String.rev cur]
      end
  | String c s' =>
      if Ascii.eqb c LF
      then String.rev (String c cur) :: readlines_go EmptyString s'
      else readlines_go (String c cur) s'
  end.

Definition readlines (s : string) : list string := readlines_go EmptyString s.

(** [posixpath.join(a, b)] *)
Definition path_join (a b : string) : string :=
  if startswith "/" b then b
  else if bool_decide (a = "") || String.prefix "/" (String.rev a) then a +:+ b
  else a +:+ "/" +:+ b.

End Py.

(** ** Paths

    The model is of a POSIX host, where [os.path] is [posixpath];
    [os_getcwd] is the directory the application runs in. *)
Definition os_getcwd : string := "/app".

(** One iteration of the loop of [posixpath.normpath] over the components. *)
Definition normpath_step (initial_slashes : nat) (new_comps : list string) (comp : string)
  : list string :=
  if bool_decide (comp = "") || bool_decide (comp = ".") then new_comps
  else if negb (bool_decide (comp = ".."))
          || (bool_decide (initial_slashes = 0) && bool_decide (new_comps = []))
          || bool_decide (last new_comps = Some "..")
  then new_comps ++ [comp]
  else removelast new_comps.

(** [os.path.normpath] *)
Definition os_path_normpath (path : string) : string :=
  if bool_decide (path = "") then "."
  else
    let initial_slashes :=
      if Py.startswith "/" path
      then (if Py.startswith "//" path && negb (Py.startswith "///" path) then 2 else 1)
      else 0 in
    let comps := foldl (normpath_step initial_slashes) [] (Py.split "/" path) in
    let path := Py.join "" (replicate initial_slashes "/") +:+ Py.join "/" comps in
    if bool_decide (path = "") then "." else path.

(** [os.path.abspath] *)
Definition os_path_abspath (path : string) : string :=
  os_path_normpath
    (if Py.startswith "/" path then path else Py.path_join os_getcwd path).

(** ** Requirement Analyzer: [DependencyManagement.analyze_imports] *)

(** [_get_stdlib_list]: the set literal, duplicates included as written. *)
Definition _get_stdlib_list : gset string :=
  list_to_set [
    "os"; "sys"; "json"; "time"; "datetime"; "re"; "math"; "random";
    "subprocess"; "shutil"; "ctypes"; "wintypes"; "collections";
    "logging"; "threading"; "multiprocessing"; "queue"; "urllib";
    "ssl"; "socket"; "hashlib"; "itertools"; "functools"; "operator";
    "pathlib"; "tempfile"; "pickle"; "copy"; "weakref"; "enum";
    "numbers"; "statistics"; "typing"; "struct"; "binascii";
    "heapq"; "bisect"; "array"; "sched"; "locale"; "unicodedata";
    "string"; "textwrap"; "difflib"; "csv"; "configparser"; "glob";
    "fnmatch"; "linecache"; "shlex"; "zipfile"; "tarfile"; "zlib";
    "gzip"; "bz2"; "lzma"; "zipimport"; "importlib"; "pkgutil";
    "modulefinder"; "runpy"; "traceback"; "inspect"; "ast"; "symtable";
    "tokenize"; "keyword"; "token"; "opcode"; "dis"; "pickletools";
    "code"; "codeop"; "pprint"; "reprlib"; "weakref"; "abc"; "collections";
    "contextlib"; "functools"; "itertools"; "operator"; "types"; "typing";
    "copyreg"; "marshal"; "warnings"; "errno"; "io"; "selectors";
    "threading"; "multiprocessing"; "concurrent"; "asyncio"; "socket";
    "ssl"; "signal"; "mmap"; "fcntl"; "pwd"; "grp"; "posix"; "nt";
    "spwd"; "crypt"; "termios"; "tty"; "pty"; "resource"; "syslog";
    "pipes"; "select"; "asyncore"; "asynchat"; "email"; "json"; "mailbox";
    "mimetypes"; "base64"; "binhex"; "binascii"; "quopri"; "uu";
    "html"; "xml"; "webbrowser"; "cgi"; "cgitb"; "wsgiref"; "urllib";
    "ftplib"; "poplib"; "imaplib"; "nntplib"; "smtplib"; "smtpd";
    "telnetlib"; "uuid"; "socketserver"; "http"; "http.server";
    "http.client"; "ftplib"; "poplib"; "imaplib"; "nntplib";
    "smtplib"; "smtpd"; "telnetlib"; "xmlrpc"; "ipaddress";
    "audioop"; "aifc"; "sunau"; "wave"; "chunk"; "colorsys";
    "imghdr"; "sndhdr"; "ossaudiodev"; "getopt"; "argparse";
    "getpass"; "curses"; "platform"; "errno"; "ctypes"; "threading";
    "zipimport"; "pkgutil"; "modulefinder"; "runpy"; "importlib";
    "imp"; "parser"; "ast"; "symtable"; "symbol"; "token"; "keyword";
    "tokenize"; "tabnanny"; "pyclbr"; "py_compile"; "compileall";
    "dis"; "pickletools"; "formatter"; "msilib"; "msvcrt"; "winreg";
    "winsound"; "posix"; "pwd"; "spwd"; "grp"; "crypt"; "termios";
    "tty"; "pty"; "fcntl"; "pipes"; "resource"; "nis"; "syslog";
    "optparse"; "imp"; "importlib"; "ensurepip"; "venv"; "zipapp"
  ].

(** The comprehension [[line.strip() for line in content.split('\n')
    if line.strip() and not line.strip().startswith('#')]]. *)
Definition kept_line (line : string) : bool :=
  negb (bool_decide (Py.strip line = "")) && negb (Py.startswith "#" (Py.strip line)).

Definition source_lines (content : string) : list string :=
  Py.strip <$> filter (λ line, kept_line line = true) (Py.split (String Py.LF "") content).

(** [[m.strip().split('.')[0].split(' as ')[0] for m in line[7:].split(',')]] *)
Definition import_modules (line : string) : list string :=
  (λ m, Py.item0 (Py.split " as " (Py.item0 (Py.split "." (Py.strip m)))))
    <$> Py.split "," (Py.slice_from 7 line).

(** One iteration of the loop over [lines], on the set [imports]. *)
Definition analyze_line (stdlib imports : gset string) (line : string) : gset string :=
  if Py.startswith "import " line then
    imports ∪ list_to_set
      (filter (λ m, m ≠ "" ∧ m ∉ stdlib) (import_modules line))
  else if Py.startswith "from " line then
    let parts := Py.split_ws line in
    if (4 <=? length parts) && bool_decide (parts !! 2 = Some "import") then
      let module := Py.item0 (Py.split "." (default "" (parts !! 1))) in
      if bool_decide (module ∉ stdlib) then imports ∪ {[ module ]} else imports
    else imports
  else imports.

(** The body of the [try] once the file has been read. *)
Definition analyze_source (content : string) : option (list string) :=
  let stdlib := _get_stdlib_list in
  let imports := foldl (analyze_line stdlib) ∅ (source_lines content) in
  if bool_decide (imports = ∅) then None else Some (Py.sorted (elements imports)).

(** [analyze_imports]; [file] is the outcome of opening and reading
    [script_path].  Returns the result and the texts emitted on
    [log_output_signal]. *)
Definition analyze_imports (file : exc string) : option (list string) * list string :=
  match file with
  | Ret content => (analyze_source content, [])
  | Raise e => (None, ["⚠️ Ошибка анализа скрипта: " +:+ e])
  end.

(** ** The [packaging] library, as far as the code calls it

    [Requirement(req_str)], [req.name], [req.specifier], [str(req)],
    [str(req.specifier)], the truth value of a specifier set (its [__len__])
    and [req.specifier.contains(version)].  The library is not part of the
    repository: the code is verified against every behaviour of this
    interface, and [Pep440] below is one executable instance. *)
Class Packaging : Type := {
  Requirement : Type;
  SpecifierSet : Type;
  Requirement_init : string → exc Requirement;
  req_name : Requirement → string;
  req_specifier : Requirement → SpecifierSet;
  req_str : Requirement → string;
  spec_str : SpecifierSet → string;
  spec_len : SpecifierSet → nat;
  spec_contains : SpecifierSet → string → exc bool;
}.

(** An executable instance for the release-only fragment of PEP 440 and
    PEP 508: a requirement is a name followed by comma-separated clauses
    [op version], [op] one of [== != <= >= < >], [version] a dotted sequence
    of decimal numbers.  Everything else is rejected here; messages are
    abbreviated.  The instance serves to evaluate the code on concrete
    manifests; no statement about all manifests depends on it. *)
Module Pep440.

Definition is_digit (c : ascii) : bool :=
  let n := nat_of_ascii c in (48 <=? n) && (n <=? 57).

Definition is_name_char (c : ascii) : bool :=
  let n := nat_of_ascii c in
  is_digit c || ((65 <=? n) && (n <=? 90)) || ((97 <=? n) && (n <=? 122))
  || (n =? 45) || (n =? 46) || (n =? 95).

(** The longest prefix of name characters and the rest. *)
Fixpoint span_name (s : string) : string * string :=
  match s with
  | EmptyString => (EmptyString, EmptyString)
  | String c s' =>
      if is_name_char c
      then let '(n, r) := span_name s' in (String c n, r)
      else (EmptyString, s)
  end.

Fixpoint parse_nat_go (acc : N) (s : string) : option N :=
  match s with
  | EmptyString => Some acc
  | String c s' =>
      if is_digit c
      then parse_nat_go (10 * acc + (N_of_ascii c - 48))%N s'
      else None
  end.

Definition parse_nat (s : string) : option N :=
  match s with
  | EmptyString => None
  | _ => parse_nat_go 0%N s
  end.

(** [Version(text)] restricted to a release segment. *)
Definition parse_version (text : string) : option (list N) :=
  mapM parse_nat (Py.split "." text).

(** Comparison of release segments, the shorter one padded with zeros. *)
Fixpoint compare_release (a b : list N) {struct a} : comparison :=
  match a with
  | [] => if forallb (N.eqb 0) b then Eq else Lt
  | x :: a' =>
      match b with
      | [] => match (x ?= 0)%N with Eq => compare_release a' [] | c => c end
      | y :: b' => match (x ?= y)%N with Eq => compare_release a' b' | c => c end
      end
  end.

Inductive Operator := OpEq | OpNe | OpLe | OpGe | OpLt | OpGt.

Record Specifier := {
  operator : Operator;
  version_text : string;
  version : list N;
}.

Definition operator_str (o : Operator) : string :=
  match o with
  | OpEq => "==" | OpNe => "!=" | OpLe => "<=" | OpGe => ">="
  | OpLt => "<" | OpGt => ">"
  end.

Definition parse_operator (s : string) : option (Operator * string) :=
  if Py.startswith "==" s then Some (OpEq, Py.slice_from 2 s)
  else if Py.startswith "!=" s then Some (OpNe, Py.slice_from 2 s)
  else if Py.startswith "<=" s then Some (OpLe, Py.slice_from 2 s)
  else if Py.startswith ">=" s then Some (OpGe, Py.slice_from 2 s)
  else if Py.startswith "<" s then Some (OpLt, Py.slice_from 1 s)
  else if Py.startswith ">" s then Some (OpGt, Py.slice_from 1 s)
  else None.

Definition parse_specifier (clause : string) : option Specifier :=
  '(o, rest) ← parse_operator (Py.strip clause);
  let text := Py.strip rest in
  v ← parse_version text;
  Some {| operator := o; version_text := text; version := v |}.

Definition specifier_str (s : Specifier) : string :=
  operator_str (operator s) +:+ version_text s.

Definition specifier_contains (s : Specifier) (v : list N) : bool :=
  let c := compare_release v (version s) in
  match operator s with
  | OpEq => bool_decide (c = Eq)
  | OpNe => negb (bool_decide (c = Eq))
  | OpLe => negb (bool_decide (c = Gt))
  | OpGe => negb (bool_decide (c = Lt))
  | OpLt => bool_decide (c = Lt)
  | OpGt => bool_decide (c = Gt)
  end.

Record Req := { name : string; specifier : list Specifier }.

Definition parse (text : string) : exc Req :=
  let '(n, rest) := span_name (Py.strip text) in
  if bool_decide (n = "") then Raise "Expected package name at the start of dependency specifier"
  else if bool_decide (Py.strip rest = "") then Ret {| name := n; specifier := [] |}
  else match mapM parse_specifier (Py.split "," rest) with
       | Some specs => Ret {| name := n; specifier := specs |}
       | None => Raise "Expected end or semicolon (after name and no valid version specifier)"
       end.

(** [str(SpecifierSet)]: the clauses, sorted. *)
Definition set_str (specs : list Specifier) : string :=
  Py.join "," (Py.sorted (specifier_str <$> specs)).

Definition contains (specs : list Specifier) (installed : string) : exc bool :=
  match parse_version installed with
  | Some v => Ret (forallb (λ s, specifier_contains s v) specs)
  | None => Raise ("Invalid version: '" +:+ installed +:+ "'")
  end.

#[export] Instance lib : Packaging := {|
  Requirement := Req;
  SpecifierSet := list Specifier;
  Requirement_init := parse;
  req_name := name;
  req_specifier := specifier;
  req_str r := name r +:+ set_str (specifier r);
  spec_str := set_str;
  spec_len := length;
  spec_contains := contains;
|}.

End Pep440.

(** ** Package Index and satisfaction check *)

(** What [importlib.metadata.distributions()] yields: [dist.metadata["Name"]]
    ([None] when the metadata has no such field) and [dist.version]. *)
Record Distribution : Type := {
  metadata_Name : option string;
  dist_version : string;
}.

(** A path of the file system: a directory, a readable text file or a file
    whose opening or decoding raises. *)
Inductive FileNode : Type :=
| Dir
| File (content : string)
| Unreadable (error : string).

Definition os_path_exists (fs : gmap string FileNode) (path : string) : bool :=
  bool_decide (is_Some (fs !! path)).

(** [open(path, 'r', encoding='utf-8')] followed by reading the text. *)
Definition open_read (fs : gmap string FileNode) (path : string) : exc string :=
  match fs !! path with
  | Some (File content) => Ret content
  | Some Dir => Raise ("[Errno 21] Is a directory: '" +:+ path +:+ "'")
  | Some (Unreadable e) => Raise e
  | None => Raise ("[Errno 2] No such file or directory: '" +:+ path +:+ "'")
  end.

(** The dict comprehension of [get_installed_packages]: a later distribution
    with the same lower-cased name replaces an earlier one. *)
Definition index_step (acc : exc (gmap string string)) (dist : Distribution)
  : exc (gmap string string) :=
  m ←! acc;
  match metadata_Name dist with
  | Some n => Ret (<[Py.lower n := dist_version dist]> m)
  | None => Raise "'NoneType' object has no attribute 'lower'"
  end.

Definition build_index (dists : list Distribution) : exc (gmap string string) :=
  foldl index_step (Ret ∅) dists.

(** [get_installed_packages]: the result and the cache afterwards. *)
Definition get_installed_packages (dists : list Distribution)
    (cache : option (gmap string string))
  : exc (gmap string string) * option (gmap string string) :=
  match cache with
  | Some m => (Ret m, cache)
  | None =>
      match build_index dists with
      | Ret m => (Ret m, Some m)
      | Raise e => (Raise e, None)
      end
  end.

Definition clear_packages_cache (cache : option (gmap string string))
  : option (gmap string string) := None.

(** The comprehension reading [requirements.txt]. *)
Definition requirement_lines (content : string) : list string :=
  Py.strip <$> filter (λ line, kept_line line = true) (Py.readlines content).

Section check_dependencies.
Context `{Packaging}.

Definition violation_entry (pkg_name : string) (spec : SpecifierSet)
    (installed_version : string) : string :=
  pkg_name +:+ " (требуется " +:+ spec_str spec +:+ ", установлено "
    +:+ installed_version +:+ ")".

(** The body of the inner [try]: [Ret None] when nothing is appended to
    [missing], [Ret (Some entry)] when [entry] is appended, [Raise e] when
    the body raises. *)
Definition check_requirement (installed : gmap string string) (req_text : string)
  : exc (option string) :=
  req ←! Requirement_init req_text;
  let pkg_name := Py.lower (req_name req) in
  match installed !! pkg_name with
  | None => Ret (Some (req_str req))
  | Some v =>
      if bool_decide (spec_len (req_specifier req) = 0) then Ret None
      else
        ok ←! spec_contains (req_specifier req) v;
        if ok then Ret None
        else Ret (Some (violation_entry pkg_name (req_specifier req) v))
  end.

Definition parse_error_log (req_text e : string) : string :=
  "⚠️ Ошибка разбора строки '" +:+ req_text +:+ "': " +:+ e.

(** One iteration of [for req_str in requirements], on [missing] and the
    texts logged so far. *)
Definition check_step (installed : gmap string string)
    (acc : list string * list string) (req_text : string)
  : list string * list string :=
  match check_requirement installed req_text with
  | Ret None => acc
  | Ret (Some entry) => (acc.1 ++ [entry], acc.2)
  | Raise e => (acc.1, acc.2 ++ [parse_error_log req_text e])
  end.

Definition check_loop (installed : gmap string string) (requirements : list string)
  : list string * list string :=
  foldl (check_step installed) ([], []) requirements.

Definition problems_log (missing : list string) : string :=
  "⚠️ Обнаружены проблемы с зависимостями:" +:+ String Py.LF ""
    +:+ Py.join (String Py.LF "") missing.

(** The part of [check_dependencies] after [installed] and [requirements]
    are known: the verdict and the texts logged. *)
Definition check_requirements (installed : gmap string string)
    (requirements : list string) : bool * list string :=
  let '(missing, logs) := check_loop installed requirements in
  match missing with
  | [] => (true, logs ++ ["✅ Все зависимости удовлетворяют требованиям."])
  | _ => (false, logs ++ [problems_log missing])
  end.

(** [check_dependencies(script_dir)] on the file system [fs], the installed
    distributions [dists] and the cache: the verdict, the cache afterwards
    and the texts emitted on [log_output_signal]. *)
Definition check_dependencies (fs : gmap string FileNode) (dists : list Distribution)
    (cache : option (gmap string string)) (script_dir : string)
  : bool * option (gmap string string) * list string :=
  let requirements_path := Py.path_join script_dir "requirements.txt" in
  if negb (os_path_exists fs requirements_path) then
    (true, cache,
     ["ℹ️ requirements.txt не найден, зависимости не требуются."])
  else
    let failed e cache' :=
      (false, cache', ["❌ Ошибка проверки зависимостей: " +:+ e]) in
    match get_installed_packages dists cache with
    | (Raise e, cache') => failed e cache'
    | (Ret installed, cache') =>
        match open_read fs requirements_path with
        | Raise e => failed e cache'
        | Ret content =>
            let '(ok, logs) := check_requirements installed (requirement_lines content) in
            (ok, cache', logs)
        end
    end.

End check_dependencies.

(** ** Background threads

    A thread's [run] is a function of what its child process does: the
    outcome of every call it makes on the process, in the order the code
    makes them.  The result is the sequence of signals it emits. *)

(** A computation that emits signals of type [S] and may raise. *)
Definition emitting (S A : Type) : Type := list S * exc A.

Definition em_ret {S A} (a : A) : emitting S A := ([], Ret a).
Definition em_emit {S} (s : S) : emitting S unit := ([s], Ret ()).
Definition em_bind {S A B} (m : emitting S A) (k : A → emitting S B) : emitting S B :=
  match m with
  | (out, Ret a) => let '(out', r) := k a in (out ++ out', r)
  | (out, Raise e) => (out, Raise e)
  end.
Definition em_lift {S A} (m : exc A) : emitting S A := ([], m).

Notation "x ←@ m ; k" := (em_bind m (λ x, k))
  (at level 20, m at level 100, k at level 200, right associativity,
   only parsing).
Notation "' p ←@ m ; k" := (em_bind m (λ p, k))
  (at level 20, p pattern, m at level 100, k at level 200,
   right associativity, only parsing).
Notation "m ;@ k" := (em_bind m (λ _, k))
  (at level 100, k at level 200, right associativity, only parsing).

Module WorkerThread.

Inductive Signal : Type :=
| output_signal (text : string)
| error_signal (text : string)
| finished_signal.

#[export] Instance Signal_eq_dec : EqDecision Signal.
Proof. solve_decision. Defined.

(** The thread object as [ScriptExecutor] sees it: the fields [__init__]
    sets, and [isRunning()]. *)
Record t : Type := {
  script_path : string;
  cwd : option string;
  python_exec : string;
  isRunning : bool;
}.

(** [__init__], followed by [start()]. *)
Definition started (script_path cwd python_exec : string) : t :=
  {| script_path := os_path_abspath script_path;
     cwd := if bool_decide (cwd = "") then None else Some (os_path_abspath cwd);
     python_exec := python_exec;
     isRunning := true |}.

(** What happens during one [run]:
    - [script_exists]: [os.path.exists(self.script_path)];
    - [popen]: whether [subprocess.Popen] raises;
    - [reads]: the outcome of [stdout.readline()] in each iteration of the
      [while] loop; the loop is left when the list is exhausted, because
      [_is_running] is false or [poll()] is no longer [None];
    - [stop_requested]: [not self._is_running] as read after the loop;
    - [communicate]: the captured stderr, or an exception. *)
Record Session : Type := {
  script_exists : bool;
  popen : exc unit;
  reads : list (exc string);
  stop_requested : bool;
  communicate : exc string;
}.

Fixpoint read_loop (rs : list (exc string)) : emitting Signal unit :=
  match rs with
  | [] => em_ret ()
  | r :: rs' =>
      output ←@ em_lift r;
      (if bool_decide (output = "") then em_ret ()
       else em_emit (output_signal (Py.strip output))) ;@
      read_loop rs'
  end.

(** The body of the [try]; [true] stands for the early [return]s. *)
Definition run_body (path : string) (s : Session) : emitting Signal unit :=
  if negb (script_exists s) then
    em_emit (error_signal ("Ошибка: файл скрипта не найден: " +:+ path))
  else
    em_lift (popen s) ;@
    read_loop (reads s) ;@
    if stop_requested s then em_ret ()
    else
      stderr ←@ em_lift (communicate s);
      if bool_decide (stderr = "") then em_ret ()
      else em_emit (error_signal (Py.strip stderr)).

(** [run]: [try] / [except Exception] / [finally]. *)
Definition run (path : string) (s : Session) : list Signal :=
  let '(out, r) := run_body path s in
  let handled :=
    match r with
    | Ret _ => []
    | Raise e => [error_signal ("❌ Критическая ошибка выполнения: " +:+ e)]
    end in
  out ++ handled ++ [finished_signal].

(** Operations of [stop] on the child process. *)
Inductive ProcessOp : Type := terminate | msleep (ms : nat) | kill | wait.

(** [stop]: [has_process] is [self.process] being set, [exited_at_once] and
    [exited_in_grace] the two [poll()] results.  Returns the operations
    performed; no signal is emitted. *)
Definition stop (has_process exited_at_once exited_in_grace : bool) : list ProcessOp :=
  if has_process then
    [terminate]
      ++ (if exited_at_once then []
          else [msleep 100] ++ (if exited_in_grace then [] else [kill]))
      ++ [wait]
  else [].

(** The child process once [run] has returned.  [run] terminates nothing
    and waits for the child only in [communicate]; the child is terminated
    by [stop], when [stop] finds [self.process] set.  So the child is alive
    when [Popen] has returned, the script has not ended by itself ([ended])
    and [stop_ops], what [stop] has done, holds no [terminate]. *)
Definition child_alive (s : Session) (ended : bool) (stop_ops : list ProcessOp) : bool :=
  script_exists s
  && match popen s with Ret _ => true | Raise _ => false end
  && negb ended
  && forallb (λ op, match op with terminate => false | _ => true end) stop_ops.

End WorkerThread.

Module InstallThread.

Inductive Signal : Type :=
| progress_signal (value : Z)
| output_signal (text : string)
| finished_signal (success : bool).

#[export] Instance Signal_eq_dec : EqDecision Signal.
Proof. solve_decision. Defined.

Record t : Type := {
  python_exec : string;
  requirements_path : string;
  isRunning : bool;
}.

(** The outcome of [subprocess.run] in [_run_command]. *)
Record Completed : Type := {
  stdout : string;
  stderr : string;
  returncode : Z;
}.

(** What happens during one [run]:
    - [upgrade_pip]: the [pip install --upgrade pip] command;
    - [popen]: whether starting [pip install -r] raises;
    - [stdout_lines]: each line read from stdout, with the value of
      [self._is_running] when the loop body starts, or a failing read;
    - [stderr_lines]: the lines of stderr;
    - [wait]: the exit code. *)
Record Session : Type := {
  upgrade_pip : exc Completed;
  popen : exc unit;
  stdout_lines : list (exc (string * bool));
  stderr_lines : list (exc string);
  wait : exc Z;
}.

Definition _run_command (c : exc Completed) : emitting Signal bool :=
  process ←@ em_lift c;
  (if bool_decide (stdout process = "") then em_ret ()
   else em_emit (output_signal (Py.strip (stdout process)))) ;@
  (if bool_decide (stderr process = "") then em_ret ()
   else em_emit (output_signal ("⚠️ " +:+ Py.strip (stderr process)))) ;@
  em_ret (bool_decide (returncode process = 0%Z)).

(** The first [for] loop; the result is [true] when the loop ran to the
    end and [false] when the thread returned from inside it. *)
Fixpoint stdout_loop (progress : Z) (ls : list (exc (string * bool)))
  : emitting Signal bool :=
  match ls with
  | [] => em_ret true
  | l :: ls' =>
      '(line, is_running) ←@ em_lift l;
      if negb is_running then
        em_emit (output_signal "❌ Установка прервана пользователем") ;@
        em_emit (finished_signal false) ;@
        em_ret false
      else
        em_emit (output_signal (Py.strip line)) ;@
        let progress := Z.min (progress + 3) 95 in
        em_emit (progress_signal progress) ;@
        stdout_loop progress ls'
  end.

Fixpoint stderr_loop (ls : list (exc string)) : emitting Signal unit :=
  match ls with
  | [] => em_ret ()
  | l :: ls' =>
      line ←@ em_lift l;
      em_emit (output_signal ("⚠️ " +:+ Py.strip line)) ;@
      stderr_loop ls'
  end.

Definition run_body (s : Session) : emitting Signal unit :=
  em_emit (output_signal "🔍 Начинаю установку зависимостей...") ;@
  _run_command (upgrade_pip s) ;@
  em_emit (output_signal "📦 Устанавливаю пакеты из requirements.txt...") ;@
  em_lift (popen s) ;@
  completed ←@ stdout_loop 0 (stdout_lines s);
  if negb completed then em_ret ()
  else
    stderr_loop (stderr_lines s) ;@
    return_code ←@ em_lift (wait s);
    if bool_decide (return_code = 0%Z) then
      em_emit (progress_signal 100) ;@
      em_emit (output_signal "✅ Зависимости успешно установлены!") ;@
      em_emit (finished_signal true)
    else
      em_emit (output_signal "❌ Ошибка при установке зависимостей") ;@
      em_emit (finished_signal false).

(** [run]: [try] / [except Exception]. *)
Definition run (s : Session) : list Signal :=
  match run_body s with
  | (out, Ret _) => out
  | (out, Raise e) =>
      out ++ [output_signal ("❌ Критическая ошибка при установке: " +:+ e);
              finished_signal false]
  end.

(** The percentages emitted on [progress_signal], in order. *)
Definition progress_values (out : list Signal) : list Z :=
  omap (λ s, match s with progress_signal v => Some v | _ => None end) out.

(** The install subprocess completed with exit code 0. *)
Definition succeeded (out : list Signal) : bool :=
  bool_decide (finished_signal true ∈ out).

End InstallThread.

Module VenvCreationThread.

Record t : Type := {
  venv_path : string;
  python_path : string;
  isRunning : bool;
}.

End VenvCreationThread.

(** ** The application objects

    [MainWindow], its [DependencyManagement] and its [ScriptExecutor] share
    one state.  Signals are connected as in [MainWindow._setup_connections];
    these objects live in the main thread, so a slot runs inside [emit].  The
    state keeps
    what the modelled methods read: the file system, the installed
    distributions, the selection, the three thread handles and the package
    cache.  What [MainWindow.log_output] writes and no modelled method
    reads is left out: the session log dictionary, the file
    [script_log.txt] of the selected script and the console line that
    reports a failed write to that file; [fs] is the file system without
    the log files.  The answers the user will give to
    [QMessageBox.question] are part of the state. *)

Inductive DMSignal : Type :=
| log_output_signal (text : string)
| progress_signal (value : Z)
| venv_created_signal (script_dir python_exec : string)
| dependencies_installed_signal (script_dir : string) (success : bool).

Inductive ExecutorSignal : Type :=
| script_started_signal (script_name : string)
| script_finished_signal (script_name : string)
| output_signal (text : string)
| error_signal (text : string).

Inductive Thread : Type :=
| venv_creation (t : VenvCreationThread.t)
| install (t : InstallThread.t)
| worker (t : WorkerThread.t).

Inductive Event : Type :=
| dm_emit (s : DMSignal)
| executor_emit (s : ExecutorSignal)
| console_append (text : string)
| thread_start (t : Thread)
| question (text : string) (reply : bool).

Record App : Type := {
  fs : gmap string FileNode;
  dists : list Distribution;
  replies : list bool;
  current_script_name : option string;
  running_script_name : option string;
  progress_bar : Z * bool;
  _installed_packages_cache : option (gmap string string);
  _install_thread : option InstallThread.t;
  _venv_thread : option VenvCreationThread.t;
  worker_thread : option WorkerThread.t;
  trace : list Event;
}.

Definition set_fs (v : gmap string FileNode) (s : App) : App :=
  {| fs := v; dists := dists s; replies := replies s;
     current_script_name := current_script_name s;
     running_script_name := running_script_name s;
     progress_bar := progress_bar s;
     _installed_packages_cache := _installed_packages_cache s;
     _install_thread := _install_thread s; _venv_thread := _venv_thread s;
     worker_thread := worker_thread s; trace := trace s |}.

Definition set_dists (v : list Distribution) (s : App) : App :=
  {| fs := fs s; dists := v; replies := replies s;
     current_script_name := current_script_name s;
     running_script_name := running_script_name s;
     progress_bar := progress_bar s;
     _installed_packages_cache := _installed_packages_cache s;
     _install_thread := _install_thread s; _venv_thread := _venv_thread s;
     worker_thread := worker_thread s; trace := trace s |}.

Definition set_replies (v : list bool) (s : App) : App :=
  {| fs := fs s; dists := dists s; replies := v;
     current_script_name := current_script_name s;
     running_script_name := running_script_name s;
     progress_bar := progress_bar s;
     _installed_packages_cache := _installed_packages_cache s;
     _install_thread := _install_thread s; _venv_thread := _venv_thread s;
     worker_thread := worker_thread s; trace := trace s |}.

Definition set_running_script_name (v : option string) (s : App) : App :=
  {| fs := fs s; dists := dists s; replies := replies s;
     current_script_name := current_script_name s;
     running_script_name := v;
     progress_bar := progress_bar s;
     _installed_packages_cache := _installed_packages_cache s;
     _install_thread := _install_thread s; _venv_thread := _venv_thread s;
     worker_thread := worker_thread s; trace := trace s |}.

Definition set_progress_bar (v : Z * bool) (s : App) : App :=
  {| fs := fs s; dists := dists s; replies := replies s;
     current_script_name := current_script_name s;
     running_script_name := running_script_name s;
     progress_bar := v;
     _installed_packages_cache := _installed_packages_cache s;
     _install_thread := _install_thread s; _venv_thread := _venv_thread s;
     worker_thread := worker_thread s; trace := trace s |}.

Definition set_cache (v : option (gmap string string)) (s : App) : App :=
  {| fs := fs s; dists := dists s; replies := replies s;
     current_script_name := current_script_name s;
     running_script_name := running_script_name s;
     progress_bar := progress_bar s;
     _installed_packages_cache := v;
     _install_thread := _install_thread s; _venv_thread := _venv_thread s;
     worker_thread := worker_thread s; trace := trace s |}.

Definition set_install_thread (v : option InstallThread.t) (s : App) : App :=
  {| fs := fs s; dists := dists s; replies := replies s;
     current_script_name := current_script_name s;
     running_script_name := running_script_name s;
     progress_bar := progress_bar s;
     _installed_packages_cache := _installed_packages_cache s;
     _install_thread := v; _venv_thread := _venv_thread s;
     worker_thread := worker_thread s; trace := trace s |}.

Definition set_venv_thread (v : option VenvCreationThread.t) (s : App) : App :=
  {| fs := fs s; dists := dists s; replies := replies s;
     current_script_name := current_script_name s;
     running_script_name := running_script_name s;
     progress_bar := progress_bar s;
     _installed_packages_cache := _installed_packages_cache s;
     _install_thread := _install_thread s; _venv_thread := v;
     worker_thread := worker_thread s; trace := trace s |}.

Definition set_worker_thread (v : option WorkerThread.t) (s : App) : App :=
  {| fs := fs s; dists := dists s; replies := replies s;
     current_script_name := current_script_name s;
     running_script_name := running_script_name s;
     progress_bar := progress_bar s;
     _installed_packages_cache := _installed_packages_cache s;
     _install_thread := _install_thread s; _venv_thread := _venv_thread s;
     worker_thread := v; trace := trace s |}.

Definition set_trace (v : list Event) (s : App) : App :=
  {| fs := fs s; dists := dists s; replies := replies s;
     current_script_name := current_script_name s;
     running_script_name := running_script_name s;
     progress_bar := progress_bar s;
     _installed_packages_cache := _installed_packages_cache s;
     _install_thread := _install_thread s; _venv_thread := _venv_thread s;
     worker_thread := worker_thread s; trace := v |}.

(** A method: a state transformer; [None] only when the bound on nested slot
    invocations (see [_on_dependencies_installed]) is exceeded. *)
Definition M (A : Type) : Type := App → option (A * App).

Definition ret {A} (a : A) : M A := λ s, Some (a, s).
Definition bind {A B} (m : M A) (k : A → M B) : M B :=
  λ s, match m s with
       | Some (a, s') => k a s'
       | None => None
       end.
Definition gets {A} (f : App → A) : M A := λ s, Some (f s, s).
Definition modify (f : App → App) : M unit := λ s, Some ((), f s).

Notation "x ←$ m ; k" := (bind m (λ x, k))
  (at level 20, m at level 100, k at level 200, right associativity,
   only parsing).
Notation "m ;$ k" := (bind m (λ _, k))
  (at level 100, k at level 200, right associativity, only parsing).

Definition record (e : Event) : M unit :=
  modify (λ s, set_trace (trace s ++ [e]) s).

(** [os.name] of the host: the model is of a POSIX host, where [os.path] is
    [posixpath]. *)
Definition os_name : string := "posix".
Definition sys_executable : string := "/usr/bin/python3".

(** [os.path.basename] *)
Definition os_path_basename (p : string) : string :=
  default "" (last (Py.split "/" p)).

(** *** MainWindow slots that emit nothing *)

(** [log_output], as far as the console goes. *)
Definition log_output (text : string) : M unit := record (console_append text).

(** [_update_progress_bar]; the delayed hiding at 100 is not modelled. *)
Definition _update_progress_bar (value : Z) : M unit :=
  modify (set_progress_bar (value, ((0 <? value) && (value <? 100))%Z)).

Definition _on_script_execution_started (script_name : string) : M unit :=
  modify (set_running_script_name (Some script_name)).

Definition _on_script_execution_finished (script_name : string) : M unit :=
  modify (set_running_script_name None).

(** *** Emitting: the event, then the connected slot *)

Definition emit_log_output (text : string) : M unit :=
  record (dm_emit (log_output_signal text)) ;$ log_output text.

Definition emit_progress (value : Z) : M unit :=
  record (dm_emit (progress_signal value)) ;$ _update_progress_bar value.

Definition emit_output (text : string) : M unit :=
  record (executor_emit (output_signal text)) ;$ log_output text.

Definition emit_error (text : string) : M unit :=
  record (executor_emit (error_signal text)) ;$ log_output text.

Definition emit_script_started (script_name : string) : M unit :=
  record (executor_emit (script_started_signal script_name)) ;$
  _on_script_execution_started script_name.

Definition emit_script_finished (script_name : string) : M unit :=
  record (executor_emit (script_finished_signal script_name)) ;$
  _on_script_execution_finished script_name.

Fixpoint emit_logs (texts : list string) : M unit :=
  match texts with
  | [] => ret ()
  | t :: ts => emit_log_output t ;$ emit_logs ts
  end.

(** *** ScriptOperations *)

Definition get_script_dir (script_name : string) : string :=
  Py.path_join "scripts" script_name.

Definition get_script_path (script_name : string) : M (option string) :=
  let script_dir := Py.path_join "scripts" script_name in
  let script_path := Py.path_join script_dir "script.py" in
  exists_ ←$ gets (λ s, os_path_exists (fs s) script_path);
  ret (if exists_ then Some script_path else None).

(** *** ScriptExecutor *)

(** [self.worker_thread and self.worker_thread.isRunning()] *)
Definition worker_is_running (s : App) : bool :=
  match worker_thread s with
  | Some t => WorkerThread.isRunning t
  | None => false
  end.

Definition run_script (script_path script_dir python_exec script_name : string) : M unit :=
  busy ←$ gets worker_is_running;
  if busy then
    emit_output "⚠️ Скрипт уже запущен, остановите его перед запуском нового."
  else
    emit_output ("▶ Запускаю скрипт: " +:+ script_name) ;$
    let t := WorkerThread.started script_path script_dir python_exec in
    modify (set_worker_thread (Some t)) ;$
    record (thread_start (worker t)) ;$
    emit_script_started script_name.

(** The slot of the worker's [finished_signal]. *)
Definition _on_script_finished (script_name : string) : M unit :=
  emit_output "✅ Выполнение скрипта завершено." ;$
  emit_script_finished script_name ;$
  modify (set_worker_thread None).

(** What [ScriptExecutor] emits for one signal of its worker thread. *)
Definition relay (script_name : string) (s : WorkerThread.Signal) : list ExecutorSignal :=
  match s with
  | WorkerThread.output_signal text => [output_signal text]
  | WorkerThread.error_signal text => [error_signal text]
  | WorkerThread.finished_signal =>
      [output_signal "✅ Выполнение скрипта завершено.";
       script_finished_signal script_name]
  end.

(** The slots [run_script] connects to the signals of the worker thread of
    [script_name]. *)
Definition deliver (script_name : string) (sig : WorkerThread.Signal) : M unit :=
  match sig with
  | WorkerThread.output_signal text => emit_output text
  | WorkerThread.error_signal text => emit_error text
  | WorkerThread.finished_signal => _on_script_finished script_name
  end.

(** The signals of a whole session, delivered in the order of emission. *)
Fixpoint deliver_all (script_name : string) (sigs : list WorkerThread.Signal) : M unit :=
  match sigs with
  | [] => ret ()
  | sig :: sigs' => deliver script_name sig ;$ deliver_all script_name sigs'
  end.

(** The signals of [ScriptExecutor] in a trace. *)
Definition executor_events (tr : list Event) : list ExecutorSignal :=
  omap (λ e, match e with executor_emit s => Some s | _ => None end) tr.

(** *** DependencyManagement *)

Section app.
Context `{Packaging}.

(** [check_dependencies] as a method: on the state, logging through the
    signal. *)
Definition check_dependencies_method (script_dir : string) : M bool :=
  s ←$ gets id;
  let '(ok, cache, logs) :=
    check_dependencies (fs s) (dists s) (_installed_packages_cache s) script_dir in
  modify (set_cache cache) ;$
  emit_logs logs ;$
  ret ok.

Definition venv_python_exec (script_dir : string) : string :=
  let venv_dir := Py.path_join script_dir ".venv" in
  let scripts_dir :=
    Py.path_join venv_dir (if bool_decide (os_name = "nt") then "Scripts" else "bin") in
  Py.path_join scripts_dir (if bool_decide (os_name = "nt") then "python.exe" else "python").

(** [self._venv_thread and self._venv_thread.isRunning()] *)
Definition venv_is_running (s : App) : bool :=
  match _venv_thread s with
  | Some t => VenvCreationThread.isRunning t
  | None => false
  end.

Definition create_or_get_venv (script_dir : string) : M (option string) :=
  let venv_dir := Py.path_join script_dir ".venv" in
  let python_exec := venv_python_exec script_dir in
  exists_ ←$ gets (λ s, os_path_exists (fs s) python_exec);
  if exists_ then
    emit_log_output ("✅ Виртуальное окружение найдено: " +:+ python_exec) ;$
    ret (Some python_exec)
  else
    busy ←$ gets venv_is_running;
    if busy then
      emit_log_output "⚠️ Создание виртуального окружения уже запущено. Ожидайте." ;$
      ret None
    else
      emit_log_output "⚙️ Создаю виртуальное окружение..." ;$
      let t := {| VenvCreationThread.venv_path := venv_dir;
                  VenvCreationThread.python_path := sys_executable;
                  VenvCreationThread.isRunning := true |} in
      modify (set_venv_thread (Some t)) ;$
      record (thread_start (venv_creation t)) ;$
      ret None.

Definition install_is_running (s : App) : bool :=
  match _install_thread s with
  | Some t => InstallThread.isRunning t
  | None => false
  end.

(** The methods below emit [dependencies_installed_signal]; the slot
    connected to it is the parameter [slot]. *)
Section connected.
Variable slot : string → bool → M unit.

Definition emit_dependencies_installed (script_dir : string) (success : bool) : M unit :=
  record (dm_emit (dependencies_installed_signal script_dir success)) ;$
  slot script_dir success.

Definition install_dependencies (script_dir python_exec : string) : M unit :=
  let requirements_path := Py.path_join script_dir "requirements.txt" in
  exists_ ←$ gets (λ s, os_path_exists (fs s) requirements_path);
  if negb exists_ then
    emit_log_output "ℹ️ requirements.txt не найден для установки." ;$
    emit_progress 0 ;$
    emit_dependencies_installed script_dir true
  else
    busy ←$ gets install_is_running;
    if busy then
      emit_log_output "⚠️ Установка зависимостей уже запущена. Ожидайте."
    else
      emit_log_output ("📦 Запускаю установку зависимостей для "
                         +:+ os_path_basename script_dir +:+ "...") ;$
      let t := {| InstallThread.python_exec := python_exec;
                  InstallThread.requirements_path := requirements_path;
                  InstallThread.isRunning := true |} in
      modify (set_install_thread (Some t)) ;$
      record (thread_start (install t)).

(** The slot of the install thread's [finished_signal]. *)
Definition _on_install_finished (script_dir : string) (success : bool) : M unit :=
  (if success then emit_log_output "✅ Установка зависимостей завершена успешно."
   else emit_log_output "❌ Установка зависимостей завершена с ошибками.") ;$
  modify (λ s, set_cache (clear_packages_cache (_installed_packages_cache s)) s) ;$
  emit_progress 0 ;$
  emit_dependencies_installed script_dir success.

(** *** MainWindow *)

Definition ask (text : string) : M bool :=
  rs ←$ gets replies;
  let reply := default false (head rs) in
  modify (set_replies (tail rs)) ;$
  record (question text reply) ;$
  ret reply.

Definition _check_and_install_dependencies_then_run
    (script_name script_dir python_exec script_path : string) : M unit :=
  dependencies_ok ←$ check_dependencies_method script_dir;
  if dependencies_ok then
    run_script script_path script_dir python_exec script_name
  else
    reply ←$ ask ("Скрипт '" +:+ script_name
                    +:+ "' требует установки или обновления зависимостей. Установить их?");
    if reply then
      log_output "Начинаю установку зависимостей перед запуском..." ;$
      install_dependencies script_dir python_exec
    else
      log_output "Запуск скрипта отменен пользователем.".

Definition _prepare_and_run_script (script_name : string) : M unit :=
  script_path ←$ get_script_path script_name;
  let script_dir := get_script_dir script_name in
  match script_path with
  | None =>
      log_output ("❌ Файл скрипта 'script.py' не найден в '" +:+ script_name +:+ "'.")
  | Some script_path =>
      python_exec ←$ create_or_get_venv script_dir;
      match python_exec with
      | Some python_exec =>
          _check_and_install_dependencies_then_run
            script_name script_dir python_exec script_path
      | None =>
          log_output "Ожидаю создания виртуального окружения для запуска скрипта..."
      end
  end.

(** The body of [_on_dependencies_installed]; it is itself the slot of
    [dependencies_installed_signal], hence of the emissions made inside
    [_prepare_and_run_script]. *)
Definition _on_dependencies_installed_body (script_name : string) (success : bool) : M unit :=
  (if success then
     log_output "✅ Установка зависимостей завершена успешно." ;$
     current ←$ gets current_script_name;
     if bool_decide (Some script_name = current) then
       log_output "Повторяю попытку запуска скрипта после установки зависимостей..." ;$
       _prepare_and_run_script script_name
     else
       log_output ("DEBUG: Установка зависимостей завершена для другого скрипта ("
                     +:+ script_name +:+ ").")
   else
     log_output ("❌ Установка зависимостей для '" +:+ script_name
                   +:+ "' завершилась с ошибками.")) ;$
  modify (λ s, set_cache (clear_packages_cache (_installed_packages_cache s)) s) ;$
  modify (set_progress_bar (0%Z, false)).

End connected.

(** [MainWindow._on_dependencies_installed], connected to the signal whose
    emissions it may cause: [fuel] bounds the nesting of the slot in itself. *)
Fixpoint _on_dependencies_installed (fuel : nat) (script_name : string) (success : bool)
  : M unit :=
  match fuel with
  | O => λ _, None
  | S fuel' =>
      _on_dependencies_installed_body (_on_dependencies_installed fuel') script_name success
  end.

(** [_on_venv_created], the slot of [venv_created_signal]. *)
Definition _on_venv_created (fuel : nat) (script_dir python_exec_path : string) : M unit :=
  log_output ("✅ Виртуальное окружение готово для " +:+ os_path_basename script_dir +:+ ".") ;$
  install_dependencies (_on_dependencies_installed fuel) script_dir python_exec_path.

(** [_on_venv_creation_finished], the slot of the creation thread's
    [finished_signal]. *)
Definition _on_venv_creation_finished (fuel : nat) (script_dir : string)
    (success : bool) (result : string) : M unit :=
  (if success then
     emit_log_output "✅ Виртуальное окружение успешно создано!" ;$
     record (dm_emit (venv_created_signal script_dir result)) ;$
     _on_venv_created fuel script_dir result
   else
     emit_log_output ("❌ Ошибка создания виртуального окружения: " +:+ result)) ;$
  emit_progress 0.

End app.

(** The number of environment-creation tasks and of worker processes
    launched, read off the trace. *)
Definition is_venv_start (e : Event) : bool :=
  match e with
  | thread_start (venv_creation _) => true
  | _ => false
  end.

Definition is_worker_start (e : Event) : bool :=
  match e with
  | thread_start (worker _) => true
  | _ => false
  end.

Definition venv_starts (s : App) : nat := length (List.filter is_venv_start (trace s)).

Definition worker_starts (s : App) : nat := length (List.filter is_worker_start (trace s)).

(** ** Vocabulary of the statements *)

(** *** Requirement analysis *)

Definition nl : string := String Py.LF "".

(** The names one stripped line contributes to [imports]. *)
Definition line_imports (line : string) : gset string :=
  analyze_line _get_stdlib_list ∅ line.

(** A name is contributed by some kept line of the source text. *)
Definition contributed (content x : string) : Prop :=
  ∃ raw, raw ∈ Py.split nl content ∧ kept_line raw = true
         ∧ x ∈ line_imports (Py.strip raw).

(** Strictly ascending order on strings. *)
Definition string_lt (a b : string) : Prop := String.le a b ∧ a ≠ b.

(** The part of [s] before the first occurrence of [sep]: what
    [s.split(sep)[0]] is. *)
Fixpoint before (sep s : string) : string :=
  match s with
  | EmptyString => EmptyString
  | String c s' => if String.prefix sep s then EmptyString else String c (before sep s')
  end.

(** The character [c] occurs in [s]. *)
Fixpoint has_char (c : ascii) (s : string) : bool :=
  match s with
  | EmptyString => false
  | String c' s' => Ascii.eqb c c' || has_char c s'
  end.


(** *** Satisfaction check *)

Section vocabulary.
Context `{Packaging}.

(** The installed version [v] violates the constraint: the specifier set is
    not empty and [contains] answers [False]. *)
Definition violates (spec : SpecifierSet) (v : string) : Prop :=
  spec_len spec ≠ 0 ∧ spec_contains spec v = Ret false.

(** The requirement names a package of the snapshot whose version does not
    violate the constraint. *)
Definition satisfied (installed : gmap string string) (req : Requirement) : Prop :=
  ∃ v, installed !! Py.lower (req_name req) = Some v
       ∧ ¬ violates (req_specifier req) v.

(** The package is absent, or installed at a violating version. *)
Definition unmet (installed : gmap string string) (req : Requirement) : Prop :=
  match installed !! Py.lower (req_name req) with
  | None => True
  | Some v => violates (req_specifier req) v
  end.

(** What the missing list holds for an unmet requirement. *)
Definition missing_entry (installed : gmap string string) (req : Requirement) : string :=
  match installed !! Py.lower (req_name req) with
  | None => req_str req
  | Some v => violation_entry (Py.lower (req_name req)) (req_specifier req) v
  end.

(** The line does not parse as a requirement. *)
Definition is_malformed (line : string) : bool :=
  match Requirement_init line with
  | Raise _ => true
  | Ret _ => false
  end.

(** The entry the loop body appends to [missing] for a line, if any. *)
Definition entry_of (installed : gmap string string) (line : string) : option string :=
  match check_requirement installed line with
  | Ret (Some entry) => Some entry
  | _ => None
  end.

(** The diagnostic logged for a line whose check raises. *)
Definition diagnostic (installed : gmap string string) (line : string) : option string :=
  match check_requirement installed line with
  | Raise e => Some (parse_error_log line e)
  | Ret _ => None
  end.

(** Two manifest lines that differ at most in the letter case of the package
    name: both fail to parse, or both parse to requirements with the same
    lower-cased name and the same specifier. *)
Definition same_line_up_to_case (l l' : string) : Prop :=
  match Requirement_init l, Requirement_init l' with
  | Ret r, Ret r' =>
      Py.lower (req_name r) = Py.lower (req_name r')
      ∧ req_specifier r = req_specifier r'
  | Raise _, Raise _ => True
  | _, _ => False
  end.

End vocabulary.

(** Two installed distributions that differ at most in the letter case of the
    name. *)
Definition same_dist_up_to_case (d d' : Distribution) : Prop :=
  Py.lower <$> metadata_Name d = Py.lower <$> metadata_Name d'
  ∧ dist_version d = dist_version d'.

(** *** Threads *)

(** The installation ran to its end and pip exited with code 0: neither the
    pip upgrade nor the start of the installation raised, every line of
    stdout was read while the thread had not been asked to stop, stderr was
    read, and the exit code is 0. *)
Definition completes_successfully (s : InstallThread.Session) : Prop :=
  (∃ c, InstallThread.upgrade_pip s = Ret c)
  ∧ InstallThread.popen s = Ret ()
  ∧ Forall (λ l, ∃ line, l = Ret (line, true)) (InstallThread.stdout_lines s)
  ∧ Forall (λ l, ∃ line, l = Ret line) (InstallThread.stderr_lines s)
  ∧ InstallThread.wait s = Ret 0%Z.

(** Signals among which there is no percentage and no successful end. *)
Definition quiet (out : list InstallThread.Signal) : Prop :=
  InstallThread.progress_values out = []
  ∧ InstallThread.finished_signal true ∉ out.

(** The last three signals of a successful installation. *)
Definition success_tail : list InstallThread.Signal :=
  [InstallThread.progress_signal 100;
   InstallThread.output_signal "✅ Зависимости успешно установлены!";
   InstallThread.finished_signal true].

(** An installation that prints forty lines and succeeds. *)
Definition clean_install : InstallThread.Session :=
  {| InstallThread.upgrade_pip :=
       Ret {| InstallThread.stdout := "Requirement already satisfied: pip";
              InstallThread.stderr := ""; InstallThread.returncode := 0 |};
     InstallThread.popen := Ret ();
     InstallThread.stdout_lines := replicate 40 (Ret ("Collecting requests" +:+ nl, true));
     InstallThread.stderr_lines := [];
     InstallThread.wait := Ret 0%Z |}.

(** *** Application state *)


(** The state with [events] appended to its trace and nothing else changed. *)
Definition logged (events : list Event) (s : App) : App :=
  set_trace (trace s ++ events) s.

(** What emitting [text] on [log_output_signal] adds to the trace. *)
Definition log_events (text : string) : list Event :=
  [dm_emit (log_output_signal text); console_append text].



(** *** Example data *)

Definition demo_requirements : string := "scripts/demo/requirements.txt".

Definition demo_python : string := "scripts/demo/.venv/bin/python".

(** A file system that holds only the manifest of [demo]. *)
Definition demo_requirement (text : string) : gmap string FileNode :=
  {[ demo_requirements := File text ]}.

(** The snapshot in which [requests 2.31.0] is installed. *)
Definition demo_index : gmap string string := {[ "requests" := "2.31.0" ]}.

(** The script [demo] with its manifest and its environment. *)
Definition demo_fs : gmap string FileNode :=
  {[ "scripts/demo/script.py" := File "import requests";
     demo_requirements := File "requests>=2,<3";
     demo_python := File "" ]}.

(** The script [demo] is selected, its environment exists, and the install
    thread started for it has just finished: [requests] is now installed,
    while the cache still holds the snapshot taken before. *)
Definition demo_after_install : App :=
  {| fs := demo_fs;
     dists := [{| metadata_Name := Some "requests"; dist_version := "2.31.0" |}];
     replies := [];
     current_script_name := Some "demo";
     running_script_name := None;
     progress_bar := (95%Z, true);
     _installed_packages_cache := Some ∅;
     _install_thread :=
       Some {| InstallThread.python_exec := demo_python;
               InstallThread.requirements_path := demo_requirements;
               InstallThread.isRunning := false |};
     _venv_thread := None;
     worker_thread := None;
     trace := [] |}.


(** The environment of [fresh] does not exist yet and its creation is in
    flight. *)
Definition demo_creating : App :=
  {| fs := {[ "scripts/fresh/script.py" := File "print(1)" ]};
     dists := [];
     replies := [];
     current_script_name := Some "fresh";
     running_script_name := None;
     progress_bar := (10%Z, true);
     _installed_packages_cache := None;
     _install_thread := None;
     _venv_thread :=
       Some {| VenvCreationThread.venv_path := "scripts/fresh/.venv";
               VenvCreationThread.python_path := sys_executable;
               VenvCreationThread.isRunning := true |};
     worker_thread := None;
     trace := [] |}.

(** ** Further code of [scripts/newMain.py]

    The methods below are modelled like those above: a thread's [run] as a
    function of what its child processes do, a method of the application
    objects as a transformer of [App], and a method that only computes on
    its arguments and fields as a function of them. *)

(** *** [VenvCreationThread.run]

    The thread object as [DependencyManagement] sees it is
    [VenvCreationThread.t] above; this module holds its [run]. *)

Module VenvCreation.

Inductive Signal : Type :=
| progress_signal (value : Z)
| output_signal (text : string)
| finished_signal (success : bool) (result : string).

#[export] Instance Signal_eq_dec : EqDecision Signal.
Proof. solve_decision. Defined.

(** What happens during one [run], in the order of the calls:
    - [virtualenv_version]: the exit code of [python -m virtualenv --version],
      or the exception [subprocess.run] raises when the process cannot be
      started;
    - [pip_install_virtualenv]: [python -m pip install virtualenv];
    - [virtualenv_create]: [python -m virtualenv venv_path];
    - [pip_version]: the exit code of [python_exec -m pip --version]. *)
Record Session : Type := {
  virtualenv_version : exc Z;
  pip_install_virtualenv : exc InstallThread.Completed;
  virtualenv_create : exc InstallThread.Completed;
  pip_version : exc Z;
}.

(** [_check_virtualenv_installed]: [check=True] turns a non-zero exit code
    into [CalledProcessError], the only exception caught. *)
Definition _check_virtualenv_installed (r : exc Z) : emitting Signal bool :=
  code ←@ em_lift r;
  em_ret (bool_decide (code = 0%Z)).

(** The common body of [_install_virtualenv] and [_create_virtualenv]. *)
Definition run_reporting (c : exc InstallThread.Completed) : emitting Signal bool :=
  result ←@ em_lift c;
  (if bool_decide (InstallThread.stdout result = "") then em_ret ()
   else em_emit (output_signal (Py.strip (InstallThread.stdout result)))) ;@
  (if bool_decide (InstallThread.stderr result = "") then em_ret ()
   else em_emit (output_signal ("⚠️ " +:+ Py.strip (InstallThread.stderr result)))) ;@
  em_ret (bool_decide (InstallThread.returncode result = 0%Z)).

Definition _install_virtualenv (s : Session) : emitting Signal bool :=
  run_reporting (pip_install_virtualenv s).

Definition _create_virtualenv (s : Session) : emitting Signal bool :=
  run_reporting (virtualenv_create s).

Definition _check_pip_installed (s : Session) : emitting Signal bool :=
  code ←@ em_lift (pip_version s);
  em_ret (bool_decide (code = 0%Z)).

(** [os.path.join(self.venv_path, "Scripts" if nt else "bin",
    "python.exe" if nt else "python")] *)
Definition python_exec (venv_path : string) : string :=
  Py.path_join
    (Py.path_join venv_path (if bool_decide (os_name = "nt") then "Scripts" else "bin"))
    (if bool_decide (os_name = "nt") then "python.exe" else "python").

(** The first [if] of [run]; [false] stands for the [return] inside it. *)
Definition ensure_virtualenv (s : Session) : emitting Signal bool :=
  installed ←@ _check_virtualenv_installed (virtualenv_version s);
  if negb installed then
    em_emit (output_signal "📦 Устанавливаю virtualenv...") ;@
    ok ←@ _install_virtualenv s;
    if negb ok then
      em_emit (finished_signal false "Не удалось установить virtualenv") ;@
      em_ret false
    else
      em_emit (progress_signal 30) ;@
      em_ret true
  else em_ret true.

(** The rest of the [try], from the creation of the environment on. *)
Definition create_environment (venv_path : string) (s : Session) : emitting Signal unit :=
  em_emit (output_signal "⚙️ Создаю виртуальное окружение...") ;@
  created ←@ _create_virtualenv s;
  if negb created then
    em_emit (finished_signal false "Ошибка создания виртуального окружения")
  else
    em_emit (progress_signal 80) ;@
    has_pip ←@ _check_pip_installed s;
    if negb has_pip then
      em_emit (finished_signal false "Pip не установлен в виртуальном окружении")
    else
      em_emit (progress_signal 100) ;@
      em_emit (output_signal "✅ Виртуальное окружение успешно создано!") ;@
      em_emit (finished_signal true (python_exec venv_path)).

(** The body of the [try]. *)
Definition run_body (venv_path : string) (s : Session) : emitting Signal unit :=
  em_emit (output_signal "🔍 Начинаю создание виртуального окружения...") ;@
  em_emit (progress_signal 10) ;@
  proceed ←@ ensure_virtualenv s;
  if negb proceed then em_ret () else create_environment venv_path s.

(** [run]: [try] / [except Exception]. *)
Definition run (venv_path : string) (s : Session) : list Signal :=
  match run_body venv_path s with
  | (out, Ret _) => out
  | (out, Raise e) => out ++ [finished_signal false e]
  end.

Definition progress_values (out : list Signal) : list Z :=
  omap (λ s, match s with progress_signal v => Some v | _ => None end) out.

Definition is_finished (s : Signal) : bool :=
  match s with
  | finished_signal _ _ => true
  | _ => false
  end.

(** Every step of the creation went through: [virtualenv] was there or its
    installation exited with code 0, the creation exited with code 0, and
    [pip --version] in the new environment exited with code 0. *)
Definition creation_succeeds (s : Session) : Prop :=
  (virtualenv_version s = Ret 0%Z
   ∨ ∃ code c, virtualenv_version s = Ret code ∧ code ≠ 0%Z
               ∧ pip_install_virtualenv s = Ret c ∧ InstallThread.returncode c = 0%Z)
  ∧ (∃ c, virtualenv_create s = Ret c ∧ InstallThread.returncode c = 0%Z)
  ∧ pip_version s = Ret 0%Z.

End VenvCreation.

(** *** [GitHubUpdaterThread.run] *)

Module GitHubUpdaterThread.

Inductive Signal : Type :=
| output_signal (text : string)
| finished_signal (success : bool) (message : string).

(** The outcome of [subprocess.run(..., check=True, capture_output=True)]:
    the command exits with code 0, it exits with another code
    ([CalledProcessError], with [str(e)] and [e.stderr]), or the call raises
    an exception of another class, given by its class name and [str(e)]. *)
Inductive Outcome : Type :=
| completed
| CalledProcessError (message stderr : string)
| other_error (class_name message : string).

Inductive Command : Type :=
| git_clone (repo_url local_path : string)
| chdir (path : string)
| git_pull
| git_reset_hard.

(** What [run] does, in order: the signals it emits and the commands it
    runs. *)
Inductive Step : Type :=
| emit (s : Signal)
| call (c : Command).

(** What happens during one [run]: the outcome of each command, where the
    code gets to it. *)
Record Session : Type := {
  clone : Outcome;
  change_dir : exc unit;
  pull : Outcome;
  reset : Outcome;
  pull_again : Outcome;
}.

(** [sub in s] *)
Fixpoint contains (sub s : string) : bool :=
  String.prefix sub s
  || match s with
     | EmptyString => false
     | String _ s' => contains sub s'
     end.

(** The two handlers of the outer [try]. *)
Definition outer_handler (o : Outcome) : list Step :=
  match o with
  | completed => []
  | CalledProcessError _ stderr =>
      [emit (finished_signal false ("❌ Ошибка Git: " +:+ Py.strip stderr))]
  | other_error _ message =>
      [emit (finished_signal false ("❌ Непредвиденная ошибка: " +:+ message))]
  end.

(** The handler of the inner [try] around the reset and the second pull.
    It formats [reset_e.stderr], an attribute only [CalledProcessError] has:
    for another exception the formatting raises [AttributeError], which the
    outer [except Exception] reports. *)
Definition reset_handler (o : Outcome) : list Step :=
  match o with
  | completed => []
  | CalledProcessError message stderr =>
      [emit (finished_signal false
               ("❌ Ошибка при сбросе локальных изменений или повторном pull: "
                  +:+ message +:+ String Py.LF "" +:+ stderr))]
  | other_error class_name _ =>
      [emit (finished_signal false
               ("❌ Непредвиденная ошибка: '" +:+ class_name
                  +:+ "' object has no attribute 'stderr'"))]
  end.

Definition run (repo_url local_path action : string) (s : Session) : list Step :=
  if bool_decide (action = "clone") then
    [emit (output_signal ("⚙️ Клонирую репозиторий '" +:+ repo_url +:+ "' в '"
                            +:+ local_path +:+ "'..."));
     call (git_clone repo_url local_path)]
    ++ match clone s with
       | completed => [emit (finished_signal true "✅ Репозиторий успешно клонирован.")]
       | o => outer_handler o
       end
  else if bool_decide (action = "pull") then
    [emit (output_signal ("⚙️ Обновляю репозиторий в '" +:+ local_path +:+ "'..."));
     call (chdir local_path)]
    ++ match change_dir s with
       | Raise e => [emit (finished_signal false ("❌ Непредвиденная ошибка: " +:+ e))]
       | Ret _ =>
           call git_pull ::
           match pull s with
           | completed => [emit (finished_signal true "✅ Репозиторий успешно обновлен.")]
           | CalledProcessError _ stderr =>
               if contains "merge conflict" (Py.lower stderr)
                  || contains "local changes" (Py.lower stderr)
               then
                 [emit (output_signal
                          "⚠️ Обнаружены локальные изменения или конфликт слияния. Попытка сброса...");
                  call git_reset_hard]
                 ++ match reset s with
                    | completed =>
                        [emit (output_signal "⚙️ Локальные изменения сброшены. Повторяю pull...");
                         call git_pull]
                        ++ match pull_again s with
                           | completed =>
                               [emit (finished_signal true
                                        "✅ Репозиторий успешно обновлен (после сброса локальных изменений).")]
                           | o => reset_handler o
                           end
                    | o => reset_handler o
                    end
               else
                 [emit (finished_signal false
                          ("❌ Ошибка при обновлении репозитория: " +:+ Py.strip stderr))]
           | o => outer_handler o
           end
       end
  else [emit (finished_signal false "❌ Неизвестное действие Git.")].

Definition is_finished (st : Step) : bool :=
  match st with
  | emit (finished_signal _ _) => true
  | _ => false
  end.

(** The error output of a failed pull names a merge conflict or local
    changes, in any letter case. *)
Definition mentions_conflict (stderr : string) : Prop :=
  contains "merge conflict" (Py.lower stderr) = true
  ∨ contains "local changes" (Py.lower stderr) = true.

End GitHubUpdaterThread.

(** *** [ScriptExecutor.stop_script] *)

(** [stop_script]: the arguments are what [WorkerThread.stop] finds, see
    [WorkerThread.stop].  The result is [None] when there is nothing to
    stop, and otherwise the operations [stop] performed on the process after
    setting [_is_running] to false. *)
Definition stop_script (has_process exited_at_once exited_in_grace : bool)
  : M (option (list WorkerThread.ProcessOp)) :=
  busy ←$ gets worker_is_running;
  if busy then
    emit_output "⏹ Останавливаю скрипт..." ;$
    ret (Some (WorkerThread.stop has_process exited_at_once exited_in_grace))
  else
    emit_output "ℹ️ Нет запущенных скриптов для остановки." ;$
    ret None.

(** The number of install threads started, read off the trace. *)
Definition is_install_start (e : Event) : bool :=
  match e with
  | thread_start (install _) => true
  | _ => false
  end.

Definition install_starts (s : App) : nat :=
  length (List.filter is_install_start (trace s)).

(** The questions asked, read off the trace. *)
Definition is_question (e : Event) : bool :=
  match e with
  | question _ _ => true
  | _ => false
  end.

Definition questions (s : App) : nat := length (List.filter is_question (trace s)).

(** Events that start no thread. *)
Definition starts_nothing (e : Event) : bool :=
  match e with
  | thread_start _ => false
  | _ => true
  end.

(** No thread is started from [s] to [s']. *)
Definition nothing_started (s s' : App) : Prop :=
  worker_thread s' = worker_thread s
  ∧ _install_thread s' = _install_thread s
  ∧ _venv_thread s' = _venv_thread s
  ∧ worker_starts s' = worker_starts s
  ∧ install_starts s' = install_starts s
  ∧ venv_starts s' = venv_starts s.

(** Events that only report: a text on a log or output signal, a
    percentage, a line on the console. *)
Definition is_report (e : Event) : bool :=
  match e with
  | dm_emit (log_output_signal _) | dm_emit (progress_signal _)
  | executor_emit (output_signal _) | executor_emit (error_signal _)
  | console_append _ => true
  | _ => false
  end.

(** From [s] to [s'] texts and percentages were reported and nothing else
    happened: no thread was started, no question asked, no
    [venv_created_signal] or [dependencies_installed_signal] emitted, and
    the files, the selection and the thread handles are the same.  The
    progress bar and the package cache are left open. *)
Definition only_reported (s s' : App) : Prop :=
  fs s' = fs s ∧ dists s' = dists s ∧ replies s' = replies s
  ∧ current_script_name s' = current_script_name s
  ∧ running_script_name s' = running_script_name s
  ∧ worker_thread s' = worker_thread s
  ∧ _install_thread s' = _install_thread s
  ∧ _venv_thread s' = _venv_thread s
  ∧ ∃ events, trace s' = trace s ++ events ∧ forallb is_report events = true.

(** *** The connections of the background threads

    [create_or_get_venv] and [install_dependencies] connect the signals of
    the thread they start: the texts go to [log_output_signal], the
    percentages to [progress_signal], the final signal to
    [_on_venv_creation_finished] and [_on_install_finished]. *)

Section thread_connections.
Context `{Packaging}.

Definition deliver_venv (fuel : nat) (script_dir : string) (sig : VenvCreation.Signal)
  : M unit :=
  match sig with
  | VenvCreation.output_signal text => emit_log_output text
  | VenvCreation.progress_signal value => emit_progress value
  | VenvCreation.finished_signal success result =>
      _on_venv_creation_finished fuel script_dir success result
  end.

Fixpoint deliver_venv_all (fuel : nat) (script_dir : string)
    (sigs : list VenvCreation.Signal) : M unit :=
  match sigs with
  | [] => ret ()
  | sig :: sigs' => deliver_venv fuel script_dir sig ;$ deliver_venv_all fuel script_dir sigs'
  end.

Definition deliver_install (fuel : nat) (script_dir : string) (sig : InstallThread.Signal)
  : M unit :=
  match sig with
  | InstallThread.output_signal text => emit_log_output text
  | InstallThread.progress_signal value => emit_progress value
  | InstallThread.finished_signal success =>
      _on_install_finished (_on_dependencies_installed fuel) script_dir success
  end.

Fixpoint deliver_install_all (fuel : nat) (script_dir : string)
    (sigs : list InstallThread.Signal) : M unit :=
  match sigs with
  | [] => ret ()
  | sig :: sigs' =>
      deliver_install fuel script_dir sig ;$ deliver_install_all fuel script_dir sigs'
  end.

End thread_connections.

(** *** [DependencyManagement.create_requirements_file] *)

(** The text written: ["\n".join(imports) + "\n"]. *)
Definition requirements_text (imports : list string) : string :=
  Py.join nl imports +:+ nl.

(** [create_requirements_file]; [opened] is the outcome of opening
    [requirements_path] for writing.  Returns the file system afterwards, or
    the exception, and the texts emitted on [log_output_signal]. *)
Definition create_requirements_file (opened : exc unit) (fs : gmap string FileNode)
    (script_dir : string) (imports : list string)
  : exc (gmap string FileNode) * list string :=
  let requirements_path := Py.path_join script_dir "requirements.txt" in
  match opened with
  | Raise e => (Raise e, [])
  | Ret _ =>
      (Ret (<[requirements_path := File (requirements_text imports)]> fs),
       ["✅ Создан requirements.txt для " +:+ os_path_basename script_dir])
  end.

Definition CR : ascii := "013"%char.

(** A name holds no line terminator. *)
Definition one_line (name : string) : Prop :=
  has_char Py.LF name = false ∧ has_char CR name = false.

(** *** [ScriptListManager] *)

Definition os_path_isdir (fs : gmap string FileNode) (path : string) : bool :=
  match fs !! path with
  | Some Dir => true
  | _ => false
  end.

Definition os_path_isfile (fs : gmap string FileNode) (path : string) : bool :=
  match fs !! path with
  | Some (File _) | Some (Unreadable _) => true
  | _ => false
  end.

(** [os.makedirs(path, exist_ok=True)] for a [path] whose parent exists. *)
Definition os_makedirs (fs : gmap string FileNode) (path : string)
  : exc (gmap string FileNode) :=
  match fs !! path with
  | Some Dir => Ret fs
  | Some _ => Raise ("[Errno 17] File exists: '" +:+ path +:+ "'")
  | None => Ret (<[path := Dir]> fs)
  end.

(** The condition of the first loop of [get_all_scripts]: the folder is a
    directory holding a file [script.py]. *)
Definition is_script_folder (fs : gmap string FileNode) (script_dir folder : string) : bool :=
  let folder_path := Py.path_join script_dir folder in
  let script_file := Py.path_join folder_path "script.py" in
  os_path_isdir fs folder_path && os_path_isfile fs script_file.

(** The rest of [get_all_scripts], once [all_scripts] is known. *)
Definition order_scripts (all_scripts saved_order : list string) (pinned : gset string)
  : list string :=
  let pinned_ordered :=
    List.filter (λ script, bool_decide (script ∈ pinned) && bool_decide (script ∈ all_scripts))
      saved_order in
  let other_scripts :=
    Py.sorted (List.filter (λ s, negb (bool_decide (s ∈ pinned))) all_scripts) in
  pinned_ordered ++ other_scripts.

(** [get_all_scripts]: [cwd] is [os.getcwd()], [listing] what
    [os.listdir(script_dir)] returns, [saved_order] what
    [get_saved_script_order()] returns and [pinned] the set
    [self.pinned_scripts].  Returns the list and the file system
    afterwards. *)
Definition get_all_scripts (cwd : string) (fs : gmap string FileNode)
    (listing saved_order : list string) (pinned : gset string)
  : exc (list string * gmap string FileNode) :=
  let script_dir := Py.path_join cwd "scripts" in
  fs' ←! os_makedirs fs script_dir;
  let all_scripts := List.filter (is_script_folder fs' script_dir) listing in
  Ret (order_scripts all_scripts saved_order pinned, fs').

(** [toggle_pin_script]; [saved] is the outcome of writing
    [pinned_scripts.json].  Returns the set afterwards and the texts emitted
    on [log_output_signal]. *)
Definition toggle_pin_script (saved : exc unit) (pinned : gset string) (script_name : string)
  : gset string * list string :=
  let save_log :=
    match saved with
    | Ret _ => []
    | Raise e => ["❌ Ошибка сохранения закрепленных скриптов: " +:+ e]
    end in
  if bool_decide (script_name ∈ pinned)
  then (pinned ∖ {[ script_name ]},
        ("📌 Скрипт '" +:+ script_name +:+ "' откреплен.") :: save_log)
  else (pinned ∪ {[ script_name ]},
        ("📌 Скрипт '" +:+ script_name +:+ "' закреплен.") :: save_log).

(** *** InstallThread: the final signal *)

(** No [finished_signal] among the signals. *)
Definition install_nofin (out : list InstallThread.Signal) : Prop :=
  Forall (λ e, ∀ b, e ≠ InstallThread.finished_signal b) out.

(** A computation that has emitted its single [finished_signal] last when it
    returns, and none when it raises. *)
Definition install_ends_well {A} (m : emitting InstallThread.Signal A) : Prop :=
  match m.2 with
  | Ret _ => ∃ pre ok, m.1 = pre ++ [InstallThread.finished_signal ok] ∧ install_nofin pre
  | Raise _ => install_nofin m.1
  end.

(** *** More example data *)

(** An installation whose [pip install -r] cannot be started. *)
Definition failing_install : InstallThread.Session :=
  {| InstallThread.upgrade_pip :=
       Ret {| InstallThread.stdout := ""; InstallThread.stderr := "";
              InstallThread.returncode := 0 |};
     InstallThread.popen := Raise "[Errno 2] No such file or directory: 'python'";
     InstallThread.stdout_lines := [];
     InstallThread.stderr_lines := [];
     InstallThread.wait := Ret 0%Z |}.

(** A creation for which [virtualenv] has to be installed first and every
    step succeeds. *)
Definition clean_creation : VenvCreation.Session :=
  {| VenvCreation.virtualenv_version := Ret 1%Z;
     VenvCreation.pip_install_virtualenv :=
       Ret {| InstallThread.stdout := "Successfully installed virtualenv";
              InstallThread.stderr := ""; InstallThread.returncode := 0 |};
     VenvCreation.virtualenv_create :=
       Ret {| InstallThread.stdout := "created virtual environment";
              InstallThread.stderr := ""; InstallThread.returncode := 0 |};
     VenvCreation.pip_version := Ret 0%Z |}.

(** A creation in which [virtualenv] exits with an error. *)
Definition failing_creation : VenvCreation.Session :=
  {| VenvCreation.virtualenv_version := Ret 0%Z;
     VenvCreation.pip_install_virtualenv := Raise "not called";
     VenvCreation.virtualenv_create :=
       Ret {| InstallThread.stdout := "";
              InstallThread.stderr := "virtualenv: error";
              InstallThread.returncode := 2 |};
     VenvCreation.pip_version := Raise "not called" |}.

(** The script [fresh] has a manifest, its environment is being created and
    no installation is running. *)
Definition demo_provisioning : App :=
  {| fs := {[ "scripts/fresh/script.py" := File "import requests";
              "scripts/fresh/requirements.txt" := File "requests" ]};
     dists := [];
     replies := [];
     current_script_name := Some "fresh";
     running_script_name := None;
     progress_bar := (10%Z, true);
     _installed_packages_cache := None;
     _install_thread := None;
     _venv_thread :=
       Some {| VenvCreationThread.venv_path := "scripts/fresh/.venv";
               VenvCreationThread.python_path := sys_executable;
               VenvCreationThread.isRunning := true |};
     worker_thread := None;
     trace := [] |}.

(** The script [demo] with its dependencies installed and no snapshot in the
    cache. *)
Definition demo_ready : App := set_cache None demo_after_install.

(** A slot that does nothing. *)
Definition no_slot : string → bool → M unit := λ _ _, ret ().

(** A [scripts] directory with the scripts [alpha], [beta] and [gamma], and
    a folder without [script.py]. *)
Definition demo_scripts : gmap string FileNode :=
  {[ "/app/scripts" := Dir;
     "/app/scripts/alpha" := Dir; "/app/scripts/alpha/script.py" := File "";
     "/app/scripts/beta" := Dir; "/app/scripts/beta/script.py" := File "";
     "/app/scripts/gamma" := Dir; "/app/scripts/gamma/script.py" := File "";
     "/app/scripts/notes" := Dir ]}.

(** * Properties *)

(** ** Python strings *)

Lemma has_char_slice_from c n s : has_char c (Py.slice_from n s) = true → has_char c s = true.
Proof.
  revert s. induction n as [|n IH]; intros s; [by destruct s|].
  destruct s as [|x s]; [done|]. cbn [Py.slice_from has_char]. intros Hc.
  rewrite (IH _ Hc). apply orb_true_r.
Qed.
Lemma has_char_rev_app c a b :
  has_char c (String.rev_app a b) = has_char c a || has_char c b.
Proof.
  revert b. induction a as [|x a IH]; intros b; [done|].
  cbn [String.rev_app]. rewrite IH. cbn [has_char].
  destruct (Ascii.eqb c x), (has_char c a), (has_char c b); done.
Qed.

Lemma has_char_rev c s : has_char c (String.rev s) = has_char c s.
Proof. unfold String.rev. rewrite has_char_rev_app. cbn. by rewrite orb_false_r. Qed.

Lemma string_len_ind (P : string → Prop) :
  (∀ s, (∀ r, String.length r < String.length s → P r) → P s) → ∀ s, P s.
Proof.
  intros Hstep s. remember (String.length s) as n eqn:Hn.
  revert s Hn. induction n as [n IH] using lt_wf_ind. intros s ->.
  apply Hstep. intros r ?. by apply (IH (String.length r)).
Qed.

Lemma prefix_split w s : String.prefix w s = true → ∃ r, s = w +:+ r.
Proof.
  revert s. induction w as [|a w IH]; intros s; [by exists s|].
  destruct s as [|b s]; [done|]. cbn [String.prefix].
  destruct (Ascii.ascii_dec a b) as [->|]; [|done].
  intros [r ->]%IH. by exists r.
Qed.

Lemma wide_spaces_shape :
  Forall (λ w, (String.length w = 2 ∨ String.length w = 3) ∧ has_char Py.LF w = false)
    Py.wide_spaces.
Proof. apply (bool_decide_unpack _). by vm_compute. Qed.

Lemma find_wide_space s w :
  List.find (λ w, String.prefix w s) Py.wide_spaces = Some w →
  (String.length w = 2 ∨ String.length w = 3) ∧ ∃ r, s = w +:+ r.
Proof.
  intros [Hin Hp]%List.find_some.
  pose proof wide_spaces_shape as Hall. rewrite Forall_forall in Hall.
  destruct (Hall w) as [? ?]; [by apply list_elem_of_In|].
  split; [done|by apply prefix_split].
Qed.

(** The white space a text starts with lies within the text. *)
Lemma space_len_shape s :
  match Py.space_len s with
  | 0 => True
  | 1 => ∃ a r, s = String a r
  | 2 => ∃ a b r, s = String a (String b r)
  | 3 => ∃ a b c r, s = String a (String b (String c r))
  | _ => False
  end.
Proof.
  destruct s as [|x s]; [done|]. unfold Py.space_len.
  destruct (Py.isspace x); [by eauto|].
  destruct (List.find _ _) as [w|] eqn:Hf; [|done].
  apply find_wide_space in Hf as [[Hl|Hl] [r Hr]]; rewrite Hl.
  - destruct w as [|a [|b [|? ?]]]; try done. rewrite Hr. by eauto.
  - destruct w as [|a [|b [|c [|? ?]]]]; try done. rewrite Hr. by eauto.
Qed.

Lemma lstrip_unfold s :
  Py.lstrip s =
    match Py.space_len s with
    | 0 => s
    | n => Py.lstrip (Py.slice_from n s)
    end.
Proof.
  destruct s as [|x s]; [done|].
  pose proof (space_len_shape (String x s)) as Hs. cbn [Py.lstrip].
  destruct (Py.space_len (String x s)) as [|[|[|[|n]]]]; try done.
  - by destruct Hs as (a & b & r & [= -> ->]).
  - by destruct Hs as (a & b & c & r & [= -> ->]).
Qed.

Lemma split_ws_go_unfold cur x s :
  Py.split_ws_go cur (String x s) =
    match Py.space_len (String x s) with
    | 0 => Py.split_ws_go (Some (String x (default "" cur))) s
    | n => option_list (String.rev <$> cur)
             ++ Py.split_ws_go None (Py.slice_from n (String x s))
    end.
Proof.
  pose proof (space_len_shape (String x s)) as Hs. cbn [Py.split_ws_go].
  destruct (Py.space_len (String x s)) as [|[|[|[|n]]]]; try done.
  - by destruct Hs as (a & b & r & [= -> ->]).
  - by destruct Hs as (a & b & c & r & [= -> ->]).
Qed.

Lemma slice_from_length n s :
  n ≠ 0 → s ≠ "" → String.length (Py.slice_from n s) < String.length s.
Proof.
  intros Hn Hs. destruct n as [|n]; [done|]. destruct s as [|x s]; [done|].
  cbn [Py.slice_from String.length]. clear. revert s.
  induction n as [|n IH]; intros s; [cbn; lia|].
  destruct s as [|y s]; [cbn; lia|]. cbn [Py.slice_from String.length].
  specialize (IH s). lia.
Qed.

Lemma has_char_lstrip c s : has_char c (Py.lstrip s) = true → has_char c s = true.
Proof.
  induction s as [s IH] using string_len_ind. rewrite lstrip_unfold.
  destruct (Py.space_len s) as [|n] eqn:Hn; [done|]. intros Hc.
  eapply has_char_slice_from, IH; [|exact Hc].
  apply slice_from_length; [done|]. by intros ->.
Qed.

Lemma has_char_rstrip c s : has_char c (Py.rstrip s) = true → has_char c s = true.
Proof.
  induction s as [|x s IH]; [done|]. cbn [Py.rstrip].
  case_bool_decide; [done|]. cbn [has_char].
  destruct (Ascii.eqb c x); [done|]. exact IH.
Qed.

Lemma has_char_strip c s : has_char c (Py.strip s) = true → has_char c s = true.
Proof. intros Hc. by apply has_char_lstrip, has_char_rstrip. Qed.

Lemma has_char_split_ws_go c cur s m :
  m ∈ Py.split_ws_go cur s → has_char c m = true →
  has_char c (default "" cur) = true ∨ has_char c s = true.
Proof.
  revert cur. induction s as [s IH] using string_len_ind. intros cur.
  destruct s as [|x s].
  - cbn [Py.split_ws_go]. destruct cur as [cur|]; cbn; [|by intros ?%elem_of_nil].
    intros ->%list_elem_of_singleton. rewrite has_char_rev. auto.
  - rewrite split_ws_go_unfold. destruct (Py.space_len (String x s)) as [|n] eqn:Hn.
    + intros Hm Hc. destruct (IH s ltac:(cbn; lia) _ Hm Hc) as [Hcur|Hs].
      * cbn [default has_char] in Hcur |- *.
        apply orb_prop in Hcur as [ -> |?]; auto.
      * right. cbn [has_char]. rewrite Hs. apply orb_true_r.
    + intros [Hm|Hm]%elem_of_app Hc.
      * destruct cur as [cur|]; cbn in Hm; [|by apply elem_of_nil in Hm].
        apply list_elem_of_singleton in Hm as ->. rewrite has_char_rev in Hc. auto.
      * edestruct IH as [?|Hs]; [|exact Hm|exact Hc|done|].
        -- by apply slice_from_length.
        -- right. by eapply has_char_slice_from.
Qed.

Lemma has_char_split_ws c s m :
  m ∈ Py.split_ws s → has_char c m = true → has_char c s = true.
Proof. intros Hm Hc. by destruct (has_char_split_ws_go _ _ _ _ Hm Hc). Qed.

(** Appending a line feed. *)
Lemma prefix_app_nl w s :
  has_char Py.LF w = false → w ≠ "" →
  String.prefix w (s +:+ nl) = String.prefix w s.
Proof.
  revert s. induction w as [|a w IH]; intros s Hw Hne; [done|].
  cbn [has_char] in Hw. apply orb_false_elim in Hw as [Ha Hw].
  destruct s as [|b s].
  - change ("" +:+ nl) with (String Py.LF ""). cbn [String.prefix].
    destruct (Ascii.ascii_dec a Py.LF) as [->|]; [|done].
    by rewrite Ascii.eqb_refl in Ha.
  - change (String b s +:+ nl) with (String b (s +:+ nl)). cbn [String.prefix].
    destruct (Ascii.ascii_dec a b); [|done].
    destruct w as [|a' w]; [by destruct s|]. by apply IH.
Qed.

Lemma space_len_app_nl s : s ≠ "" → Py.space_len (s +:+ nl) = Py.space_len s.
Proof.
  destruct s as [|x s]; [done|]. intros _.
  change (String x s +:+ nl) with (String x (s +:+ nl)). unfold Py.space_len.
  destruct (Py.isspace x); [done|].
  change (String x (s +:+ nl)) with (String x s +:+ nl).
  pose proof wide_spaces_shape as Hall.
  induction Hall as [|w ws [Hl Hw] _ IH]; [done|]. cbn [List.find].
  rewrite prefix_app_nl; [|done|by intros ->; destruct Hl].
  by destruct (String.prefix w (String x s)).
Qed.

Lemma slice_from_app_nl n s :
  n ≤ String.length s → Py.slice_from n (s +:+ nl) = Py.slice_from n s +:+ nl.
Proof.
  revert s. induction n as [|n IH]; intros s Hn; [by destruct s|].
  destruct s as [|x s]; [cbn in Hn; lia|].
  change (String x s +:+ nl) with (String x (s +:+ nl)). cbn [Py.slice_from].
  apply IH. cbn in Hn. lia.
Qed.

Lemma space_len_le s : Py.space_len s ≤ String.length s.
Proof.
  pose proof (space_len_shape s) as Hs.
  destruct (Py.space_len s) as [|[|[|[|n]]]]; try done; [lia|..].
  - destruct Hs as (?&?& ->). cbn. lia.
  - destruct Hs as (?&?&?& ->). cbn. lia.
  - destruct Hs as (?&?&?&?& ->). cbn. lia.
Qed.

Lemma lstrip_app_nl s :
  Py.lstrip (s +:+ nl) = if bool_decide (Py.lstrip s = "") then "" else Py.lstrip s +:+ nl.
Proof.
  induction s as [s IH] using string_len_ind.
  destruct (decide (s = "")) as [->|Hs]; [done|].
  rewrite (lstrip_unfold (s +:+ nl)), (lstrip_unfold s), space_len_app_nl by done.
  destruct (Py.space_len s) as [|n] eqn:Hn.
  - by rewrite bool_decide_eq_false_2.
  - rewrite slice_from_app_nl by (rewrite <- Hn; apply space_len_le).
    apply IH. by apply slice_from_length.
Qed.

Lemma rstrip_app_nl s : Py.rstrip (s +:+ nl) = Py.rstrip s.
Proof.
  induction s as [|c s IH]; [by vm_compute|].
  change (String c s +:+ nl) with (String c (s +:+ nl)).
  cbn [Py.rstrip]. rewrite IH.
  change (String c (s +:+ nl)) with (String c s +:+ nl).
  rewrite lstrip_app_nl.
  destruct (decide (Py.lstrip (String c s) = "")) as [Hl|Hl].
  - by rewrite !(bool_decide_eq_true_2 _ Hl).
  - rewrite !(bool_decide_eq_false_2 _ Hl).
    rewrite bool_decide_eq_false_2; [done|]. by destruct (Py.lstrip (String c s)).
Qed.

Lemma strip_app_nl s : Py.strip (s +:+ nl) = Py.strip s.
Proof.
  unfold Py.strip. rewrite lstrip_app_nl. case_bool_decide as Hl; [by rewrite Hl|].
  apply rstrip_app_nl.
Qed.

(** ** Requirement Analyzer *)

Lemma head_split_go sep cur s :
  head (Py.split_go sep 0 cur s) = Some (String.rev_app cur (before sep s)).
Proof.
  revert cur. induction s as [|c s IH]; intros cur; [done|].
  cbn [Py.split_go before].
  destruct (String.prefix sep (String c s)); [done|].
  by rewrite IH.
Qed.

Lemma item0_split sep s : Py.item0 (Py.split sep s) = before sep s.
Proof. unfold Py.item0, Py.split. by rewrite head_split_go. Qed.

Lemma has_char_before c sep s : has_char c (before sep s) = true → has_char c s = true.
Proof.
  induction s as [|c' s IH]; [done|]. cbn [before].
  destruct (String.prefix sep (String c' s)); [done|]. cbn [has_char].
  destruct (Ascii.eqb c c'); [done|]. exact IH.
Qed.



Lemma analyze_line_union stdlib imports line :
  analyze_line stdlib imports line = imports ∪ analyze_line stdlib ∅ line.
Proof.
  unfold analyze_line.
  destruct (Py.startswith "import " line); [set_solver|].
  destruct (Py.startswith "from " line); [|set_solver].
  destruct (_ && _); [|set_solver].
  case_bool_decide; set_solver.
Qed.

Lemma elem_of_foldl_analyze_line stdlib lines imports x :
  x ∈ foldl (analyze_line stdlib) imports lines
  ↔ x ∈ imports ∨ ∃ line, line ∈ lines ∧ x ∈ analyze_line stdlib ∅ line.
Proof.
  revert imports. induction lines as [|l lines IH]; intros imports; simpl.
  - split; [auto|]. intros [?|(?&Hl&_)]; [done|]. by apply elem_of_nil in Hl.
  - rewrite IH, analyze_line_union, elem_of_union. split.
    + intros [[?|?]|(l'&?&?)]; eauto.
      * right. exists l. split; [left|done].
      * right. exists l'. split; [by right|done].
    + intros [?|(l'&Hl'&?)]; [auto|].
      apply elem_of_cons in Hl' as [->|?]; eauto.
Qed.

Lemma elem_of_source_lines content line :
  line ∈ source_lines content
  ↔ ∃ raw, raw ∈ Py.split nl content ∧ kept_line raw = true ∧ line = Py.strip raw.
Proof.
  unfold source_lines. rewrite list_elem_of_fmap. split.
  - intros (raw & -> & Hraw). apply list_elem_of_filter in Hraw as [? ?]. eauto.
  - intros (raw & ? & ? & ->). exists raw. split; [done|].
    apply list_elem_of_filter. done.
Qed.


Lemma string_lt_sorted (l : list string) :
  NoDup l → StronglySorted String.le l → StronglySorted string_lt l.
Proof.
  induction 2 as [|x l Hs IH Hall]; [constructor|].
  apply NoDup_cons in H as [Hx Hl]. constructor; [auto|].
  apply Forall_forall. intros y Hy. split.
  - by eapply Forall_forall in Hall.
  - intros ->. done.
Qed.

Lemma sorted_elements (X : gset string) :
  StronglySorted string_lt (Py.sorted (elements X))
  ∧ ∀ x, x ∈ Py.sorted (elements X) ↔ x ∈ X.
Proof.
  unfold Py.sorted. split.
  - apply string_lt_sorted.
    + rewrite merge_sort_Permutation. apply NoDup_elements.
    + apply StronglySorted_merge_sort; apply _.
  - intros x. rewrite merge_sort_Permutation. apply elem_of_elements.
Qed.

Lemma analyze_source_contributed content x :
  x ∈ foldl (analyze_line _get_stdlib_list) ∅ (source_lines content) ↔ contributed content x.
Proof.
  rewrite elem_of_foldl_analyze_line. unfold contributed. split.
  - intros [?|(line & Hline & Hx)]; [set_solver|].
    apply elem_of_source_lines in Hline as (raw & ? & ? & ->). eauto.
  - intros (raw & ? & ? & ?). right. exists (Py.strip raw). split; [|done].
    apply elem_of_source_lines. eauto.
Qed.




(** Aliases and submodules are reduced to the root name, standard-library
    modules and whole-line comments are dropped; a trailing comment stays in
    the name, and a relative import contributes the empty name. *)
Example analyze_imports_examples :
  analyze_source ("import os, sys" +:+ nl +:+ "import numpy as np, requests.api" +:+ nl
                    +:+ "# import flask" +:+ nl +:+ "from PIL.Image import open" +:+ nl)
  = Some ["PIL"; "numpy"; "requests"]
  ∧ analyze_source ("import os" +:+ nl +:+ "from json import loads") = None
  ∧ analyze_source "import os  # path handling" = Some ["os  # path handling"]
  ∧ analyze_source "from .helpers import run" = Some [""].
Proof. vm_compute. done. Qed.


(** ** Satisfaction check *)

Section check_dependencies_facts.
Context `{Packaging}.

Lemma check_loop_acc installed reqs acc :
  foldl (check_step installed) acc reqs
  = (acc.1 ++ omap (entry_of installed) reqs, acc.2 ++ omap (diagnostic installed) reqs).
Proof.
  revert acc. induction reqs as [|r reqs IH]; intros [m d]; simpl.
  - by rewrite !app_nil_r.
  - rewrite IH. unfold check_step, entry_of, diagnostic.
    destruct (check_requirement installed r) as [[e|]|e]; simpl;
      by rewrite <- ?app_assoc.
Qed.

Lemma check_loop_omap installed reqs :
  check_loop installed reqs
  = (omap (entry_of installed) reqs, omap (diagnostic installed) reqs).
Proof. unfold check_loop. by rewrite check_loop_acc. Qed.

Lemma check_requirements_verdict installed reqs :
  (check_requirements installed reqs).1
  = bool_decide (omap (entry_of installed) reqs = []).
Proof.
  unfold check_requirements. rewrite check_loop_omap.
  by destruct (omap (entry_of installed) reqs).
Qed.

Lemma unmet_not_satisfied installed req : unmet installed req ↔ ¬ satisfied installed req.
Proof.
  unfold unmet, satisfied.
  destruct (installed !! Py.lower (req_name req)) as [v|].
  - split.
    + intros Hv (v' & [= <-] & Hn). done.
    + intros Hn. destruct (decide (spec_len (req_specifier req) = 0)) as [Hz|Hz].
      { exfalso. apply Hn. exists v. split; [done|]. by intros [? _]. }
      destruct (spec_contains (req_specifier req) v) as [[]|e] eqn:Hc.
      * exfalso. apply Hn. exists v. split; [done|]. intros [_ ?]. congruence.
      * done.
      * exfalso. apply Hn. exists v. split; [done|]. intros [_ ?]. congruence.
  - split; [|done]. intros _ (v & ? & _). done.
Qed.

(** An entry is appended exactly for a line that parses to an unmet
    requirement, and it is [missing_entry]. *)
Lemma entry_of_spec installed line entry :
  entry_of installed line = Some entry
  ↔ ∃ req, Requirement_init line = Ret req ∧ unmet installed req
           ∧ entry = missing_entry installed req.
Proof.
  unfold entry_of, check_requirement, unmet, missing_entry, violates.
  destruct (Requirement_init line) as [req|e]; simpl.
  2: { split; [done|]. by intros (? & ? & _). }
  destruct (installed !! Py.lower (req_name req)) as [v|] eqn:Hv.
  - case_bool_decide as Hz.
    { split; [done|]. intros (r & [= <-] & Hu & _). rewrite Hv in Hu. by destruct Hu. }
    destruct (spec_contains (req_specifier req) v) as [[]|e] eqn:Hc; simpl.
    + split; [done|]. intros (r & [= <-] & Hu & _). rewrite Hv in Hu.
      destruct Hu. congruence.
    + split.
      * intros [= <-]. exists req. by rewrite Hv.
      * intros (r & [= <-] & _ & ->). by rewrite Hv.
    + split; [done|]. intros (r & [= <-] & Hu & _). rewrite Hv in Hu.
      destruct Hu. congruence.
  - split.
    + intros [= <-]. exists req. by rewrite Hv.
    + intros (r & [= <-] & _ & ->). by rewrite Hv.
Qed.

Lemma entry_of_None installed line :
  entry_of installed line = None
  ↔ ∀ req, Requirement_init line = Ret req → satisfied installed req.
Proof.
  split.
  - intros Hn req Hreq.
    destruct (decide (spec_len (req_specifier req) = 0)) as [Hz|Hz];
    destruct (installed !! Py.lower (req_name req)) as [v|] eqn:Hv.
    all: try (exfalso; assert (entry_of installed line = Some (missing_entry installed req))
                as Hs by (apply entry_of_spec; exists req; unfold unmet; rewrite Hv; done);
              congruence).
    + exists v. split; [done|]. by intros [? _].
    + exists v. split; [done|]. intros Hviol.
      assert (entry_of installed line = Some (missing_entry installed req)) as Hs.
      { apply entry_of_spec. exists req. unfold unmet. by rewrite Hv. }
      congruence.
  - intros Hs. destruct (entry_of installed line) as [entry|] eqn:He; [|done].
    apply entry_of_spec in He as (req & Hreq & Hu & _).
    apply unmet_not_satisfied in Hu. destruct Hu. by apply Hs.
Qed.

Lemma omap_entry_nil installed reqs :
  omap (entry_of installed) reqs = []
  ↔ ∀ line req, line ∈ reqs → Requirement_init line = Ret req → satisfied installed req.
Proof.
  induction reqs as [|r reqs IH]; simpl.
  - split; [|done]. intros _ ?? Hin. by apply elem_of_nil in Hin.
  - destruct (entry_of installed r) as [entry|] eqn:He.
    + split; [done|]. intros Hall. exfalso.
      apply entry_of_spec in He as (req & Hreq & Hu & _).
      apply unmet_not_satisfied in Hu. apply Hu. eapply Hall; [left|done].
    + rewrite IH. split.
      * intros Hall line req [->|?]%elem_of_cons ?; [|by eapply Hall].
        by eapply entry_of_None.
      * intros Hall line req ??. eapply Hall; [by right|done].
Qed.

Lemma check_dependencies_readable fs dists installed script_dir content :
  fs !! Py.path_join script_dir "requirements.txt" = Some (File content) →
  check_dependencies fs dists (Some installed) script_dir
  = ((check_requirements installed (requirement_lines content)).1,
     Some installed,
     (check_requirements installed (requirement_lines content)).2).
Proof.
  intros Hf. unfold check_dependencies, os_path_exists, open_read.
  rewrite Hf. rewrite bool_decide_eq_true_2 by eauto. simpl.
  by destruct (check_requirements _ _).
Qed.

(** C1, as amended.  For a readable manifest and a package-index snapshot,
    [check_dependencies] returns true exactly when every manifest line that
    parses as a specifier names a package of the snapshot whose installed
    version does not violate the specifier's constraint (a line whose parsing
    or version comparison raises is left out).  When exactly one specifier is
    unmet, the verdict is false and the missing list, which is what the
    logged report shows, holds exactly one entry: the lower-cased name with
    the required constraint and the installed version when the package is
    installed at a violating version, and the specifier's own string form
    [str(req)], without any annotation, when the package is absent. *)
Theorem check_dependencies_amended fs dists installed script_dir content :
  fs !! Py.path_join script_dir "requirements.txt" = Some (File content) →
  let reqs := requirement_lines content in
  let result := check_dependencies fs dists (Some installed) script_dir in
  (result.1.1 = true
   ↔ ∀ line req, line ∈ reqs → Requirement_init line = Ret req → satisfied installed req)
  ∧ (∀ before line after req,
       reqs = before ++ line :: after →
       Requirement_init line = Ret req →
       unmet installed req →
       (∀ other req', other ∈ before ++ after →
                      Requirement_init other = Ret req' → satisfied installed req') →
       (check_loop installed reqs).1 = [missing_entry installed req]
       ∧ result.1.1 = false
       ∧ last result.2 = Some (problems_log [missing_entry installed req])).
Proof.
  intros Hf reqs result. subst result.
  rewrite (check_dependencies_readable _ _ _ _ _ Hf). fold reqs. simpl.
  split.
  - rewrite check_requirements_verdict, bool_decide_eq_true. apply omap_entry_nil.
  - intros before line after req Hreqs Hreq Hu Hothers.
    assert (Hm : omap (entry_of installed) reqs = [missing_entry installed req]).
    { assert (Hl : entry_of installed line = Some (missing_entry installed req))
        by (apply entry_of_spec; eauto).
      assert (Hb : omap (entry_of installed) before = []).
      { apply omap_entry_nil. intros ????. eapply Hothers; [|done].
        apply elem_of_app. by left. }
      assert (Ha : omap (entry_of installed) after = []).
      { apply omap_entry_nil. intros ????. eapply Hothers; [|done].
        apply elem_of_app. by right. }
      rewrite Hreqs, omap_app, Hb. simpl. rewrite Hl. f_equal. exact Ha. }
    unfold check_requirements. rewrite check_loop_omap, Hm. simpl.
    split; [done|]. split; [done|]. by rewrite last_snoc.
Qed.

Lemma malformed_raises installed line e :
  Requirement_init line = Raise e →
  check_requirement installed line = Raise e.
Proof. intros He. unfold check_requirement. by rewrite He. Qed.

Lemma omap_cons_eq {A B} (f : A → option B) x l :
  omap f (x :: l) = match f x with Some y => y :: omap f l | None => omap f l end.
Proof. reflexivity. Qed.

Lemma entry_of_well_formed installed (reqs : list string) :
  omap (entry_of installed) reqs
  = omap (entry_of installed) (filter (λ l, is_malformed l = false) reqs).
Proof.
  induction reqs as [|r reqs IH]; [done|].
  rewrite filter_cons. destruct (decide _) as [Hr|Hr].
  - by rewrite !omap_cons_eq, IH.
  - rewrite omap_cons_eq, IH.
    unfold is_malformed in Hr. destruct (Requirement_init r) as [|e] eqn:He; [done|].
    unfold entry_of at 1. by rewrite (malformed_raises _ _ _ He).
Qed.

(** C10.  For every readable manifest and every snapshot, the verdict of
    [check_dependencies] and the missing list are those of the manifest with
    its malformed lines removed, so a manifest can be satisfied although some
    of its lines do not parse.  What [check_dependencies] logs is, in order,
    one diagnostic per line whose check raises, followed by its final report.
    A malformed line gets the diagnostic that names it and its parse error,
    and never an entry of the missing list. *)
Theorem malformed_lines_are_skipped fs dists installed script_dir content :
  fs !! Py.path_join script_dir "requirements.txt" = Some (File content) →
  let reqs := requirement_lines content in
  let well_formed := filter (λ l, is_malformed l = false) reqs in
  let result := check_dependencies fs dists (Some installed) script_dir in
  result.1.1 = (check_requirements installed well_formed).1
  ∧ (check_loop installed reqs).1 = (check_loop installed well_formed).1
  ∧ (∃ report, result.2 = omap (diagnostic installed) reqs ++ [report])
  ∧ (∀ line e, Requirement_init line = Raise e →
       diagnostic installed line = Some (parse_error_log line e)
       ∧ ∀ entry, check_requirement installed line ≠ Ret (Some entry)).
Proof.
  intros Hf reqs well_formed result. subst result well_formed.
  rewrite (check_dependencies_readable _ _ _ _ _ Hf). fold reqs. cbn [fst snd].
  split; [|split; [|split]].
  - rewrite !check_requirements_verdict. by rewrite <- entry_of_well_formed.
  - rewrite !check_loop_omap. apply entry_of_well_formed.
  - unfold check_requirements. rewrite check_loop_omap.
    destruct (omap (entry_of installed) reqs); eauto.
  - intros line e He. unfold diagnostic.
    rewrite (malformed_raises _ _ _ He). done.
Qed.

Lemma build_index_acc_up_to_case dists dists' acc :
  Forall2 same_dist_up_to_case dists dists' →
  foldl index_step acc dists = foldl index_step acc dists'.
Proof.
  intros Hd. revert acc. induction Hd as [|d d' ds ds' [Hn Hv] _ IH]; intros acc; [done|].
  simpl. rewrite <- IH. f_equal. unfold index_step. destruct acc as [m|e]; [|done]. simpl.
  rewrite Hv. destruct (metadata_Name d), (metadata_Name d'); simplify_eq/=; congruence.
Qed.

Lemma build_index_up_to_case dists dists' :
  Forall2 same_dist_up_to_case dists dists' → build_index dists = build_index dists'.
Proof. apply build_index_acc_up_to_case. Qed.

Lemma entry_of_up_to_case installed l l' :
  same_line_up_to_case l l' →
  entry_of installed l = None ↔ entry_of installed l' = None.
Proof.
  unfold same_line_up_to_case, entry_of, check_requirement.
  destruct (Requirement_init l) as [r|e], (Requirement_init l') as [r'|e']; simpl;
    try done.
  intros [-> ->].
  destruct (installed !! Py.lower (req_name r')) as [v|]; [|done].
  case_bool_decide; [done|].
  by destruct (spec_contains (req_specifier r') v) as [[]|].
Qed.

Lemma omap_entry_up_to_case installed (reqs reqs' : list string) :
  Forall2 same_line_up_to_case reqs reqs' →
  omap (entry_of installed) reqs = [] ↔ omap (entry_of installed) reqs' = [].
Proof.
  induction 1 as [|l l' ls ls' Hl _ IH]; [done|]. rewrite !omap_cons_eq.
  apply (entry_of_up_to_case installed) in Hl.
  destruct (entry_of installed l), (entry_of installed l'); try done.
  - destruct Hl as [_ Hl]. by specialize (Hl eq_refl).
  - destruct Hl as [Hl _]. by specialize (Hl eq_refl).
Qed.

(** C9.  Take two manifests whose lines differ at most in the letter case of
    the package names, and two lists of installed distributions that differ
    at most in the letter case of the names.  Since both sides are lower-cased
    before they are compared, [check_dependencies], building its snapshot
    from the distributions, returns the same verdict for both. *)
Theorem check_dependencies_case_insensitive
    fs fs' dists dists' script_dir content content' :
  fs !! Py.path_join script_dir "requirements.txt" = Some (File content) →
  fs' !! Py.path_join script_dir "requirements.txt" = Some (File content') →
  Forall2 same_line_up_to_case (requirement_lines content) (requirement_lines content') →
  Forall2 same_dist_up_to_case dists dists' →
  (check_dependencies fs dists None script_dir).1.1
  = (check_dependencies fs' dists' None script_dir).1.1.
Proof.
  intros Hf Hf' Hlines Hdists.
  unfold check_dependencies, os_path_exists, open_read, get_installed_packages.
  rewrite Hf, Hf', !bool_decide_eq_true_2 by eauto. simpl.
  rewrite <- (build_index_up_to_case _ _ Hdists).
  destruct (build_index dists) as [installed|e]; [|done].
  pose proof (check_requirements_verdict installed (requirement_lines content)) as Hv.
  pose proof (check_requirements_verdict installed (requirement_lines content')) as Hv'.
  destruct (check_requirements installed (requirement_lines content)) as [ok logs].
  destruct (check_requirements installed (requirement_lines content')) as [ok' logs'].
  simpl in *. subst ok ok'.
  apply bool_decide_ext, omap_entry_up_to_case, Hlines.
Qed.

End check_dependencies_facts.

(** C1, counterexample.  With the manifest [requests>=2,<3] and an empty
    snapshot the missing list is [str(req)] alone, the report logged is
    built from it, and no [(not installed)] annotation is added. *)
Lemma absent_package_entry_not_annotated :
  (check_loop (H := Pep440.lib) ∅ (requirement_lines "requests>=2,<3")).1
  = ["requests<3,>=2"]
  ∧ (check_loop (H := Pep440.lib) ∅ (requirement_lines "requests>=2,<3")).1
    ≠ ["requests>=2,<3 (not installed)"]
  ∧ check_dependencies (H := Pep440.lib)
      {[ demo_requirements := File "requests>=2,<3" ]} [] (Some ∅) "scripts/demo"
    = (false, Some ∅,
       ["⚠️ Обнаружены проблемы с зависимостями:" +:+ nl +:+ "requests<3,>=2"]).
Proof. vm_compute. split; [done|]. split; [discriminate|done]. Qed.

(** C1, witness: [requests>=3] against an installed [requests 2.31.0]. *)
Lemma check_dependencies_amended_witness :
  (check_loop (H := Pep440.lib) demo_index (requirement_lines "requests>=3")).1
  = ["requests (требуется >=3, установлено 2.31.0)"]
  ∧ (check_dependencies (H := Pep440.lib) (demo_requirement "requests>=3") []
       (Some demo_index) "scripts/demo").1.1 = false.
Proof.
  pose proof (check_dependencies_amended (H := Pep440.lib)
                (demo_requirement "requests>=3") [] demo_index "scripts/demo"
                "requests>=3" eq_refl) as [_ Hone].
  specialize (Hone [] "requests>=3" []
                {| Pep440.name := "requests";
                   Pep440.specifier :=
                     [{| Pep440.operator := Pep440.OpGe;
                         Pep440.version_text := "3";
                         Pep440.version := [3%N] |}] |}
                eq_refl eq_refl).
  destruct Hone as (Hmissing & Hverdict & _).
  - split; [vm_compute; congruence|reflexivity].
  - intros other req' Hin. by apply elem_of_nil in Hin.
  - split; [exact Hmissing|exact Hverdict].
Defined.

(** C10, witness: a manifest with a malformed line is satisfied. *)
Lemma malformed_lines_are_skipped_witness :
  (check_dependencies (H := Pep440.lib)
     (demo_requirement ("??" +:+ nl +:+ "requests"))
     [] (Some demo_index) "scripts/demo").1.1 = true
  ∧ diagnostic (H := Pep440.lib) demo_index "??"
    = Some "⚠️ Ошибка разбора строки '??': Expected package name at the start of dependency specifier".
Proof.
  pose proof (malformed_lines_are_skipped (H := Pep440.lib)
                (demo_requirement ("??" +:+ nl +:+ "requests")) [] demo_index
                "scripts/demo" ("??" +:+ nl +:+ "requests") eq_refl)
    as (Hverdict & _ & _ & Hdiag).
  split.
  - rewrite Hverdict. reflexivity.
  - exact (proj1 (Hdiag "??" _ eq_refl)).
Defined.

(** C9, witness: [Requests] and [REQUESTS] against [requests]. *)
Lemma check_dependencies_case_insensitive_witness :
  (check_dependencies (H := Pep440.lib) (demo_requirement "Requests>=2")
     [{| metadata_Name := Some "REQUESTS"; dist_version := "2.31.0" |}] None "scripts/demo").1.1
  = (check_dependencies (H := Pep440.lib) (demo_requirement "requests>=2")
       [{| metadata_Name := Some "requests"; dist_version := "2.31.0" |}] None "scripts/demo").1.1.
Proof.
  apply (check_dependencies_case_insensitive (H := Pep440.lib)
           (demo_requirement "Requests>=2") (demo_requirement "requests>=2")
           _ _ "scripts/demo" "Requests>=2" "requests>=2").
  - reflexivity.
  - reflexivity.
  - repeat constructor.
  - repeat constructor.
Defined.

(** ** Worker and install threads *)

(** *** Emitting computations *)

Lemma em_bind_out {S A B} (m : emitting S A) (k : A → emitting S B) :
  (em_bind m k).1 = m.1 ++ match m.2 with Ret a => (k a).1 | Raise _ => [] end.
Proof.
  destruct m as [out [a|e]]; simpl; [|by rewrite app_nil_r].
  by destruct (k a).
Qed.

Lemma Forall_em_bind {S A B} (P : S → Prop) (m : emitting S A) (k : A → emitting S B) :
  Forall P m.1 → (∀ a, m.2 = Ret a → Forall P (k a).1) → Forall P (em_bind m k).1.
Proof.
  intros Hm Hk. rewrite em_bind_out. apply Forall_app. split; [done|].
  destruct m.2; [by apply Hk|constructor].
Qed.

(** *** WorkerThread *)

Lemma read_loop_not_finished rs : Forall (λ s, s ≠ WorkerThread.finished_signal) (WorkerThread.read_loop rs).1.
Proof.
  induction rs as [|r rs IH]; [constructor|]. cbn [WorkerThread.read_loop].
  apply Forall_em_bind; [constructor|]. intros output _.
  apply Forall_em_bind; [|done].
  case_bool_decide; repeat constructor. done.
Qed.

Lemma run_body_not_finished path s : Forall (λ s, s ≠ WorkerThread.finished_signal) (WorkerThread.run_body path s).1.
Proof.
  unfold WorkerThread.run_body. destruct (WorkerThread.script_exists s); cbn [negb]; [|by repeat constructor].
  apply Forall_em_bind; [constructor|]. intros _ _.
  apply Forall_em_bind; [apply read_loop_not_finished|]. intros _ _.
  destruct (WorkerThread.stop_requested s); [constructor|].
  apply Forall_em_bind; [constructor|]. intros stderr _.
  case_bool_decide; repeat constructor. done.
Qed.

Lemma run_shape path s :
  ∃ out, WorkerThread.run path s = out ++ [WorkerThread.finished_signal]
         ∧ Forall (λ s, s ≠ WorkerThread.finished_signal) out.
Proof.
  unfold WorkerThread.run. pose proof (run_body_not_finished path s) as Hb.
  destruct (WorkerThread.run_body path s) as [out r]. simpl in Hb.
  exists (out ++ match r with Ret _ => [] | Raise e => [WorkerThread.error_signal ("❌ Критическая ошибка выполнения: " +:+ e)] end).
  split; [by rewrite <- app_assoc|].
  apply Forall_app. split; [done|]. destruct r; repeat constructor. done.
Qed.

Lemma relay_not_script_finished name out :
  Forall (λ s, s ≠ WorkerThread.finished_signal) out →
  Forall (λ e, ∀ n, e ≠ script_finished_signal n) (concat (relay name <$> out)).
Proof.
  induction 1 as [|s out Hs _ IH]; [constructor|].
  rewrite fmap_cons. simpl. apply Forall_app. split; [|done].
  destruct s; repeat constructor; done.
Qed.

(** A forced stop: [stop] terminates, waits 100 ms, kills and reaps without
    emitting anything, and the stopped run ends with its single
    [finished_signal]. *)
Example forced_stop_session :
  WorkerThread.stop true false false
  = [WorkerThread.terminate; WorkerThread.msleep 100; WorkerThread.kill; WorkerThread.wait]
  ∧ WorkerThread.run "scripts/demo/script.py"
      {| WorkerThread.script_exists := true; WorkerThread.popen := Ret ();
         WorkerThread.reads := [Ret ("tick" +:+ nl); Ret ""];
         WorkerThread.stop_requested := true;
         WorkerThread.communicate := Ret "" |}
    = [WorkerThread.output_signal "tick"; WorkerThread.finished_signal].
Proof. vm_compute. done. Qed.

(** *** InstallThread *)

Lemma progress_values_app out out' :
  InstallThread.progress_values (out ++ out')
  = InstallThread.progress_values out ++ InstallThread.progress_values out'.
Proof. apply omap_app. Qed.

Lemma em_bind_emit {S B} (x : S) (k : () → emitting S B) :
  em_bind (em_emit x) k = (x :: (k ()).1, (k ()).2).
Proof. unfold em_bind, em_emit. by destruct (k ()). Qed.

Lemma em_bind_lift_ret {S A B} (a : A) (k : A → emitting S B) :
  em_bind (em_lift (Ret a)) k = k a.
Proof. unfold em_bind, em_lift. by destruct (k a). Qed.

Lemma em_bind_ret {S A B} (a : A) (k : A → emitting S B) :
  em_bind (em_ret a) k = k a.
Proof. unfold em_bind, em_ret. by destruct (k a). Qed.

Lemma em_bind_lift_raise {S A B} e (k : A → emitting S B) :
  em_bind (em_lift (Raise e)) k = ([], Raise e).
Proof. done. Qed.

Lemma stdout_loop_spec p ls :
  (0 ≤ p ≤ 95)%Z →
  let r := InstallThread.stdout_loop p ls in
  StronglySorted Z.le (InstallThread.progress_values r.1)
  ∧ Forall (λ v, (p ≤ v ∧ 0 < v ≤ 95)%Z) (InstallThread.progress_values r.1)
  ∧ (InstallThread.finished_signal true ∉ r.1)
  ∧ (r.2 = Ret true ↔ Forall (λ l, ∃ line, l = Ret (line, true)) ls).
Proof.
  revert p. induction ls as [|l ls IH]; intros p Hp.
  { simpl. repeat split; try constructor; try set_solver. }
  cbn [InstallThread.stdout_loop]. destruct l as [[line []]|e].
  - specialize (IH (Z.min (p + 3) 95) ltac:(lia)) as (Hs & Hb & Hf & Hr).
    rewrite em_bind_lift_ret. cbn [negb]. rewrite !em_bind_emit. cbn [fst snd].
    cbn [InstallThread.progress_values omap list_omap].
    fold (InstallThread.progress_values (InstallThread.stdout_loop (Z.min (p + 3) 95) ls).1).
    repeat split.
    + constructor; [done|]. eapply Forall_impl; [exact Hb|]. simpl. lia.
    + constructor; [lia|]. eapply Forall_impl; [exact Hb|]. simpl. lia.
    + rewrite !not_elem_of_cons. done.
    + intros Hret. constructor; [eauto|]. by apply Hr.
    + intros Hall. apply Hr. by apply Forall_cons in Hall as [_ ?].
  - rewrite em_bind_lift_ret. cbn. repeat split; try constructor; try done.
    + rewrite !not_elem_of_cons. set_solver.
    + inversion 1 as [|?? (line' & ?)]; simplify_eq.
  - rewrite em_bind_lift_raise. cbn. repeat split; try constructor; try done; try set_solver.
    + inversion 1 as [|?? (line' & ?)]; simplify_eq.
Qed.

Lemma em_bind_pair_ret {S A B} out (a : A) (k : A → emitting S B) :
  em_bind (out, Ret a) k = (out ++ (k a).1, (k a).2).
Proof. unfold em_bind. by destruct (k a). Qed.

Lemma em_bind_pair_raise {S A B} out e (k : A → emitting S B) :
  em_bind (out, Raise e) k = (out, Raise e).
Proof. done. Qed.

Lemma quiet_nil : quiet [].
Proof. split; [done|]. apply not_elem_of_nil. Qed.

Lemma quiet_output text out : quiet out → quiet (InstallThread.output_signal text :: out).
Proof. intros [Hp Hf]. split; [done|]. rewrite not_elem_of_cons. done. Qed.

Lemma quiet_finished_false out : quiet out → quiet (InstallThread.finished_signal false :: out).
Proof. intros [Hp Hf]. split; [done|]. rewrite not_elem_of_cons. done. Qed.

Lemma quiet_app out out' : quiet out → quiet out' → quiet (out ++ out').
Proof.
  intros [Hp Hf] [Hp' Hf']. split.
  - by rewrite progress_values_app, Hp, Hp'.
  - rewrite elem_of_app. tauto.
Qed.

Lemma run_command_spec c :
  quiet (InstallThread._run_command c).1
  ∧ ((∃ b, (InstallThread._run_command c).2 = Ret b) ↔ ∃ c', c = Ret c').
Proof.
  unfold InstallThread._run_command. destruct c as [c|e].
  - rewrite em_bind_lift_ret. split.
    + repeat case_bool_decide; rewrite ?em_bind_ret, ?em_bind_emit; cbn;
        auto using quiet_nil, quiet_output.
    + split; [eauto|]. intros _.
      repeat case_bool_decide; rewrite ?em_bind_ret, ?em_bind_emit; cbn; eauto.
  - rewrite em_bind_lift_raise. split; [apply quiet_nil|].
    split; intros [? ?]; done.
Qed.

Lemma stderr_loop_spec ls :
  quiet (InstallThread.stderr_loop ls).1
  ∧ ((InstallThread.stderr_loop ls).2 = Ret ()
     ↔ Forall (λ l, ∃ line, l = Ret line) ls).
Proof.
  induction ls as [|l ls [IHq IHr]].
  { split; [apply quiet_nil|]. split; [constructor|done]. }
  cbn [InstallThread.stderr_loop]. destruct l as [line|e].
  - rewrite em_bind_lift_ret, em_bind_emit. cbn [fst snd]. split.
    + by apply quiet_output.
    + rewrite IHr. split.
      * intros ?. constructor; eauto.
      * by intros [_ ?]%Forall_cons.
  - rewrite em_bind_lift_raise. split; [apply quiet_nil|]. split; [done|].
    inversion 1 as [|?? (line' & ?)]; simplify_eq.
Qed.

Ltac reassoc :=
  repeat (progress (cbn [app]) || rewrite <- app_assoc || rewrite app_nil_r);
  reflexivity.

(** The shape of a run: a quiet prefix, the percentages of the stdout loop,
    a quiet suffix, and the success tail exactly for a successful
    installation. *)
Lemma run_cases (s : InstallThread.Session) :
  let loop := (InstallThread.stdout_loop 0 (InstallThread.stdout_lines s)).1 in
  (completes_successfully s
   ∧ ∃ o1 o3, quiet o1 ∧ quiet o3
              ∧ InstallThread.run s = o1 ++ loop ++ o3 ++ success_tail)
  ∨ (¬ completes_successfully s
     ∧ ∃ o1 o2 o3, quiet o1 ∧ quiet o3 ∧ (o2 = [] ∨ o2 = loop)
                   ∧ InstallThread.run s = o1 ++ o2 ++ o3).
Proof.
  intros loop. subst loop.
  unfold InstallThread.run, InstallThread.run_body, completes_successfully.
  rewrite em_bind_emit.
  destruct (run_command_spec (InstallThread.upgrade_pip s)) as [Hq1 Hr1].
  destruct (stdout_loop_spec 0 (InstallThread.stdout_lines s) ltac:(lia))
    as (_ & _ & _ & Hr2).
  destruct (stderr_loop_spec (InstallThread.stderr_lines s)) as [Hq3 Hr3].
  destruct (InstallThread._run_command (InstallThread.upgrade_pip s))
    as [o1 [b|e]] eqn:E1; cbn [fst snd] in *.
  2: { rewrite em_bind_pair_raise. cbn [fst snd]. right. split.
       - intros ((c & Hc) & _). destruct Hr1 as [_ Hr1].
         destruct Hr1 as [? ?]; [eauto|done].
       - eexists (_ :: o1), [], [_; _]. split; [by apply quiet_output|].
         split; [by apply quiet_output, quiet_finished_false, quiet_nil|].
         split; [by left|]. by rewrite app_nil_l. }
  assert (Hpip : ∃ c, InstallThread.upgrade_pip s = Ret c) by (apply Hr1; eauto).
  rewrite em_bind_pair_ret, em_bind_emit. cbn [fst snd].
  destruct (InstallThread.popen s) as [[]|e].
  2: { rewrite em_bind_lift_raise. cbn [fst snd]. right. split.
       - intros (_ & ? & _). done.
       - eexists (_ :: o1 ++ [_]), [], [_; _].
         split; [by apply quiet_output, quiet_app, quiet_output, quiet_nil|].
         split; [by apply quiet_output, quiet_finished_false, quiet_nil|].
         split; [by left|]. reassoc. }
  rewrite em_bind_lift_ret.
  destruct (InstallThread.stdout_loop 0 (InstallThread.stdout_lines s))
    as [o2 [completed|e]] eqn:E2; cbn [fst snd] in *.
  2: { rewrite em_bind_pair_raise. cbn [fst snd]. right. split.
       - intros (_ & _ & Hall & _). apply Hr2 in Hall. done.
       - eexists (_ :: o1 ++ [_]), o2, [_; _].
         split; [by apply quiet_output, quiet_app, quiet_output, quiet_nil|].
         split; [by apply quiet_output, quiet_finished_false, quiet_nil|].
         split; [by right|]. reassoc. }
  rewrite em_bind_pair_ret. destruct completed; cbn [negb fst snd].
  2: { right. split.
       - intros (_ & _ & Hall & _). apply Hr2 in Hall. done.
       - eexists (_ :: o1 ++ [_]), o2, [].
         split; [by apply quiet_output, quiet_app, quiet_output, quiet_nil|].
         split; [apply quiet_nil|].
         split; [by right|]. reassoc. }
  assert (Hlines : Forall (λ l, ∃ line, l = Ret (line, true)) (InstallThread.stdout_lines s))
    by by apply Hr2.
  destruct (InstallThread.stderr_loop (InstallThread.stderr_lines s))
    as [o3 [[]|e]] eqn:E3; cbn [fst snd] in *.
  2: { rewrite em_bind_pair_raise. cbn [fst snd]. right. split.
       - intros (_ & _ & _ & Hall & _). apply Hr3 in Hall. done.
       - eexists (_ :: o1 ++ [_]), o2, (o3 ++ [_; _]).
         split; [by apply quiet_output, quiet_app, quiet_output, quiet_nil|].
         split; [by apply quiet_app, quiet_output, quiet_finished_false, quiet_nil|].
         split; [by right|]. reassoc. }
  assert (Herr : Forall (λ l, ∃ line, l = Ret line) (InstallThread.stderr_lines s))
    by by apply Hr3.
  rewrite em_bind_pair_ret.
  destruct (InstallThread.wait s) as [return_code|e].
  2: { rewrite em_bind_lift_raise. cbn [fst snd]. rewrite !app_nil_r. right. split.
       - intros (_ & _ & _ & _ & ?). done.
       - eexists (_ :: o1 ++ [_]), o2, (o3 ++ [_; _]).
         split; [by apply quiet_output, quiet_app, quiet_output, quiet_nil|].
         split; [by apply quiet_app, quiet_output, quiet_finished_false, quiet_nil|].
         split; [by right|]. reassoc. }
  rewrite em_bind_lift_ret. case_bool_decide as Hrc.
  - subst return_code. rewrite !em_bind_emit. cbn [fst snd em_emit]. left.
    split; [done|]. eexists (_ :: o1 ++ [_]), o3.
    split; [by apply quiet_output, quiet_app, quiet_output, quiet_nil|].
    split; [done|]. reassoc.
  - rewrite !em_bind_emit. cbn [fst snd em_emit]. right. split.
    + intros (_ & _ & _ & _ & ?). congruence.
    + eexists (_ :: o1 ++ [_]), o2, (o3 ++ [_; _]).
      split; [by apply quiet_output, quiet_app, quiet_output, quiet_nil|].
      split; [by apply quiet_app, quiet_output, quiet_finished_false, quiet_nil|].
      split; [by right|]. reassoc.
Qed.

Lemma succeeded_quiet o1 o2 o3 :
  quiet o1 → InstallThread.finished_signal true ∉ o2 → quiet o3 →
  InstallThread.succeeded (o1 ++ o2 ++ o3) = false.
Proof.
  intros [_ H1] H2 [_ H3]. unfold InstallThread.succeeded.
  apply bool_decide_eq_false. rewrite !elem_of_app. tauto.
Qed.

(** C7.  For every run of [InstallThread], the percentages emitted on
    [progress_signal] are non-decreasing.  When the run succeeds, the output
    ends with [progress_signal 100], the success message and
    [finished_signal true], and every percentage before that 100 lies in
    (0, 95]; otherwise every percentage lies in (0, 95], so 100 is never
    emitted.  The run succeeds exactly when the pip upgrade and the start of
    the installation do not raise, every output line is read while the
    thread has not been asked to stop, and the subprocess exits with code
    0. *)
Theorem install_progress_monotone_capped (s : InstallThread.Session) :
  let out := InstallThread.run s in
  let ps := InstallThread.progress_values out in
  StronglySorted Z.le ps
  ∧ (if InstallThread.succeeded out
     then ∃ out',
         out = out' ++ [InstallThread.progress_signal 100;
                        InstallThread.output_signal "✅ Зависимости успешно установлены!";
                        InstallThread.finished_signal true]
         ∧ ps = InstallThread.progress_values out' ++ [100%Z]
         ∧ Forall (λ p, (0 < p ≤ 95)%Z) (InstallThread.progress_values out')
     else Forall (λ p, (0 < p ≤ 95)%Z) ps)
  ∧ (InstallThread.succeeded out = true ↔ completes_successfully s).
Proof.
  intros out ps. subst ps out.
  destruct (stdout_loop_spec 0 (InstallThread.stdout_lines s) ltac:(lia))
    as (Hs & Hb & Hf & _).
  assert (Hb' : Forall (λ p, (0 < p ≤ 95)%Z)
                  (InstallThread.progress_values
                     (InstallThread.stdout_loop 0 (InstallThread.stdout_lines s)).1)).
  { eapply Forall_impl; [exact Hb|]. simpl. lia. }
  destruct (run_cases s) as [(Hc & o1 & o3 & Hq1 & Hq3 & ->)
                            |(Hc & o1 & o2 & o3 & Hq1 & Hq3 & Ho2 & ->)].
  - assert (Hps : InstallThread.progress_values
                    (o1 ++ (InstallThread.stdout_loop 0 (InstallThread.stdout_lines s)).1 ++ o3)
                  = InstallThread.progress_values
                      (InstallThread.stdout_loop 0 (InstallThread.stdout_lines s)).1).
    { rewrite !progress_values_app, (proj1 Hq1), (proj1 Hq3). by rewrite app_nil_r. }
    assert (Hsucc : InstallThread.succeeded
                      (o1 ++ (InstallThread.stdout_loop 0 (InstallThread.stdout_lines s)).1
                          ++ o3 ++ success_tail) = true).
    { apply bool_decide_eq_true. rewrite !elem_of_app. do 3 right.
      unfold success_tail. rewrite !elem_of_cons. auto. }
    rewrite Hsucc.
    replace (o1 ++ (InstallThread.stdout_loop 0 (InstallThread.stdout_lines s)).1
                ++ o3 ++ success_tail)
      with ((o1 ++ (InstallThread.stdout_loop 0 (InstallThread.stdout_lines s)).1 ++ o3)
              ++ success_tail) by reassoc.
    rewrite progress_values_app, Hps. split; [|split; [|by split]].
    + apply StronglySorted_app. split; [|split; [exact Hs|repeat constructor]].
      intros x1 x2 Hx1 Hx2. cbn in Hx2. apply list_elem_of_singleton in Hx2 as ->.
      eapply Forall_forall in Hb'; [|exact Hx1]. simpl in Hb'. lia.
    + eexists. split; [reflexivity|]. by rewrite Hps.
  - assert (Hf2 : InstallThread.finished_signal true ∉ o2).
    { destruct Ho2 as [->| ->]; [apply not_elem_of_nil|done]. }
    rewrite (succeeded_quiet _ _ _ Hq1 Hf2 Hq3).
    rewrite !progress_values_app, (proj1 Hq1), (proj1 Hq3), app_nil_r. cbn [app].
    split; [|split; [|split; [done|by intros ?]]].
    + destruct Ho2 as [->| ->]; [constructor|done].
    + destruct Ho2 as [->| ->]; [constructor|done].
Qed.

(** Forty output lines: 3, 6, ..., 93, then 95 nine times, then 100. *)
Example clean_install_progress :
  InstallThread.progress_values (InstallThread.run clean_install)
  = ((λ n, 3 * Z.of_nat n)%Z <$> seq 1 31) ++ replicate 9 95%Z ++ [100%Z].
Proof. vm_compute. reflexivity. Qed.

(** ** Executor, provisioner and controller *)

Lemma set_trace_trace s : set_trace (trace s) s = s.
Proof. by destruct s. Qed.

Lemma logged_nil s : logged [] s = s.
Proof. unfold logged. rewrite app_nil_r. apply set_trace_trace. Qed.

Lemma logged_logged ev ev' s : logged ev' (logged ev s) = logged (ev ++ ev') s.
Proof. destruct s. unfold logged. simpl. by rewrite app_assoc. Qed.

Lemma bind_step {A B} (m : M A) (k : A → M B) s a s' :
  m s = Some (a, s') → bind m k s = k a s'.
Proof. intros Hm. unfold bind. by rewrite Hm. Qed.

Lemma record_logged e s : record e s = Some ((), logged [e] s).
Proof. done. Qed.

Lemma log_output_logged text s : log_output text s = Some ((), logged [console_append text] s).
Proof. done. Qed.

Lemma emit_log_output_logged text s :
  emit_log_output text s = Some ((), logged (log_events text) s).
Proof.
  unfold emit_log_output. rewrite (bind_step _ _ _ _ _ (record_logged _ s)).
  by rewrite log_output_logged, logged_logged.
Qed.

Lemma emit_output_logged text s :
  emit_output text s
  = Some ((), logged [executor_emit (output_signal text); console_append text] s).
Proof.
  unfold emit_output. rewrite (bind_step _ _ _ _ _ (record_logged _ s)).
  by rewrite log_output_logged, logged_logged.
Qed.

Lemma emit_logs_logged texts s :
  emit_logs texts s = Some ((), logged (texts ≫= log_events) s).
Proof.
  revert s. induction texts as [|t ts IH]; intros s; simpl.
  - unfold ret. by rewrite logged_nil.
  - rewrite (bind_step _ _ _ _ _ (emit_log_output_logged t s)), IH.
    by rewrite logged_logged.
Qed.

Lemma venv_starts_logged ev s :
  venv_starts (logged ev s) = venv_starts s + length (List.filter is_venv_start ev).
Proof. unfold venv_starts, logged. simpl. by rewrite List.filter_app, length_app. Qed.

Lemma worker_starts_logged ev s :
  worker_starts (logged ev s) = worker_starts s + length (List.filter is_worker_start ev).
Proof. unfold worker_starts, logged. simpl. by rewrite List.filter_app, length_app. Qed.

Lemma executor_events_app tr tr' :
  executor_events (tr ++ tr') = executor_events tr ++ executor_events tr'.
Proof. apply omap_app. Qed.

Lemma emit_error_logged text s :
  emit_error text s
  = Some ((), logged [executor_emit (error_signal text); console_append text] s).
Proof.
  unfold emit_error. rewrite (bind_step _ _ _ _ _ (record_logged _ s)).
  by rewrite log_output_logged, logged_logged.
Qed.

Lemma on_script_finished_eq script_name s :
  _on_script_finished script_name s
  = Some ((), set_worker_thread None
                (set_running_script_name None
                   (logged [executor_emit (output_signal "✅ Выполнение скрипта завершено.");
                            console_append "✅ Выполнение скрипта завершено.";
                            executor_emit (script_finished_signal script_name)] s))).
Proof.
  unfold _on_script_finished.
  rewrite (bind_step _ _ _ _ _ (emit_output_logged _ s)).
  destruct s. unfold logged. cbn. by rewrite <- app_assoc.
Qed.

Lemma deliver_relay script_name sig s :
  ∃ s', deliver script_name sig s = Some ((), s')
        ∧ executor_events (trace s')
          = executor_events (trace s) ++ relay script_name sig
        ∧ (sig = WorkerThread.finished_signal →
           worker_thread s' = None ∧ running_script_name s' = None).
Proof.
  destruct sig as [text|text|]; cbn [deliver relay].
  - rewrite emit_output_logged. eexists. split; [done|].
    split; [|done]. unfold logged. cbn [trace set_trace].
    by rewrite executor_events_app.
  - rewrite emit_error_logged. eexists. split; [done|].
    split; [|done]. unfold logged. cbn [trace set_trace].
    by rewrite executor_events_app.
  - rewrite on_script_finished_eq. eexists. split; [done|]. split; [|done].
    unfold logged. cbn [trace set_trace set_worker_thread set_running_script_name].
    by rewrite !executor_events_app.
Qed.

Lemma deliver_all_relay script_name sigs s :
  ∃ s', deliver_all script_name sigs s = Some ((), s')
        ∧ executor_events (trace s')
          = executor_events (trace s) ++ concat (relay script_name <$> sigs)
        ∧ (last sigs = Some WorkerThread.finished_signal →
           worker_thread s' = None ∧ running_script_name s' = None).
Proof.
  revert s. induction sigs as [|sig sigs IH]; intros s.
  - eexists. split; [done|]. split; [by rewrite app_nil_r|done].
  - cbn [deliver_all]. destruct (deliver_relay script_name sig s) as (s1 & Hd & He & Hf).
    rewrite (bind_step _ _ _ _ _ Hd). destruct (IH s1) as (s2 & Hall & He2 & Hf2).
    exists s2. split; [done|]. split.
    + rewrite He2, He, fmap_cons. cbn [concat]. by rewrite <- app_assoc.
    + destruct sigs as [|sig' sigs'].
      * cbn. intros [= ->]. cbn in Hall. injection Hall as <-. by apply Hf.
      * intros Hlast. apply Hf2. exact Hlast.
Qed.

(** C6.  For every execution session, whether the script file is missing,
    starting or reading the process raises, the process exits by itself or a
    stop is requested, [WorkerThread.run] emits [finished_signal] exactly
    once, as its last signal.  Delivered to the slots [ScriptExecutor]
    connects, the signals of the session make the executor emit
    [script_finished_signal] exactly once, after every output and error event
    of the session, and leave no worker thread and no running script. *)
Theorem session_finishes_exactly_once path session name s :
  (∃ out, WorkerThread.run path session = out ++ [WorkerThread.finished_signal]
          ∧ Forall (λ e, e ≠ WorkerThread.finished_signal) out)
  ∧ (∃ s' out,
       deliver_all name (WorkerThread.run path session) s = Some ((), s')
       ∧ executor_events (trace s')
         = executor_events (trace s) ++ out ++ [script_finished_signal name]
       ∧ Forall (λ e, ∀ n, e ≠ script_finished_signal n) out
       ∧ worker_thread s' = None
       ∧ running_script_name s' = None).
Proof.
  destruct (run_shape path session) as (out & Hrun & Hout).
  split; [eauto|].
  destruct (deliver_all_relay name (WorkerThread.run path session) s)
    as (s' & Hall & Hev & Hrel).
  exists s', (concat (relay name <$> out)
                ++ [output_signal "✅ Выполнение скрипта завершено."]).
  split; [exact Hall|]. split; [|split].
  - rewrite Hev, Hrun, fmap_app, concat_app. cbn. by rewrite <- !app_assoc.
  - apply Forall_app. split; [by apply relay_not_script_finished|].
    repeat constructor. done.
  - apply Hrel. rewrite Hrun. apply last_snoc.
Qed.


Section provisioner.
Context `{Packaging}.

Lemma create_or_get_venv_found script_dir s :
  os_path_exists (fs s) (venv_python_exec script_dir) = true →
  create_or_get_venv script_dir s
  = Some (Some (venv_python_exec script_dir),
          logged (log_events ("✅ Виртуальное окружение найдено: "
                                +:+ venv_python_exec script_dir)) s).
Proof.
  intros Hex. unfold create_or_get_venv, bind, gets. rewrite Hex.
  by rewrite emit_log_output_logged.
Qed.

Lemma create_or_get_venv_in_flight script_dir s :
  os_path_exists (fs s) (venv_python_exec script_dir) = false →
  venv_is_running s = true →
  create_or_get_venv script_dir s
  = Some (None,
          logged (log_events "⚠️ Создание виртуального окружения уже запущено. Ожидайте.") s).
Proof.
  intros Hex Hrun. unfold create_or_get_venv, bind, gets. rewrite Hex, Hrun.
  by rewrite emit_log_output_logged.
Qed.




End provisioner.



Section controller.
Context `{Packaging}.

Lemma check_dependencies_method_eq script_dir s :
  check_dependencies_method script_dir s
  = let r := check_dependencies (fs s) (dists s) (_installed_packages_cache s) script_dir in
    Some (r.1.1, logged (r.2 ≫= log_events) (set_cache r.1.2 s)).
Proof.
  unfold check_dependencies_method, bind, gets, id.
  destruct (check_dependencies _ _ _ _) as [[ok cache] logs]. cbn.
  by rewrite emit_logs_logged.
Qed.

Lemma check_dependencies_false_exists fs dists cache script_dir :
  (check_dependencies fs dists cache script_dir).1.1 = false →
  os_path_exists fs (Py.path_join script_dir "requirements.txt") = true.
Proof.
  unfold check_dependencies.
  by destruct (os_path_exists fs (Py.path_join script_dir "requirements.txt")).
Qed.




Lemma ask_eq text s :
  ask text s
  = Some (default false (head (replies s)),
          logged [question text (default false (head (replies s)))]
            (set_replies (tail (replies s)) s)).
Proof. done. Qed.




End controller.

Section controller_claims.
Context `{Packaging}.


Lemma get_script_dir_differs script_name :
  Py.startswith "/" script_name = false → get_script_dir script_name ≠ script_name.
Proof.
  intros Hrel. unfold get_script_dir, Py.path_join. rewrite Hrel.
  intros Heq. apply (f_equal String.length) in Heq.
  vm_compute in Heq. lia.
Qed.

(** Whatever the script, the completion of its installation is taken for a
    completion that belongs to another script. *)
Lemma install_success_never_rerun fuel script_name s :
  Py.startswith "/" script_name = false →
  current_script_name s = Some script_name →
  _on_dependencies_installed (S fuel) (get_script_dir script_name) true s
  = Some ((), set_progress_bar (0%Z, false)
                (set_cache None
                   (logged [console_append "✅ Установка зависимостей завершена успешно.";
                            console_append
                              ("DEBUG: Установка зависимостей завершена для другого скрипта ("
                                 +:+ get_script_dir script_name +:+ ").")] s))).
Proof.
  intros Hrel Hcur. cbn [_on_dependencies_installed].
  unfold _on_dependencies_installed_body.
  erewrite bind_step; [done|].
  rewrite (bind_step _ _ _ _ _ (log_output_logged _ s)).
  unfold bind at 1, gets. cbn [current_script_name logged set_trace]. rewrite Hcur.
  rewrite bool_decide_eq_false_2.
  - by rewrite log_output_logged, logged_logged.
  - intros [= Heq]. by apply get_script_dir_differs in Heq.
Qed.

End controller_claims.

(** C2, the code at the failing input.  The script [demo] is selected and
    its installation has just succeeded.  [_on_install_finished] emits
    [dependencies_installed_signal] with the script's directory,
    [scripts/demo], which [_on_dependencies_installed] compares with the
    selected script's name, [demo]: the completion is logged as belonging to
    another script and no run is started, although running
    [_prepare_and_run_script] again in the resulting state launches the
    script. *)
Theorem install_success_discarded_as_stale :
  get_script_dir "demo" = "scripts/demo"
  ∧ ∃ s', _on_install_finished (_on_dependencies_installed (H := Pep440.lib) 2)
            (get_script_dir "demo") true demo_after_install = Some ((), s')
      ∧ current_script_name s' = Some "demo"
      ∧ last (trace s')
        = Some (console_append
                  "DEBUG: Установка зависимостей завершена для другого скрипта (scripts/demo).")
      ∧ worker_thread s' = None
      ∧ worker_starts s' = 0
      ∧ ∃ s'', _prepare_and_run_script (H := Pep440.lib)
                 (_on_dependencies_installed (H := Pep440.lib) 2) "demo" s'
               = Some ((), s'')
          ∧ worker_starts s'' = 1.
Proof.
  split; [reflexivity|]. eexists. split; [vm_compute; reflexivity|].
  split; [reflexivity|]. split; [reflexivity|]. split; [reflexivity|].
  split; [reflexivity|]. eexists. split; [vm_compute; reflexivity|]. reflexivity.
Qed.




(** * Further properties *)

(** *** VenvCreationThread *)

Lemma venv_run_reporting_spec c :
  ∃ texts,
    VenvCreation.run_reporting c
    = (VenvCreation.output_signal <$> texts,
       match c with
       | Ret p => Ret (bool_decide (InstallThread.returncode p = 0%Z))
       | Raise e => Raise e
       end).
Proof.
  unfold VenvCreation.run_reporting. destruct c as [p|e].
  - rewrite em_bind_lift_ret.
    repeat case_bool_decide; rewrite ?em_bind_ret, ?em_bind_emit; cbn [fst snd em_ret];
      first [by exists [] | by eexists [_] | by eexists [_; _]].
  - rewrite em_bind_lift_raise. by exists [].
Qed.

Lemma venv_outputs_plain texts :
  Forall (λ e, VenvCreation.is_finished e = false) (VenvCreation.output_signal <$> texts)
  ∧ VenvCreation.progress_values (VenvCreation.output_signal <$> texts) = [].
Proof.
  induction texts as [|t ts [IH1 IH2]]; [by split; [constructor|]|].
  split; [by constructor|]. exact IH2.
Qed.

Lemma venv_progress_values_app out out' :
  VenvCreation.progress_values (out ++ out')
  = VenvCreation.progress_values out ++ VenvCreation.progress_values out'.
Proof. apply omap_app. Qed.

Ltac venv_pre :=
  repeat first
    [ apply Forall_nil_2
    | apply Forall_cons; split; [reflexivity|]
    | apply Forall_app; split
    | apply venv_outputs_plain ].

Ltac venv_progress :=
  rewrite ?venv_progress_values_app, ?(λ t, proj2 (venv_outputs_plain t));
  cbn [VenvCreation.progress_values omap list_omap app];
  rewrite ?venv_progress_values_app, ?(λ t, proj2 (venv_outputs_plain t)).

(** The end of a creation: what is emitted before the final signal, whether
    80 was reached, and the outcome, a verdict or an exception. *)
Lemma venv_create_environment_spec venv_path s :
  ∃ pre (has80 : bool) (r : bool + string),
    VenvCreation.create_environment venv_path s
    = match r with
      | inl ok =>
          (pre ++ [VenvCreation.finished_signal ok
                     (if ok then VenvCreation.python_exec venv_path
                      else if has80 then "Pip не установлен в виртуальном окружении"
                      else "Ошибка создания виртуального окружения")], Ret ())
      | inr e => (pre, Raise e)
      end
    ∧ Forall (λ e, VenvCreation.is_finished e = false) pre
    ∧ VenvCreation.progress_values pre
      = (if has80 then [80%Z] else [])
          ++ (if bool_decide (r = inl true) then [100%Z] else [])
    ∧ (r = inl true → has80 = true)
    ∧ (r = inl true
       ↔ (∃ c, VenvCreation.virtualenv_create s = Ret c ∧ InstallThread.returncode c = 0%Z)
         ∧ VenvCreation.pip_version s = Ret 0%Z).
Proof.
  unfold VenvCreation.create_environment, VenvCreation._create_virtualenv,
    VenvCreation._check_pip_installed.
  destruct (venv_run_reporting_spec (VenvCreation.virtualenv_create s)) as [t2 E2].
  rewrite E2. clear E2. rewrite em_bind_emit. cbn [fst snd].
  destruct (VenvCreation.virtualenv_create s) as [c|e].
  2: { rewrite em_bind_pair_raise. cbn [fst snd].
       eexists (_ :: (VenvCreation.output_signal <$> t2)), false, (inr e).
       split; [reflexivity|]. split; [venv_pre|].
       split; [venv_progress; reflexivity|]. split; [done|].
       split; [done|]. intros [(? & ? & _) _]; done. }
  rewrite em_bind_pair_ret. case_bool_decide as Hc; cbn [negb].
  2: { cbn [em_emit fst snd].
       eexists (_ :: (VenvCreation.output_signal <$> t2)), false, (inl false).
       split; [reflexivity|]. split; [venv_pre|].
       split; [venv_progress; reflexivity|]. split; [done|].
       split; [done|]. intros [(? & ? & ?) _]. congruence. }
  rewrite em_bind_emit. cbn [fst snd]. destruct (VenvCreation.pip_version s) as [pc|e].
  2: { rewrite em_bind_lift_raise, em_bind_pair_raise. cbn [fst snd].
       eexists (_ :: (VenvCreation.output_signal <$> t2) ++ [_]), true, (inr e).
       split; [reflexivity|]. split; [venv_pre|].
       split; [venv_progress; reflexivity|]. split; [done|].
       split; [done|]. intros [_ ?]; done. }
  rewrite em_bind_lift_ret, em_bind_ret. case_bool_decide as Hp; cbn [negb].
  2: { cbn [em_emit fst snd].
       eexists (_ :: (VenvCreation.output_signal <$> t2) ++ [_]), true, (inl false).
       split; [f_equal; reassoc|]. split; [venv_pre|].
       split; [venv_progress; reflexivity|]. split; [done|].
       split; [done|]. intros [_ ?]; congruence. }
  rewrite !em_bind_emit. cbn [em_emit fst snd].
  eexists (_ :: (VenvCreation.output_signal <$> t2) ++ [_; _; _]), true, (inl true).
  split; [f_equal; reassoc|]. split; [venv_pre|].
  split; [venv_progress; reflexivity|]. split; [done|].
  split; [|done]. intros _. subst pc. split; [eauto|done].
Qed.

(** The first step: [virtualenv] is available afterwards ([inl true], with
    30 emitted when it had to be installed), the run has ended with its
    failure signal ([inl false]), or an exception is on its way. *)
Lemma venv_ensure_virtualenv_spec s :
  ∃ pre (has30 : bool) (r : bool + string),
    VenvCreation.ensure_virtualenv s
    = match r with
      | inl true => (pre, Ret true)
      | inl false =>
          (pre ++ [VenvCreation.finished_signal false "Не удалось установить virtualenv"],
           Ret false)
      | inr e => (pre, Raise e)
      end
    ∧ Forall (λ e, VenvCreation.is_finished e = false) pre
    ∧ VenvCreation.progress_values pre = (if has30 then [30%Z] else [])
    ∧ (r = inl true
       ↔ (VenvCreation.virtualenv_version s = Ret 0%Z
          ∨ ∃ code c, VenvCreation.virtualenv_version s = Ret code ∧ code ≠ 0%Z
                      ∧ VenvCreation.pip_install_virtualenv s = Ret c
                      ∧ InstallThread.returncode c = 0%Z)).
Proof.
  unfold VenvCreation.ensure_virtualenv, VenvCreation._check_virtualenv_installed,
    VenvCreation._install_virtualenv.
  destruct (venv_run_reporting_spec (VenvCreation.pip_install_virtualenv s)) as [t1 E1].
  rewrite E1. clear E1.
  destruct (VenvCreation.virtualenv_version s) as [code|e].
  2: { rewrite !em_bind_lift_raise. cbn [em_bind].
       exists [], false, (inr e). split; [reflexivity|].
       split; [venv_pre|]. split; [reflexivity|].
       split; [done|]. intros [?|(? & ? & ? & _)]; done. }
  rewrite em_bind_lift_ret, em_bind_ret.
  case_bool_decide as Hcode; cbn [negb].
  { subst code. exists [], false, (inl true). split; [reflexivity|].
    split; [venv_pre|]. split; [reflexivity|]. split; [by left|done]. }
  rewrite em_bind_emit. cbn [fst snd].
  destruct (VenvCreation.pip_install_virtualenv s) as [c|e].
  2: { rewrite em_bind_pair_raise. cbn [fst snd].
       eexists (_ :: (VenvCreation.output_signal <$> t1)), false, (inr e).
       split; [reflexivity|]. split; [venv_pre|].
       split; [venv_progress; reflexivity|]. split; [done|].
       intros [?|(? & ? & ? & _ & ? & _)]; simplify_eq. }
  rewrite em_bind_pair_ret. case_bool_decide as Hc; cbn [negb].
  2: { rewrite em_bind_emit. cbn [fst snd em_ret].
       eexists (_ :: (VenvCreation.output_signal <$> t1)), false, (inl false).
       split; [f_equal; reassoc|]. split; [venv_pre|].
       split; [venv_progress; reflexivity|]. split; [done|].
       intros [?|(? & ? & ? & _ & ? & ?)]; simplify_eq. }
  rewrite em_bind_emit. cbn [fst snd em_ret].
  eexists (_ :: (VenvCreation.output_signal <$> t1) ++ [_]), true, (inl true).
  split; [f_equal; reassoc|]. split; [venv_pre|].
  split; [venv_progress; reflexivity|]. split; [|done].
  intros _. right. eauto 10.
Qed.

Lemma venv_run_shape venv_path s :
  ∃ pre ok result (has30 has80 : bool),
    VenvCreation.run venv_path s = pre ++ [VenvCreation.finished_signal ok result]
    ∧ Forall (λ e, VenvCreation.is_finished e = false) pre
    ∧ VenvCreation.progress_values pre
      = [10%Z] ++ (if has30 then [30%Z] else []) ++ (if has80 then [80%Z] else [])
          ++ (if ok then [100%Z] else [])
    ∧ (ok = true → has80 = true)
    ∧ (ok = true ↔ VenvCreation.creation_succeeds s)
    ∧ (ok = true → result = VenvCreation.python_exec venv_path).
Proof.
  destruct (venv_ensure_virtualenv_spec s) as (p1 & has30 & r1 & H1 & Hf1 & Hp1 & Hok1).
  destruct (venv_create_environment_spec venv_path s)
    as (p2 & has80 & r2 & H2 & Hf2 & Hp2 & H80 & Hok2).
  assert (Hcs : VenvCreation.creation_succeeds s ↔ r1 = inl true ∧ r2 = inl true).
  { unfold VenvCreation.creation_succeeds. rewrite Hok1, Hok2. tauto. }
  setoid_rewrite Hcs. clear Hcs Hok1 Hok2.
  unfold VenvCreation.run, VenvCreation.run_body.
  rewrite !em_bind_emit, H1. cbn [fst snd]. clear H1.
  destruct r1 as [[]|e1].
  - rewrite em_bind_pair_ret. cbn [negb]. rewrite H2. clear H2. destruct r2 as [ok|e2].
    + cbn [fst snd]. eexists ([_; _] ++ p1 ++ p2), ok, _, has30, has80.
      split; [reassoc|]. split; [venv_pre; done|].
      split; [venv_progress; rewrite Hp1, Hp2; destruct ok; reassoc|].
      split; [by intros ->; apply H80|]. split; [|by intros ->].
      split; [by intros ->|]. intros [_ ?]. congruence.
    + cbn [fst snd]. eexists ([_; _] ++ p1 ++ p2), false, e2, has30, has80.
      split; [reassoc|]. split; [venv_pre; done|].
      split; [venv_progress; rewrite Hp1, Hp2; reassoc|].
      split; [done|]. split; [|done]. split; [done|]. intros [_ ?]. done.
  - rewrite em_bind_pair_ret. cbn [negb fst snd em_ret].
    eexists ([_; _] ++ p1), false, _, has30, false.
    split; [reassoc|]. split; [venv_pre; done|].
    split; [venv_progress; rewrite Hp1; reassoc|].
    split; [done|]. split; [|done]. split; [done|]. intros [? _]. done.
  - rewrite em_bind_pair_raise. cbn [fst snd].
    eexists ([_; _] ++ p1), false, e1, has30, false.
    split; [reassoc|]. split; [venv_pre; done|].
    split; [venv_progress; rewrite Hp1; reassoc|].
    split; [done|]. split; [|done]. split; [done|]. intros [? _]. done.
Qed.

(** *** InstallThread: the final signal *)

Lemma install_ends_well_bind {A B} (m : emitting InstallThread.Signal A)
    (k : A → emitting InstallThread.Signal B) :
  install_nofin m.1 → (∀ a, m.2 = Ret a → install_ends_well (k a)) →
  install_ends_well (em_bind m k).
Proof.
  destruct m as [out [a|e]]; cbn [fst snd]; intros Hout Hk.
  - rewrite em_bind_pair_ret. specialize (Hk a eq_refl). unfold install_ends_well in *.
    cbn [fst snd]. destruct (k a).2.
    + destruct Hk as (pre & ok & -> & Hpre). exists (out ++ pre), ok.
      split; [by rewrite app_assoc|]. by apply Forall_app.
    + by apply Forall_app.
  - by rewrite em_bind_pair_raise.
Qed.

Lemma install_run_command_nofin c : install_nofin (InstallThread._run_command c).1.
Proof.
  unfold InstallThread._run_command. apply Forall_em_bind; [constructor|]. intros p _.
  apply Forall_em_bind; [case_bool_decide; repeat constructor; done|]. intros _ _.
  apply Forall_em_bind; [case_bool_decide; repeat constructor; done|]. intros _ _.
  constructor.
Qed.

Lemma install_stderr_loop_nofin ls : install_nofin (InstallThread.stderr_loop ls).1.
Proof.
  induction ls as [|l ls IH]; [constructor|]. cbn [InstallThread.stderr_loop].
  apply Forall_em_bind; [constructor|]. intros line _.
  apply Forall_em_bind; [repeat constructor; done|]. intros _ _. exact IH.
Qed.

Lemma install_stdout_loop_fin p ls :
  let r := InstallThread.stdout_loop p ls in
  match r.2 with
  | Ret false =>
      ∃ pre, r.1 = pre ++ [InstallThread.finished_signal false] ∧ install_nofin pre
  | _ => install_nofin r.1
  end.
Proof.
  revert p. induction ls as [|l ls IH]; intros p; [constructor|].
  cbn [InstallThread.stdout_loop]. destruct l as [[line []]|e].
  - rewrite em_bind_lift_ret. cbn [negb]. rewrite !em_bind_emit. cbn [fst snd].
    specialize (IH (Z.min (p + 3) 95)). cbv zeta in IH.
    destruct (InstallThread.stdout_loop (Z.min (p + 3) 95) ls) as [out [[]|e]];
      cbn [fst snd] in *.
    + repeat constructor; done.
    + destruct IH as (pre & -> & Hpre). eexists (_ :: _ :: pre). split; [done|].
      repeat constructor; done.
    + repeat constructor; done.
  - rewrite em_bind_lift_ret. cbn. eexists [_]. split; [done|]. repeat constructor. done.
  - rewrite em_bind_lift_raise. constructor.
Qed.

Lemma install_run_body_ends_well s : install_ends_well (InstallThread.run_body s).
Proof.
  unfold InstallThread.run_body.
  apply install_ends_well_bind; [repeat constructor; done|]. intros _ _.
  apply install_ends_well_bind; [apply install_run_command_nofin|]. intros _ _.
  apply install_ends_well_bind; [repeat constructor; done|]. intros _ _.
  apply install_ends_well_bind; [constructor|]. intros _ _.
  pose proof (install_stdout_loop_fin 0 (InstallThread.stdout_lines s)) as Hloop.
  cbv zeta in Hloop.
  destruct (InstallThread.stdout_loop 0 (InstallThread.stdout_lines s)) as [out [[]|e]];
    cbn [fst snd] in Hloop.
  - apply install_ends_well_bind; [done|]. intros ? [= <-]. cbn [negb].
    apply install_ends_well_bind; [apply install_stderr_loop_nofin|]. intros _ _.
    apply install_ends_well_bind; [constructor|]. intros rc _.
    case_bool_decide; rewrite !em_bind_emit; cbn [em_emit fst snd].
    + eexists [_; _], true. split; [done|]. repeat constructor; done.
    + eexists [_], false. split; [done|]. repeat constructor; done.
  - rewrite em_bind_pair_ret. cbn [negb em_ret fst snd]. rewrite app_nil_r.
    destruct Hloop as (pre & -> & Hpre). unfold install_ends_well. cbn [fst snd]. eauto.
  - rewrite em_bind_pair_raise. done.
Qed.

Lemma install_run_shape s :
  ∃ pre ok, InstallThread.run s = pre ++ [InstallThread.finished_signal ok]
            ∧ install_nofin pre
            ∧ (ok = true ↔ completes_successfully s).
Proof.
  assert (Hshape : ∃ pre ok, InstallThread.run s = pre ++ [InstallThread.finished_signal ok]
                             ∧ install_nofin pre).
  { pose proof (install_run_body_ends_well s) as Hb. unfold InstallThread.run.
    unfold install_ends_well in Hb.
    destruct (InstallThread.run_body s) as [out [[]|e]]; cbn [fst snd] in Hb.
    - exact Hb.
    - eexists (out ++ [_]), false. split; [by rewrite <- app_assoc|].
      apply Forall_app. split; [done|]. repeat constructor. done. }
  destruct Hshape as (pre & ok & Hrun & Hpre). exists pre, ok.
  split; [done|]. split; [done|].
  assert (Hin : ok = true ↔ InstallThread.finished_signal true ∈ InstallThread.run s).
  { rewrite Hrun, elem_of_app, list_elem_of_singleton. split.
    - intros ->. by right.
    - intros [Hin|[= <-]]; [|done].
      eapply Forall_forall in Hpre; [|exact Hin]. by destruct (Hpre true). }
  rewrite Hin. clear Hin Hrun Hpre.
  destruct (stdout_loop_spec 0 (InstallThread.stdout_lines s) ltac:(lia)) as (_ & _ & Hf & _).
  destruct (run_cases s) as [(Hc & o1 & o3 & Hq1 & Hq3 & ->)
                            |(Hc & o1 & o2 & o3 & Hq1 & Hq3 & Ho2 & ->)].
  - split; [done|]. intros _. rewrite !elem_of_app. do 3 right.
    unfold success_tail. rewrite !elem_of_cons. auto.
  - split; [|done]. rewrite !elem_of_app. intros [Hin|[Hin|Hin]].
    + by destruct Hq1.
    + destruct Ho2 as [->| ->]; [by apply not_elem_of_nil in Hin|done].
    + by destruct Hq3.
Qed.

(** X1.  Every run of [VenvCreationThread] ends with exactly one
    [finished_signal], its last signal, whether the steps succeed, fail or
    raise. *)
Theorem venv_creation_finishes_exactly_once venv_path s :
  ∃ pre success result,
    VenvCreation.run venv_path s = pre ++ [VenvCreation.finished_signal success result]
    ∧ Forall (λ e, VenvCreation.is_finished e = false) pre.
Proof.
  destruct (venv_run_shape venv_path s) as (pre & ok & result & _ & _ & Hrun & Hpre & _).
  eauto.
Qed.

(** X2.  The creation thread reports success exactly when every step went
    through, and then with the interpreter path that [create_or_get_venv]
    looks for: started on [.venv] under the script directory, it emits
    [finished_signal(True, result)] if and only if [virtualenv] was there or
    could be installed, the creation exited with code 0 and [pip] answers in
    the new environment, and [result] is the path of the environment's
    interpreter. *)
Theorem venv_creation_reports_interpreter script_dir s result :
  VenvCreation.finished_signal true result
    ∈ VenvCreation.run (Py.path_join script_dir ".venv") s
  ↔ VenvCreation.creation_succeeds s ∧ result = venv_python_exec script_dir.
Proof.
  destruct (venv_run_shape (Py.path_join script_dir ".venv") s)
    as (pre & ok & result' & _ & _ & Hrun & Hpre & _ & _ & Hok & Hres).
  rewrite Hrun, elem_of_app, list_elem_of_singleton, <- Hok. split.
  - intros [Hin|[= <- <-]].
    + eapply Forall_forall in Hpre; [|exact Hin]. done.
    + split; [done|]. by apply Hres.
  - intros [-> ->]. right. by rewrite Hres.
Qed.

(** X3.  The percentages of a creation are milestones: the first is 10, they
    are strictly increasing and among 10, 30, 80 and 100; 100 is emitted
    exactly when the creation succeeds, and never without 80 before it. *)
Theorem venv_creation_progress_milestones venv_path s :
  let ps := VenvCreation.progress_values (VenvCreation.run venv_path s) in
  head ps = Some 10%Z
  ∧ StronglySorted Z.lt ps
  ∧ Forall (λ v, v ∈ [10; 30; 80; 100]%Z) ps
  ∧ (100%Z ∈ ps ↔ VenvCreation.creation_succeeds s)
  ∧ (100%Z ∈ ps → 80%Z ∈ ps).
Proof.
  destruct (venv_run_shape venv_path s)
    as (pre & ok & result & has30 & has80 & Hrun & _ & Hprog & H80 & Hok & _).
  cbv zeta. rewrite Hrun, venv_progress_values_app, Hprog. cbn [VenvCreation.progress_values
    omap list_omap]. rewrite app_nil_r, <- Hok. clear Hrun Hprog Hok.
  destruct ok; [rewrite (H80 eq_refl)|]; destruct has30; try destruct has80; cbn;
    (split; [done|]); (split; [repeat constructor; lia|]);
    (split; [repeat constructor; rewrite !elem_of_cons; auto 10|]);
    rewrite ?elem_of_cons, ?elem_of_nil; intuition congruence.
Qed.

(** X4.  Every run of [InstallThread] ends with exactly one
    [finished_signal], its last signal, and that signal carries success
    exactly when the installation completed successfully. *)
Theorem install_finishes_exactly_once s :
  ∃ pre success,
    InstallThread.run s = pre ++ [InstallThread.finished_signal success]
    ∧ Forall (λ e, ∀ b, e ≠ InstallThread.finished_signal b) pre
    ∧ (success = true ↔ completes_successfully s).
Proof. apply install_run_shape. Qed.

(** *** GitHubUpdaterThread *)

Lemma github_outer_handler_final o :
  o ≠ GitHubUpdaterThread.completed →
  ∃ message,
    GitHubUpdaterThread.outer_handler o
    = [GitHubUpdaterThread.emit (GitHubUpdaterThread.finished_signal false message)].
Proof. destruct o; [done| |]; eauto. Qed.

Lemma github_reset_handler_final o :
  o ≠ GitHubUpdaterThread.completed →
  ∃ message,
    GitHubUpdaterThread.reset_handler o
    = [GitHubUpdaterThread.emit (GitHubUpdaterThread.finished_signal false message)].
Proof. destruct o; [done| |]; eauto. Qed.

(** The shape of a run: the steps before the final signal, and whether the
    reset was run. *)
Lemma github_run_shape repo_url local_path action s :
  ∃ pre success message,
    GitHubUpdaterThread.run repo_url local_path action s
    = pre ++ [GitHubUpdaterThread.emit (GitHubUpdaterThread.finished_signal success message)]
    ∧ Forall (λ st, GitHubUpdaterThread.is_finished st = false) pre
    ∧ (GitHubUpdaterThread.call GitHubUpdaterThread.git_reset_hard ∈ pre
       ↔ action = "pull" ∧ GitHubUpdaterThread.change_dir s = Ret ()
         ∧ ∃ m stderr, GitHubUpdaterThread.pull s
                       = GitHubUpdaterThread.CalledProcessError m stderr
                       ∧ GitHubUpdaterThread.mentions_conflict stderr)
    ∧ (success = true
       ↔ (action = "clone"
          ∧ GitHubUpdaterThread.clone s = GitHubUpdaterThread.completed)
         ∨ (action = "pull" ∧ GitHubUpdaterThread.change_dir s = Ret ()
            ∧ (GitHubUpdaterThread.pull s = GitHubUpdaterThread.completed
               ∨ (∃ m stderr, GitHubUpdaterThread.pull s
                              = GitHubUpdaterThread.CalledProcessError m stderr
                              ∧ GitHubUpdaterThread.mentions_conflict stderr)
                 ∧ GitHubUpdaterThread.reset s = GitHubUpdaterThread.completed
                 ∧ GitHubUpdaterThread.pull_again s = GitHubUpdaterThread.completed))).
Proof.
  unfold GitHubUpdaterThread.run, GitHubUpdaterThread.mentions_conflict.
  case_bool_decide as Hclone.
  { subst action.
    destruct (GitHubUpdaterThread.clone s) as [|m e|c m] eqn:Hc; cbn;
      eexists [_; _], _, _; (split; [reflexivity|]); (split; [repeat constructor|]);
      (split; [rewrite !elem_of_cons, elem_of_nil; intuition congruence|]);
      intuition (try congruence); naive_solver. }
  case_bool_decide as Hpull.
  2: { eexists [], _, _. split; [reflexivity|]. split; [constructor|].
       split; [rewrite elem_of_nil|]; intuition congruence. }
  subst action.
  destruct (GitHubUpdaterThread.change_dir s) as [[]|e] eqn:Hcd.
  2: { eexists [_; _], _, _. split; [reflexivity|]. split; [repeat constructor|].
       split; [rewrite !elem_of_cons, elem_of_nil|]; intuition congruence. }
  destruct (GitHubUpdaterThread.pull s) as [|m stderr|c m] eqn:Hp.
  - eexists [_; _; _], _, _. split; [reflexivity|]. split; [repeat constructor|].
    split; [rewrite !elem_of_cons, elem_of_nil; intuition (try congruence); naive_solver|].
    intuition.
  - destruct (GitHubUpdaterThread.contains "merge conflict" (Py.lower stderr)
              || GitHubUpdaterThread.contains "local changes" (Py.lower stderr)) eqn:Hconf.
    + assert (Hm : GitHubUpdaterThread.contains "merge conflict" (Py.lower stderr) = true
                   ∨ GitHubUpdaterThread.contains "local changes" (Py.lower stderr) = true)
        by by apply orb_prop.
      destruct (GitHubUpdaterThread.reset s) as [|m' e'|c' m'] eqn:Hr.
      * destruct (GitHubUpdaterThread.pull_again s) as [|m2 e2|c2 m2] eqn:Hp2; cbn;
          eexists [_; _; _; _; _; _; _], _, _; (split; [reflexivity|]);
          (split; [repeat constructor|]);
          (split; [rewrite !elem_of_cons; split; [eauto 10|auto 10]|]);
          split; try done; try (intros _; right; eauto 10);
          intros [[? ?]|(_ & _ & [?|(_ & _ & ?)])]; congruence.
      * cbn. eexists [_; _; _; _; _], _, _. split; [reflexivity|].
        split; [repeat constructor|].
        split; [rewrite !elem_of_cons; split; [eauto 10|auto 10]|].
        split; [done|]. intros [[? ?]|(_ & _ & [?|(_ & ? & _)])]; congruence.
      * cbn. eexists [_; _; _; _; _], _, _. split; [reflexivity|].
        split; [repeat constructor|].
        split; [rewrite !elem_of_cons; split; [eauto 10|auto 10]|].
        split; [done|]. intros [[? ?]|(_ & _ & [?|(_ & ? & _)])]; congruence.
    + apply orb_false_elim in Hconf as [Hc1 Hc2].
      eexists [_; _; _], _, _. split; [reflexivity|]. split; [repeat constructor|].
      split.
      * rewrite !elem_of_cons, elem_of_nil. split; [intuition congruence|].
        intros (_ & _ & m' & e' & [= <- <-] & [?|?]); congruence.
      * split; [done|].
        intros [[? ?]|(_ & _ & [?|((m' & e' & [= <- <-] & [?|?]) & _)])]; congruence.
  - cbn. eexists [_; _; _], _, _. split; [reflexivity|]. split; [repeat constructor|].
    split.
    + rewrite !elem_of_cons, elem_of_nil. split; [intuition congruence|].
      intros (_ & _ & m' & e' & ? & _); congruence.
    + split; [done|].
      intros [[? ?]|(_ & _ & [?|((m' & e' & ? & _) & _)])]; congruence.
Qed.

(** X5.  Every run of [GitHubUpdaterThread] ends with exactly one
    [finished_signal], its last step, whatever the action and whatever the
    commands do: an unknown action, a failing command, a directory that
    cannot be entered, and an exception without [stderr] in the handler of
    the reset are all reported through it. *)
Theorem github_update_finishes_exactly_once repo_url local_path action s :
  ∃ pre success message,
    GitHubUpdaterThread.run repo_url local_path action s
    = pre ++ [GitHubUpdaterThread.emit (GitHubUpdaterThread.finished_signal success message)]
    ∧ Forall (λ st, GitHubUpdaterThread.is_finished st = false) pre.
Proof.
  destruct (github_run_shape repo_url local_path action s)
    as (pre & ok & message & Hrun & Hpre & _).
  eauto.
Qed.

(** X6.  Local changes are discarded only after a conflict.  The updater runs
    [git reset --hard HEAD] if and only if the action is [pull], the
    repository directory could be entered, and the pull failed with an error
    output that names a merge conflict or local changes. *)
Theorem github_reset_only_after_conflict repo_url local_path action s :
  GitHubUpdaterThread.call GitHubUpdaterThread.git_reset_hard
    ∈ GitHubUpdaterThread.run repo_url local_path action s
  ↔ action = "pull" ∧ GitHubUpdaterThread.change_dir s = Ret ()
    ∧ ∃ m stderr, GitHubUpdaterThread.pull s
                  = GitHubUpdaterThread.CalledProcessError m stderr
                  ∧ GitHubUpdaterThread.mentions_conflict stderr.
Proof.
  destruct (github_run_shape repo_url local_path action s)
    as (pre & ok & message & Hrun & _ & Hreset & _).
  rewrite Hrun, elem_of_app, list_elem_of_singleton, <- Hreset.
  split; [intros [?|?]; [done|congruence]|auto].
Qed.

(** X7.  The updater reports success exactly when the repository was brought
    up to date: the clone exited with code 0; or the pull did; or the pull
    failed on a conflict, and the reset and the second pull both exited with
    code 0. *)
Theorem github_update_success repo_url local_path action s :
  (∃ message,
     GitHubUpdaterThread.emit (GitHubUpdaterThread.finished_signal true message)
       ∈ GitHubUpdaterThread.run repo_url local_path action s)
  ↔ (action = "clone" ∧ GitHubUpdaterThread.clone s = GitHubUpdaterThread.completed)
    ∨ (action = "pull" ∧ GitHubUpdaterThread.change_dir s = Ret ()
       ∧ (GitHubUpdaterThread.pull s = GitHubUpdaterThread.completed
          ∨ (∃ m stderr, GitHubUpdaterThread.pull s
                         = GitHubUpdaterThread.CalledProcessError m stderr
                         ∧ GitHubUpdaterThread.mentions_conflict stderr)
            ∧ GitHubUpdaterThread.reset s = GitHubUpdaterThread.completed
            ∧ GitHubUpdaterThread.pull_again s = GitHubUpdaterThread.completed)).
Proof.
  destruct (github_run_shape repo_url local_path action s)
    as (pre & ok & message & Hrun & Hpre & _ & Hok).
  rewrite <- Hok, Hrun. split.
  - intros (message' & [Hin|[= <- _]%list_elem_of_singleton]%elem_of_app); [|done].
    eapply Forall_forall in Hpre; [|exact Hin]. done.
  - intros ->. exists message. apply elem_of_app. right. by apply list_elem_of_singleton.
Qed.

(** ** Controller flows *)

Lemma emit_progress_eq v s :
  emit_progress v s
  = Some ((), set_progress_bar (v, ((0 <? v) && (v <? 100))%Z)
                (logged [dm_emit (progress_signal v)] s)).
Proof. done. Qed.

Lemma install_starts_logged ev s :
  install_starts (logged ev s) = install_starts s + length (List.filter is_install_start ev).
Proof. unfold install_starts, logged. simpl. by rewrite List.filter_app, length_app. Qed.

Lemma nothing_started_refl s : nothing_started s s.
Proof. by repeat split. Qed.

Lemma nothing_started_trans s1 s2 s3 :
  nothing_started s1 s2 → nothing_started s2 s3 → nothing_started s1 s3.
Proof. unfold nothing_started. intros (?&?&?&?&?&?) (?&?&?&?&?&?). repeat split; congruence. Qed.

Lemma filter_starts_nothing f ev :
  (∀ e, f e = true → starts_nothing e = false) →
  forallb starts_nothing ev = true → List.filter f ev = [].
Proof.
  intros Hf. induction ev as [|e ev IH]; [done|]. cbn [forallb List.filter].
  intros [He Hev]%andb_prop. destruct (f e) eqn:Hfe; [|by apply IH].
  apply Hf in Hfe. congruence.
Qed.

Lemma nothing_started_logged ev s :
  forallb starts_nothing ev = true → nothing_started s (logged ev s).
Proof.
  intros Hev. unfold nothing_started.
  rewrite worker_starts_logged, install_starts_logged, venv_starts_logged.
  rewrite !(filter_starts_nothing _ ev) by (done || by intros [| | |[]|]).
  cbn. repeat split; lia.
Qed.

Lemma nothing_started_settings pb c ev s :
  forallb starts_nothing ev = true →
  nothing_started s (set_progress_bar pb (set_cache c (logged ev s))).
Proof. intros Hev. exact (nothing_started_logged ev s Hev). Qed.

Section flows.
Context `{Packaging}.

Lemma install_dependencies_busy slot script_dir python_exec s :
  os_path_exists (fs s) (Py.path_join script_dir "requirements.txt") = true →
  install_is_running s = true →
  install_dependencies slot script_dir python_exec s
  = Some ((), logged (log_events "⚠️ Установка зависимостей уже запущена. Ожидайте.") s).
Proof.
  intros Hex Hrun. unfold install_dependencies, bind at 1, gets. rewrite Hex. cbn [negb].
  unfold bind at 1. rewrite Hrun. apply emit_log_output_logged.
Qed.

Lemma install_dependencies_start slot script_dir python_exec s :
  os_path_exists (fs s) (Py.path_join script_dir "requirements.txt") = true →
  install_is_running s = false →
  install_dependencies slot script_dir python_exec s
  = let t := {| InstallThread.python_exec := python_exec;
                InstallThread.requirements_path := Py.path_join script_dir "requirements.txt";
                InstallThread.isRunning := true |} in
    Some ((), logged [thread_start (install t)]
                (set_install_thread (Some t)
                   (logged (log_events ("📦 Запускаю установку зависимостей для "
                                          +:+ os_path_basename script_dir +:+ "...")) s))).
Proof.
  intros Hex Hrun. unfold install_dependencies, bind at 1, gets. rewrite Hex. cbn [negb].
  unfold bind at 1. rewrite Hrun.
  by rewrite (bind_step _ _ _ _ _ (emit_log_output_logged _ s)).
Qed.

(** X8.  While an installation is in flight no second one is started.  For a
    script that has a manifest, [install_dependencies] starts the install
    thread, with the interpreter it was given and the manifest of the
    script, only when no install thread is running; when one is running it
    only logs the busy notice.  Either way an installation is running
    afterwards, and a further request, for this or another script with a
    manifest, changes nothing but the log. *)
Theorem install_dependencies_single_flight
    slot script_dir python_exec script_dir' python_exec' s :
  os_path_exists (fs s) (Py.path_join script_dir "requirements.txt") = true →
  os_path_exists (fs s) (Py.path_join script_dir' "requirements.txt") = true →
  ∃ s1, install_dependencies slot script_dir python_exec s = Some ((), s1)
    ∧ (install_is_running s = true →
       s1 = logged (log_events "⚠️ Установка зависимостей уже запущена. Ожидайте.") s)
    ∧ (install_is_running s = false →
       _install_thread s1
       = Some {| InstallThread.python_exec := python_exec;
                 InstallThread.requirements_path :=
                   Py.path_join script_dir "requirements.txt";
                 InstallThread.isRunning := true |}
       ∧ install_starts s1 = S (install_starts s))
    ∧ install_is_running s1 = true
    ∧ install_dependencies slot script_dir' python_exec' s1
      = Some ((), logged (log_events "⚠️ Установка зависимостей уже запущена. Ожидайте.") s1).
Proof.
  intros Hex Hex'. destruct (install_is_running s) eqn:Hrun.
  - rewrite (install_dependencies_busy _ _ _ _ Hex Hrun). eexists. split; [done|].
    split; [done|]. split; [done|]. split; [exact Hrun|].
    by apply install_dependencies_busy.
  - rewrite (install_dependencies_start _ _ _ _ Hex Hrun). cbv zeta. eexists. split; [done|].
    split; [done|]. split.
    { intros _. split; [done|]. rewrite install_starts_logged. cbn.
      unfold install_starts. cbn. rewrite List.filter_app, length_app. cbn. lia. }
    split; [done|]. by apply install_dependencies_busy.
Qed.

Lemma install_dependencies_no_manifest fuel script_dir python_exec s :
  os_path_exists (fs s) (Py.path_join script_dir "requirements.txt") = false →
  current_script_name s ≠ Some script_dir →
  install_dependencies (_on_dependencies_installed (S fuel)) script_dir python_exec s
  = Some ((), set_progress_bar (0%Z, false)
                (set_cache None
                   (logged
                      (log_events "ℹ️ requirements.txt не найден для установки."
                         ++ [dm_emit (progress_signal 0);
                             dm_emit (dependencies_installed_signal script_dir true);
                             console_append "✅ Установка зависимостей завершена успешно.";
                             console_append
                               ("DEBUG: Установка зависимостей завершена для другого скрипта ("
                                  +:+ script_dir +:+ ").")]) s))).
Proof.
  intros Hex Hcur. unfold install_dependencies, bind at 1, gets. rewrite Hex. cbn [negb].
  rewrite (bind_step _ _ _ _ _ (emit_log_output_logged _ s)).
  rewrite (bind_step _ _ _ _ _ (emit_progress_eq _ _)).
  unfold emit_dependencies_installed.
  rewrite (bind_step _ _ _ _ _ (record_logged _ _)).
  cbn [_on_dependencies_installed]. unfold _on_dependencies_installed_body.
  erewrite bind_step; [|
    rewrite (bind_step _ _ _ _ _ (log_output_logged _ _));
    unfold bind at 1, gets; cbn [current_script_name logged set_trace set_progress_bar];
    rewrite bool_decide_eq_false_2 by congruence;
    apply log_output_logged].
  destruct s. unfold logged, log_events. cbn. by rewrite <- !app_assoc.
Qed.

(** X9.  With no manifest there is nothing to install: for a script
    directory that is not the selected script name, [install_dependencies]
    starts no thread and asks nothing.  It logs that there is no manifest,
    resets the progress bar to a hidden 0 and emits
    [dependencies_installed_signal] with success; the window's slot logs
    that the installation was for another script and empties the package
    cache. *)
Theorem install_dependencies_without_manifest fuel script_dir python_exec s :
  os_path_exists (fs s) (Py.path_join script_dir "requirements.txt") = false →
  current_script_name s ≠ Some script_dir →
  ∃ s', install_dependencies (_on_dependencies_installed (S fuel)) script_dir python_exec s
        = Some ((), s')
    ∧ trace s'
      = trace s
          ++ log_events "ℹ️ requirements.txt не найден для установки."
          ++ [dm_emit (progress_signal 0);
              dm_emit (dependencies_installed_signal script_dir true);
              console_append "✅ Установка зависимостей завершена успешно.";
              console_append ("DEBUG: Установка зависимостей завершена для другого скрипта ("
                                +:+ script_dir +:+ ").")]
    ∧ nothing_started s s'
    ∧ replies s' = replies s
    ∧ progress_bar s' = (0%Z, false)
    ∧ _installed_packages_cache s' = None.
Proof.
  intros Hex Hcur. rewrite (install_dependencies_no_manifest _ _ _ _ Hex Hcur).
  eexists. split; [done|]. split; [done|]. split; [|done].
  by apply nothing_started_settings.
Qed.

End flows.

(** *** Reports *)

Lemma only_reported_refl s : only_reported s s.
Proof. repeat split; try done. exists []. by rewrite app_nil_r. Qed.

Lemma only_reported_trans s1 s2 s3 :
  only_reported s1 s2 → only_reported s2 s3 → only_reported s1 s3.
Proof.
  intros (?&?&?&?&?&?&?&?& ev & Ht & Hev) (?&?&?&?&?&?&?&?& ev' & Ht' & Hev').
  repeat split; try congruence.
  exists (ev ++ ev'). split; [by rewrite Ht', Ht, app_assoc|].
  by rewrite forallb_app, Hev, Hev'.
Qed.

Lemma only_reported_logged ev s :
  forallb is_report ev = true → only_reported s (logged ev s).
Proof. intros Hev. repeat split; try done. by exists ev. Qed.

Lemma only_reported_progress_bar pb s : only_reported s (set_progress_bar pb s).
Proof. repeat split; try done. exists []. by rewrite app_nil_r. Qed.

Lemma only_reported_cache c s : only_reported s (set_cache c s).
Proof. repeat split; try done. exists []. by rewrite app_nil_r. Qed.

Lemma is_report_starts_nothing ev :
  forallb is_report ev = true → forallb starts_nothing ev = true.
Proof.
  induction ev as [|e ev IH]; [done|]. cbn [forallb].
  intros [He Hev]%andb_prop. rewrite IH by done. by destruct e.
Qed.

Lemma only_reported_nothing_started s s' : only_reported s s' → nothing_started s s'.
Proof.
  intros (_&_&_&_&_& Hw & Hi & Hv & ev & Ht & Hev).
  apply is_report_starts_nothing in Hev.
  unfold nothing_started, worker_starts, install_starts, venv_starts.
  rewrite Ht, !List.filter_app, !length_app.
  rewrite !(filter_starts_nothing _ ev) by (done || by intros [| | |[]|]).
  cbn. repeat split; try done; lia.
Qed.

Lemma emit_log_output_reported text s :
  ∃ s', emit_log_output text s = Some ((), s') ∧ only_reported s s'
        ∧ progress_bar s' = progress_bar s
        ∧ _installed_packages_cache s' = _installed_packages_cache s.
Proof.
  rewrite emit_log_output_logged. eexists. split; [done|].
  split; [by apply only_reported_logged|done].
Qed.

Lemma emit_progress_reported v s :
  ∃ s', emit_progress v s = Some ((), s') ∧ only_reported s s'
        ∧ _installed_packages_cache s' = _installed_packages_cache s.
Proof.
  rewrite emit_progress_eq. eexists. split; [done|]. split; [|done].
  eapply only_reported_trans;
    [by apply (only_reported_logged [dm_emit (progress_signal v)])|].
  apply only_reported_progress_bar.
Qed.

Section deliveries.
Context `{Packaging}.

Lemma deliver_install_all_app fuel script_dir out out' s :
  deliver_install_all fuel script_dir (out ++ out') s
  = match deliver_install_all fuel script_dir out s with
    | Some (_, s1) => deliver_install_all fuel script_dir out' s1
    | None => None
    end.
Proof.
  revert s. induction out as [|sig out IH]; intros s; [done|].
  cbn [app deliver_install_all]. unfold bind.
  destruct (deliver_install fuel script_dir sig s) as [[[] s1]|]; [apply IH|done].
Qed.

Lemma deliver_install_pre fuel script_dir pre s :
  install_nofin pre →
  ∃ s1, deliver_install_all fuel script_dir pre s = Some ((), s1)
        ∧ only_reported s s1
        ∧ _installed_packages_cache s1 = _installed_packages_cache s.
Proof.
  intros Hpre. revert s. induction Hpre as [|sig pre Hsig _ IH]; intros s.
  { exists s. split; [done|]. split; [apply only_reported_refl|done]. }
  cbn [deliver_install_all].
  assert (Hone : ∃ s0, deliver_install fuel script_dir sig s = Some ((), s0)
                       ∧ only_reported s s0
                       ∧ _installed_packages_cache s0 = _installed_packages_cache s).
  { destruct sig as [v|text|b]; cbn [deliver_install].
    - apply emit_progress_reported.
    - destruct (emit_log_output_reported text s) as (s0 & ? & ? & ? & ?). eauto.
    - by destruct (Hsig b). }
  destruct Hone as (s0 & Hd & Hr & Hc). rewrite (bind_step _ _ _ _ _ Hd).
  destruct (IH s0) as (s1 & Hall & Hr1 & Hc1). exists s1. split; [done|].
  split; [by eapply only_reported_trans|congruence].
Qed.

Lemma deliver_venv_all_app fuel script_dir out out' s :
  deliver_venv_all fuel script_dir (out ++ out') s
  = match deliver_venv_all fuel script_dir out s with
    | Some (_, s1) => deliver_venv_all fuel script_dir out' s1
    | None => None
    end.
Proof.
  revert s. induction out as [|sig out IH]; intros s; [done|].
  cbn [app deliver_venv_all]. unfold bind.
  destruct (deliver_venv fuel script_dir sig s) as [[[] s1]|]; [apply IH|done].
Qed.

Lemma deliver_venv_pre fuel script_dir pre s :
  Forall (λ e, VenvCreation.is_finished e = false) pre →
  ∃ s1, deliver_venv_all fuel script_dir pre s = Some ((), s1)
        ∧ only_reported s s1
        ∧ _installed_packages_cache s1 = _installed_packages_cache s.
Proof.
  intros Hpre. revert s. induction Hpre as [|sig pre Hsig _ IH]; intros s.
  { exists s. split; [done|]. split; [apply only_reported_refl|done]. }
  cbn [deliver_venv_all].
  assert (Hone : ∃ s0, deliver_venv fuel script_dir sig s = Some ((), s0)
                       ∧ only_reported s s0
                       ∧ _installed_packages_cache s0 = _installed_packages_cache s).
  { destruct sig as [v|text|b r]; cbn [deliver_venv].
    - apply emit_progress_reported.
    - destruct (emit_log_output_reported text s) as (s0 & ? & ? & ? & ?). eauto.
    - done. }
  destruct Hone as (s0 & Hd & Hr & Hc). rewrite (bind_step _ _ _ _ _ Hd).
  destruct (IH s0) as (s1 & Hall & Hr1 & Hc1). exists s1. split; [done|].
  split; [by eapply only_reported_trans|congruence].
Qed.

Lemma on_install_finished_failure fuel script_dir s :
  _on_install_finished (_on_dependencies_installed (S fuel)) script_dir false s
  = Some ((), set_progress_bar (0%Z, false)
                (set_cache None
                   (logged (log_events "❌ Установка зависимостей завершена с ошибками."
                              ++ [dm_emit (progress_signal 0);
                                  dm_emit (dependencies_installed_signal script_dir false);
                                  console_append
                                    ("❌ Установка зависимостей для '" +:+ script_dir
                                       +:+ "' завершилась с ошибками.")]) s))).
Proof.
  unfold _on_install_finished.
  rewrite (bind_step _ _ _ _ _ (emit_log_output_logged _ s)).
  unfold bind at 1, modify.
  rewrite (bind_step _ _ _ _ _ (emit_progress_eq _ _)).
  unfold emit_dependencies_installed.
  rewrite (bind_step _ _ _ _ _ (record_logged _ _)).
  cbn [_on_dependencies_installed]. unfold _on_dependencies_installed_body.
  rewrite (bind_step _ _ _ _ _ (log_output_logged _ _)).
  destruct s. unfold logged, log_events. cbn. by rewrite <- !app_assoc.
Qed.

(** X10.  A failed installation aborts the pending run.  When the install
    thread does not complete successfully (the pip upgrade or the start of
    the installation raises, a read fails, a stop is requested, or pip
    exits with a non-zero code), delivering the signals of its run to the
    slots [install_dependencies] connected reports the output and the
    percentages, then logs the failure, resets the progress bar to a hidden
    0, empties the package cache and emits [dependencies_installed_signal]
    with failure, on which the window logs the error.  No thread is started:
    the script is not launched and nothing is retried. *)
Theorem failed_installation_aborts_run fuel script_dir session s :
  ¬ completes_successfully session →
  ∃ s1 s',
    deliver_install_all (S fuel) script_dir (InstallThread.run session) s = Some ((), s')
    ∧ only_reported s s1
    ∧ s' = set_progress_bar (0%Z, false)
             (set_cache None
                (logged (log_events "❌ Установка зависимостей завершена с ошибками."
                           ++ [dm_emit (progress_signal 0);
                               dm_emit (dependencies_installed_signal script_dir false);
                               console_append
                                 ("❌ Установка зависимостей для '" +:+ script_dir
                                    +:+ "' завершилась с ошибками.")]) s1))
    ∧ nothing_started s s'.
Proof.
  intros Hfail. destruct (install_run_shape session) as (pre & ok & Hrun & Hpre & Hok).
  destruct ok; [by destruct Hfail; apply Hok|]. rewrite Hrun, deliver_install_all_app.
  destruct (deliver_install_pre (S fuel) script_dir pre s Hpre) as (s1 & Hd & Hr & Hc).
  rewrite Hd. cbn [deliver_install_all deliver_install].
  rewrite (bind_step _ _ _ _ _ (on_install_finished_failure _ _ _)).
  eexists s1, _. split; [done|]. split; [done|]. split; [done|].
  eapply nothing_started_trans; [by apply only_reported_nothing_started|].
  by apply nothing_started_settings.
Qed.

Lemma on_venv_creation_finished_failure fuel script_dir result s :
  _on_venv_creation_finished fuel script_dir false result s
  = Some ((), set_progress_bar (0%Z, false)
                (logged (log_events ("❌ Ошибка создания виртуального окружения: " +:+ result)
                           ++ [dm_emit (progress_signal 0)]) s)).
Proof.
  unfold _on_venv_creation_finished.
  rewrite (bind_step _ _ _ _ _ (emit_log_output_logged _ s)).
  by rewrite emit_progress_eq, logged_logged.
Qed.

(** X11.  A failed creation of the environment starts nothing.  When some
    step of [VenvCreationThread.run] fails or raises, delivering the signals
    of the run to the slots [create_or_get_venv] connected only reports: the
    output and the percentages, then the error with the reason the thread
    gave, and a progress bar reset to a hidden 0.  No
    [venv_created_signal] is emitted, so no installation is started and the
    script is not launched. *)
Theorem failed_creation_starts_nothing fuel script_dir venv_path session s :
  ¬ VenvCreation.creation_succeeds session →
  ∃ s1 result s',
    deliver_venv_all fuel script_dir (VenvCreation.run venv_path session) s = Some ((), s')
    ∧ only_reported s s1
    ∧ s' = set_progress_bar (0%Z, false)
             (logged (log_events ("❌ Ошибка создания виртуального окружения: " +:+ result)
                        ++ [dm_emit (progress_signal 0)]) s1)
    ∧ only_reported s s'
    ∧ _installed_packages_cache s' = _installed_packages_cache s.
Proof.
  intros Hfail.
  destruct (venv_run_shape venv_path session)
    as (pre & ok & result & has30 & has80 & Hrun & Hpre & _ & _ & Hok & _).
  destruct ok; [by destruct Hfail; apply Hok|]. rewrite Hrun, deliver_venv_all_app.
  destruct (deliver_venv_pre fuel script_dir pre s Hpre) as (s1 & Hd & Hr & Hc).
  rewrite Hd. cbn [deliver_venv_all deliver_venv].
  rewrite (bind_step _ _ _ _ _ (on_venv_creation_finished_failure _ _ _ _)).
  eexists s1, result, _. split; [done|]. split; [done|]. split; [done|].
  split; [|done].
  eapply only_reported_trans; [exact Hr|].
  eapply only_reported_trans; [|apply only_reported_progress_bar].
  by apply only_reported_logged.
Qed.

Lemma on_venv_creation_finished_install fuel script_dir result s :
  os_path_exists (fs s) (Py.path_join script_dir "requirements.txt") = true →
  install_is_running s = false →
  _on_venv_creation_finished fuel script_dir true result s
  = let t := {| InstallThread.python_exec := result;
                InstallThread.requirements_path := Py.path_join script_dir "requirements.txt";
                InstallThread.isRunning := true |} in
    Some ((), set_progress_bar (0%Z, false)
                (logged [thread_start (install t); dm_emit (progress_signal 0)]
                   (set_install_thread (Some t)
                      (logged
                         (log_events "✅ Виртуальное окружение успешно создано!"
                            ++ [dm_emit (venv_created_signal script_dir result);
                                console_append
                                  ("✅ Виртуальное окружение готово для "
                                     +:+ os_path_basename script_dir +:+ ".")]
                            ++ log_events ("📦 Запускаю установку зависимостей для "
                                             +:+ os_path_basename script_dir +:+ "...")) s)))).
Proof.
  intros Hex Hidle. unfold _on_venv_creation_finished.
  erewrite bind_step.
  2: { rewrite (bind_step _ _ _ _ _ (emit_log_output_logged _ s)).
       rewrite (bind_step _ _ _ _ _ (record_logged _ _)).
       unfold _on_venv_created.
       rewrite (bind_step _ _ _ _ _ (log_output_logged _ _)).
       by apply install_dependencies_start. }
  rewrite emit_progress_eq. cbv zeta.
  destruct s. unfold logged, log_events. cbn. by rewrite <- !app_assoc.
Qed.

(** X12.  A created environment gets its dependencies installed, with its own
    interpreter.  When every step of [VenvCreationThread.run] succeeds for
    the environment of a script that has a manifest, and no installation is
    running, delivering the signals of the run emits [venv_created_signal]
    with the interpreter path [create_or_get_venv] looks for, and starts
    exactly one install thread, on that interpreter and the manifest of the
    script.  No worker and no further creation is started. *)
Theorem created_environment_gets_dependencies fuel script_dir session s :
  VenvCreation.creation_succeeds session →
  os_path_exists (fs s) (Py.path_join script_dir "requirements.txt") = true →
  install_is_running s = false →
  ∃ s',
    deliver_venv_all fuel script_dir
      (VenvCreation.run (Py.path_join script_dir ".venv") session) s = Some ((), s')
    ∧ _install_thread s'
      = Some {| InstallThread.python_exec := venv_python_exec script_dir;
                InstallThread.requirements_path :=
                  Py.path_join script_dir "requirements.txt";
                InstallThread.isRunning := true |}
    ∧ install_starts s' = S (install_starts s)
    ∧ worker_starts s' = worker_starts s
    ∧ venv_starts s' = venv_starts s
    ∧ dm_emit (venv_created_signal script_dir (venv_python_exec script_dir)) ∈ trace s'
    ∧ progress_bar s' = (0%Z, false).
Proof.
  intros Hsucc Hex Hidle.
  destruct (venv_run_shape (Py.path_join script_dir ".venv") session)
    as (pre & ok & result & has30 & has80 & Hrun & Hpre & _ & _ & Hok & Hres).
  destruct ok; [|by apply Hok in Hsucc]. rewrite (Hres eq_refl) in Hrun. clear Hres Hok.
  rewrite Hrun, deliver_venv_all_app.
  destruct (deliver_venv_pre fuel script_dir pre s Hpre) as (s1 & Hd & Hr & Hc).
  rewrite Hd. cbn [deliver_venv_all deliver_venv].
  pose proof (only_reported_nothing_started _ _ Hr) as (_ & _ & _ & Hw & Hi & Hv).
  destruct Hr as (Hfs & _ & _ & _ & _ & _ & Hit & _ & _).
  erewrite bind_step.
  2: { apply on_venv_creation_finished_install.
       - by rewrite Hfs.
       - unfold install_is_running in *. by rewrite Hit. }
  cbv zeta.
  change (VenvCreation.python_exec (Py.path_join script_dir ".venv"))
    with (venv_python_exec script_dir).
  eexists. split; [reflexivity|]. split; [done|].
  unfold install_starts, worker_starts, venv_starts in *. cbn.
  rewrite !List.filter_app, !length_app. cbn. rewrite Hw, Hi, Hv.
  split; [lia|]. split; [lia|]. split; [lia|]. split; [|done].
  rewrite !elem_of_app, !elem_of_cons. auto 10.
Qed.

(** X13.  The creation of an environment never resumes the run that asked for
    it.  Whatever the creation thread does, delivering the signals of its
    run while the script is selected starts no worker: on failure nothing
    happens, on success the installation is requested, and the completion
    of an installation that had nothing to install is taken for that of
    another script. *)
Theorem created_environment_never_launches fuel script_name venv_path session s :
  Py.startswith "/" script_name = false →
  current_script_name s = Some script_name →
  ∃ s',
    deliver_venv_all (S fuel) (get_script_dir script_name)
      (VenvCreation.run venv_path session) s = Some ((), s')
    ∧ worker_thread s' = worker_thread s
    ∧ running_script_name s' = running_script_name s
    ∧ worker_starts s' = worker_starts s.
Proof.
  intros Hrel Hcur.
  destruct (venv_run_shape venv_path session)
    as (pre & ok & result & has30 & has80 & Hrun & Hpre & _).
  rewrite Hrun, deliver_venv_all_app.
  destruct (deliver_venv_pre (S fuel) (get_script_dir script_name) pre s Hpre)
    as (s1 & Hd & Hr & Hc).
  rewrite Hd. cbn [deliver_venv_all deliver_venv].
  pose proof (only_reported_nothing_started _ _ Hr) as (_ & _ & _ & Hw & _ & _).
  destruct Hr as (Hfs & _ & _ & Hcur1 & Hrn & Hwt & Hit & _ & _).
  rewrite <- Hwt, <- Hrn, <- Hw. rewrite <- Hcur1 in Hcur. clear Hwt Hrn Hw Hd Hrun.
  destruct ok.
  2: { rewrite (bind_step _ _ _ _ _ (on_venv_creation_finished_failure _ _ _ _)).
       eexists. split; [done|]. split; [done|]. split; [done|].
       unfold worker_starts. cbn. rewrite List.filter_app, length_app. cbn. lia. }
  destruct (os_path_exists (fs s1) (Py.path_join (get_script_dir script_name)
                                      "requirements.txt")) eqn:Hex.
  - destruct (install_is_running s1) eqn:Hidle.
    + unfold _on_venv_creation_finished.
      erewrite bind_step.
      2: { erewrite bind_step.
           2: { rewrite (bind_step _ _ _ _ _ (emit_log_output_logged _ s1)).
                rewrite (bind_step _ _ _ _ _ (record_logged _ _)).
                unfold _on_venv_created.
                rewrite (bind_step _ _ _ _ _ (log_output_logged _ _)).
                by apply install_dependencies_busy. }
           apply emit_progress_eq. }
      eexists. split; [done|]. split; [done|]. split; [done|].
      unfold worker_starts. cbn. rewrite !List.filter_app, !length_app. cbn. lia.
    + rewrite (bind_step _ _ _ _ _ (on_venv_creation_finished_install _ _ _ _ Hex Hidle)).
      eexists. split; [done|]. split; [done|]. split; [done|].
      unfold worker_starts. cbn. rewrite !List.filter_app, !length_app. cbn. lia.
  - unfold _on_venv_creation_finished.
    erewrite bind_step.
    2: { erewrite bind_step.
         2: { rewrite (bind_step _ _ _ _ _ (emit_log_output_logged _ s1)).
              rewrite (bind_step _ _ _ _ _ (record_logged _ _)).
              unfold _on_venv_created.
              rewrite (bind_step _ _ _ _ _ (log_output_logged _ _)).
              apply install_dependencies_no_manifest; [done|].
              cbn. rewrite Hcur. intros [= Heq]. symmetry in Heq.
              by apply get_script_dir_differs in Heq. }
         apply emit_progress_eq. }
    eexists. split; [done|]. split; [done|]. split; [done|].
    unfold worker_starts. cbn. rewrite !List.filter_app, !length_app. cbn. lia.
Qed.

End deliveries.

Section launch.
Context `{Packaging}.

Lemma get_script_path_eq script_name s :
  get_script_path script_name s
  = Some (if os_path_exists (fs s) (Py.path_join (get_script_dir script_name) "script.py")
          then Some (Py.path_join (get_script_dir script_name) "script.py") else None, s).
Proof. done. Qed.

Lemma run_script_start script_path script_dir python_exec script_name s :
  worker_is_running s = false →
  run_script script_path script_dir python_exec script_name s
  = let t := WorkerThread.started script_path script_dir python_exec in
    Some ((), set_running_script_name (Some script_name)
                (logged [thread_start (worker t);
                         executor_emit (script_started_signal script_name)]
                   (set_worker_thread (Some t)
                      (logged [executor_emit (output_signal ("▶ Запускаю скрипт: " +:+ script_name));
                               console_append ("▶ Запускаю скрипт: " +:+ script_name)] s)))).
Proof.
  intros Hidle. unfold run_script, bind at 1, gets. rewrite Hidle.
  rewrite (bind_step _ _ _ _ _ (emit_output_logged _ s)).
  destruct s. unfold logged. cbn. by rewrite <- !app_assoc.
Qed.

Lemma questions_log_events logs : List.filter is_question (logs ≫= log_events) = [].
Proof. induction logs as [|l logs IH]; [done|]. exact IH. Qed.

Lemma get_script_dir_nonempty script_name : get_script_dir script_name ≠ "".
Proof.
  unfold get_script_dir, Py.path_join.
  destruct (Py.startswith "/" script_name) eqn:Hs; [by intros ->|done].
Qed.

(** X14.  A ready script is launched at once.  When [script.py] and the
    interpreter of the environment exist, the dependency check passes and no
    worker is running, [_prepare_and_run_script] starts exactly one worker,
    on the absolute path of the script file, in the absolute path of the
    script directory, with the interpreter of the environment as
    [create_or_get_venv] gave it, and records the script as running.  It
    asks no question and starts no installation and no creation of an
    environment. *)
Theorem prepare_and_run_launches slot script_name s :
  os_path_exists (fs s) (Py.path_join (get_script_dir script_name) "script.py") = true →
  os_path_exists (fs s) (venv_python_exec (get_script_dir script_name)) = true →
  (check_dependencies (fs s) (dists s) (_installed_packages_cache s)
     (get_script_dir script_name)).1.1 = true →
  worker_is_running s = false →
  ∃ s', _prepare_and_run_script slot script_name s = Some ((), s')
    ∧ worker_thread s'
      = Some {| WorkerThread.script_path :=
                  os_path_abspath (Py.path_join (get_script_dir script_name) "script.py");
                WorkerThread.cwd := Some (os_path_abspath (get_script_dir script_name));
                WorkerThread.python_exec := venv_python_exec (get_script_dir script_name);
                WorkerThread.isRunning := true |}
    ∧ running_script_name s' = Some script_name
    ∧ worker_starts s' = S (worker_starts s)
    ∧ install_starts s' = install_starts s
    ∧ venv_starts s' = venv_starts s
    ∧ questions s' = questions s
    ∧ replies s' = replies s.
Proof.
  intros Hscript Hvenv Hcheck Hidle. unfold _prepare_and_run_script.
  rewrite (bind_step _ _ _ _ _ (get_script_path_eq _ _)), Hscript.
  rewrite (bind_step _ _ _ _ _ (create_or_get_venv_found _ _ Hvenv)).
  unfold _check_and_install_dependencies_then_run.
  rewrite (bind_step _ _ _ _ _ (check_dependencies_method_eq _ _)). cbv zeta.
  cbn [fs dists _installed_packages_cache logged set_trace].
  rewrite Hcheck.
  rewrite run_script_start by done. cbv zeta. eexists. split; [done|].
  split.
  { cbn. unfold WorkerThread.started.
    by rewrite (bool_decide_eq_false_2 _ (get_script_dir_nonempty script_name)). }
  split; [done|].
  unfold worker_starts, install_starts, venv_starts, questions. cbn.
  rewrite !List.filter_app, !length_app. cbn.
  set (logs := (check_dependencies _ _ _ _).2).
  assert (Hlogs : ∀ f, (∀ e, f e = true → starts_nothing e = false) →
                       List.filter f (logs ≫= log_events) = []).
  { intros f Hf. apply filter_starts_nothing; [done|].
    induction logs as [|l logs IH]; [done|]. done. }
  rewrite !Hlogs by (by intros [| | |[]|]).
  rewrite questions_log_events. cbn.
  split; [lia|]. split; [lia|]. split; [lia|]. split; [lia|done].
Qed.

Lemma log_events_reports logs : forallb is_report (logs ≫= log_events) = true.
Proof. induction logs as [|l logs IH]; [done|]. exact IH. Qed.

Lemma check_dependencies_method_reported script_dir s :
  ∃ s1, check_dependencies_method script_dir s
        = Some ((check_dependencies (fs s) (dists s) (_installed_packages_cache s)
                   script_dir).1.1, s1)
        ∧ only_reported s s1.
Proof.
  rewrite check_dependencies_method_eq. cbv zeta. eexists. split; [done|].
  eapply only_reported_trans; [apply only_reported_cache|].
  apply only_reported_logged, log_events_reports.
Qed.

Lemma create_or_get_venv_found_reported script_dir s :
  os_path_exists (fs s) (venv_python_exec script_dir) = true →
  ∃ s1, create_or_get_venv script_dir s = Some (Some (venv_python_exec script_dir), s1)
        ∧ only_reported s s1
        ∧ _installed_packages_cache s1 = _installed_packages_cache s.
Proof.
  intros Hvenv. rewrite (create_or_get_venv_found _ _ Hvenv). eexists. split; [done|].
  split; [by apply only_reported_logged|done].
Qed.

(** X15.  Unmet dependencies are installed only with the user's consent.  When
    [script.py] and the interpreter exist and the dependency check fails,
    [_prepare_and_run_script] asks exactly one question and starts no
    worker.  If the answer is not Yes, nothing is started and the
    cancellation is logged.  If the answer is Yes and no installation is
    running, exactly one install thread is started, on the interpreter of
    the environment and the manifest of the script; if one is running,
    nothing is started. *)
Theorem prepare_and_run_asks_before_installing slot script_name s :
  os_path_exists (fs s) (Py.path_join (get_script_dir script_name) "script.py") = true →
  os_path_exists (fs s) (venv_python_exec (get_script_dir script_name)) = true →
  (check_dependencies (fs s) (dists s) (_installed_packages_cache s)
     (get_script_dir script_name)).1.1 = false →
  ∃ s', _prepare_and_run_script slot script_name s = Some ((), s')
    ∧ replies s' = tail (replies s)
    ∧ questions s' = S (questions s)
    ∧ worker_thread s' = worker_thread s
    ∧ worker_starts s' = worker_starts s
    ∧ venv_starts s' = venv_starts s
    ∧ (default false (head (replies s)) = false →
       nothing_started s s'
       ∧ last (trace s') = Some (console_append "Запуск скрипта отменен пользователем."))
    ∧ (default false (head (replies s)) = true →
       if install_is_running s then nothing_started s s'
       else _install_thread s'
            = Some {| InstallThread.python_exec :=
                        venv_python_exec (get_script_dir script_name);
                      InstallThread.requirements_path :=
                        Py.path_join (get_script_dir script_name) "requirements.txt";
                      InstallThread.isRunning := true |}
            ∧ install_starts s' = S (install_starts s)).
Proof.
  intros Hscript Hvenv Hcheck. unfold _prepare_and_run_script.
  rewrite (bind_step _ _ _ _ _ (get_script_path_eq _ _)), Hscript.
  destruct (create_or_get_venv_found_reported _ _ Hvenv) as (s0 & Hc & Hr0 & Hc0).
  rewrite (bind_step _ _ _ _ _ Hc).
  unfold _check_and_install_dependencies_then_run.
  destruct (check_dependencies_method_reported (get_script_dir script_name) s0)
    as (s1 & Hm & Hr1).
  rewrite (bind_step _ _ _ _ _ Hm).
  assert (Hfs0 : fs s0 = fs s) by apply Hr0.
  assert (Hd0 : dists s0 = dists s) by apply Hr0.
  rewrite Hfs0, Hd0, Hc0, Hcheck.
  apply check_dependencies_false_exists in Hcheck.
  pose proof (only_reported_trans _ _ _ Hr0 Hr1) as Hr. clear Hr0 Hr1 Hc Hm Hfs0 Hd0 Hc0 s0.
  pose proof (only_reported_nothing_started _ _ Hr) as (_ & _ & _ & Hw & Hi & Hv).
  destruct Hr as (Hfs & _ & Hrep & _ & _ & Hwt & Hit & Hvt & ev & Htr & Hev).
  assert (Hsw : List.filter is_worker_start ev = []).
  { apply filter_starts_nothing; [by intros [| | |[]|]|by apply is_report_starts_nothing]. }
  assert (Hsi : List.filter is_install_start ev = []).
  { apply filter_starts_nothing; [by intros [| | |[]|]|by apply is_report_starts_nothing]. }
  assert (Hsv : List.filter is_venv_start ev = []).
  { apply filter_starts_nothing; [by intros [| | |[]|]|by apply is_report_starts_nothing]. }
  clear Hw Hi Hv.
  assert (Hq : List.filter is_question ev = []).
  { clear -Hev. induction ev as [|e ev IH]; [done|]. cbn in Hev.
    apply andb_prop in Hev as [He Hev]. cbn. destruct e as [[]|[]| | |]; try done; by apply IH. }
  rewrite (bind_step _ _ _ _ _ (ask_eq _ _)). rewrite Hrep.
  destruct (default false (head (replies s))) eqn:Hreply.
  - rewrite (bind_step _ _ _ _ _ (log_output_logged _ _)).
    destruct (install_is_running s) eqn:Hidle.
    + rewrite install_dependencies_busy.
      2: { cbn. by rewrite Hfs. }
      2: { unfold install_is_running in *. cbn. by rewrite Hit. }
      eexists. split; [done|]. cbn.
      unfold nothing_started, questions, worker_starts, install_starts, venv_starts in *. cbn.
      rewrite Htr, !List.filter_app, !length_app, Hq, ?Hsw, ?Hsi, ?Hsv. cbn.
      repeat split; try done; lia.
    + rewrite install_dependencies_start.
      2: { cbn. by rewrite Hfs. }
      2: { unfold install_is_running in *. cbn. by rewrite Hit. }
      cbv zeta. eexists. split; [done|]. cbn.
      unfold questions, worker_starts, install_starts, venv_starts in *. cbn.
      rewrite Htr, !List.filter_app, !length_app, Hq, ?Hsw, ?Hsi, ?Hsv. cbn.
      repeat split; try done; lia.
  - rewrite log_output_logged. eexists. split; [done|]. cbn.
    unfold nothing_started, questions, worker_starts, install_starts, venv_starts in *. cbn.
    rewrite Htr, !List.filter_app, !length_app, Hq, ?Hsw, ?Hsi, ?Hsv. cbn.
    repeat split; try done; try lia.
    apply last_snoc.
Qed.

Lemma create_or_get_venv_started script_dir s :
  os_path_exists (fs s) (venv_python_exec script_dir) = false →
  venv_is_running s = false →
  create_or_get_venv script_dir s
  = let t := {| VenvCreationThread.venv_path := Py.path_join script_dir ".venv";
                VenvCreationThread.python_path := sys_executable;
                VenvCreationThread.isRunning := true |} in
    Some (None, logged [thread_start (venv_creation t)]
                  (set_venv_thread (Some t)
                     (logged (log_events "⚙️ Создаю виртуальное окружение...") s))).
Proof.
  intros Hex Hrun. unfold create_or_get_venv, bind, gets. rewrite Hex, Hrun.
  by rewrite emit_log_output_logged.
Qed.

(** X16.  A script whose environment does not exist is not launched.  When
    [script.py] exists and the interpreter of the environment does not,
    [_prepare_and_run_script] starts no worker and no installation, asks
    nothing and does not check the dependencies.  It starts the creation of
    the environment, in [.venv] under the script directory and with the
    interpreter of the application, unless a creation is running, and then
    logs that it waits. *)
Theorem prepare_and_run_waits_for_environment slot script_name s :
  os_path_exists (fs s) (Py.path_join (get_script_dir script_name) "script.py") = true →
  os_path_exists (fs s) (venv_python_exec (get_script_dir script_name)) = false →
  ∃ s', _prepare_and_run_script slot script_name s = Some ((), s')
    ∧ worker_thread s' = worker_thread s
    ∧ worker_starts s' = worker_starts s
    ∧ install_starts s' = install_starts s
    ∧ replies s' = replies s
    ∧ _installed_packages_cache s' = _installed_packages_cache s
    ∧ (if venv_is_running s then venv_starts s' = venv_starts s
       else _venv_thread s'
            = Some {| VenvCreationThread.venv_path :=
                        Py.path_join (get_script_dir script_name) ".venv";
                      VenvCreationThread.python_path := sys_executable;
                      VenvCreationThread.isRunning := true |}
            ∧ venv_starts s' = S (venv_starts s))
    ∧ last (trace s')
      = Some (console_append "Ожидаю создания виртуального окружения для запуска скрипта...").
Proof.
  intros Hscript Hvenv. unfold _prepare_and_run_script.
  rewrite (bind_step _ _ _ _ _ (get_script_path_eq _ _)), Hscript.
  destruct (venv_is_running s) eqn:Hrun.
  - rewrite (bind_step _ _ _ _ _ (create_or_get_venv_in_flight _ _ Hvenv Hrun)).
    rewrite log_output_logged. eexists. split; [done|].
    unfold worker_starts, install_starts, venv_starts. cbn.
    rewrite !List.filter_app, !length_app. cbn.
    repeat split; try done; try lia; rewrite ?app_assoc; apply last_snoc.
  - rewrite (bind_step _ _ _ _ _ (create_or_get_venv_started _ _ Hvenv Hrun)). cbv zeta.
    rewrite log_output_logged. eexists. split; [done|].
    unfold worker_starts, install_starts, venv_starts. cbn.
    rewrite !List.filter_app, !length_app. cbn.
    repeat split; try done; try lia; rewrite ?app_assoc; apply last_snoc.
Qed.


(** *** Stopping *)

(** X18.  [stop_script] changes nothing but the log: the executor keeps its
    worker thread, which is released only when the thread's
    [finished_signal] arrives.  With no running worker it only reports that
    there is nothing to stop, and no operation is performed on any process.
    With a running worker it announces the stop, and [WorkerThread.stop]
    terminates the process first, kills it only if it is still alive after
    the grace period of 100 ms, and waits for it last. *)
Theorem stop_script_keeps_session has_process exited_at_once exited_in_grace s :
  ∃ ops text,
    stop_script has_process exited_at_once exited_in_grace s
    = Some (ops, logged [executor_emit (output_signal text); console_append text] s)
    ∧ (worker_is_running s = false →
       ops = None ∧ text = "ℹ️ Нет запущенных скриптов для остановки.")
    ∧ (worker_is_running s = true →
       text = "⏹ Останавливаю скрипт..."
       ∧ ops = Some (WorkerThread.stop has_process exited_at_once exited_in_grace)
       ∧ (has_process = true →
          ∃ middle, WorkerThread.stop has_process exited_at_once exited_in_grace
                    = [WorkerThread.terminate] ++ middle ++ [WorkerThread.wait]
                    ∧ (WorkerThread.kill ∈ middle
                       ↔ exited_at_once = false ∧ exited_in_grace = false))).
Proof.
  unfold stop_script, bind at 1, gets. destruct (worker_is_running s) eqn:Hrun.
  - rewrite (bind_step _ _ _ _ _ (emit_output_logged _ s)).
    eexists _, _. split; [done|]. split; [done|]. intros _.
    split; [done|]. split; [done|].
    intros ->. cbn [WorkerThread.stop]. eexists. split; [reflexivity|].
    destruct exited_at_once, exited_in_grace; cbn;
      rewrite ?elem_of_cons, ?elem_of_nil; intuition congruence.
  - rewrite (bind_step _ _ _ _ _ (emit_output_logged _ s)).
    eexists _, _. split; [done|]. split; [done|]. done.
Qed.

End launch.

(** ** Package index *)

Lemma build_index_snoc dists d :
  build_index (dists ++ [d]) = index_step (build_index dists) d.
Proof. unfold build_index. by rewrite foldl_app. Qed.

(** X19.  The package index maps each lower-cased distribution name to the
    version of the last distribution with that name, in the order
    [distributions()] yields them, and holds no other key.  Building it
    raises exactly when some distribution has no [Name] in its metadata. *)
Theorem build_index_last_wins (dists : list Distribution) :
  match build_index dists with
  | Ret m =>
      Forall (λ d, is_Some (metadata_Name d)) dists
      ∧ ∀ k, m !! k
             = dist_version
                 <$> last (filter (λ d, Py.lower <$> metadata_Name d = Some k) dists)
  | Raise e =>
      e = "'NoneType' object has no attribute 'lower'"
      ∧ Exists (λ d, metadata_Name d = None) dists
  end.
Proof.
  induction dists as [|d dists IH] using rev_ind.
  { cbn. split; [constructor|]. intros k. by rewrite lookup_empty. }
  rewrite build_index_snoc. destruct (build_index dists) as [m|e]; cbn [index_step exc_bind].
  - destruct IH as [Hall Hm]. destruct (metadata_Name d) as [n|] eqn:Hn.
    + split.
      * apply Forall_app. split; [done|]. repeat constructor. by rewrite Hn.
      * intros k. rewrite filter_app, filter_cons, filter_nil.
        case_decide as Hk.
        -- rewrite Hn in Hk. cbn in Hk. injection Hk as <-.
           by rewrite last_snoc, lookup_insert_eq.
        -- rewrite app_nil_r, lookup_insert_ne; [apply Hm|].
           intros <-. apply Hk. by rewrite Hn.
    + split; [done|]. apply Exists_app. right. by constructor.
  - destruct IH as [-> Hex]. split; [done|]. apply Exists_app. by left.
Qed.

(** X20.  The snapshot of installed packages is built once and then kept.  A
    first successful [get_installed_packages] fills the cache, and a later
    call returns that snapshot whatever is installed by then; only
    [clear_packages_cache] makes the next call look again.  A failed build
    leaves the cache empty. *)
Theorem installed_packages_snapshot_is_kept (dists dists' : list Distribution) :
  match get_installed_packages dists None with
  | (Ret m, cache) =>
      cache = Some m
      ∧ get_installed_packages dists' cache = (Ret m, cache)
      ∧ get_installed_packages dists' (clear_packages_cache cache)
        = (match build_index dists' with
           | Ret m' => (Ret m', Some m')
           | Raise e => (Raise e, None)
           end)
  | (Raise e, cache) => cache = None
  end.
Proof.
  unfold get_installed_packages, clear_packages_cache.
  by destruct (build_index dists).
Qed.

(** ** The manifest written by [create_requirements_file] *)

Lemma kept_line_app_nl s : kept_line (s +:+ nl) = kept_line s.
Proof. unfold kept_line. by rewrite strip_app_nl. Qed.

Lemma string_app_assoc (a b c : string) : (a +:+ b) +:+ c = a +:+ (b +:+ c).
Proof.
  induction a as [|x a IH]; [done|].
  change (String x (a +:+ b) +:+ c = String x (a +:+ (b +:+ c))).
  change (String x ((a +:+ b) +:+ c) = String x (a +:+ (b +:+ c))). by rewrite IH.
Qed.

Lemma string_rev_cons c s : String.rev (String c s) = String.rev s +:+ String c "".
Proof.
  unfold String.rev. cbn [String.rev_app]. generalize (String c "").
  induction s as [|a s IH]; intros t; [done|]. cbn [String.rev_app].
  rewrite (IH (String a t)), (IH (String a "")). by rewrite string_app_assoc.
Qed.

Lemma readlines_go_line cur x rest :
  has_char Py.LF x = false →
  Py.readlines_go cur (x +:+ String Py.LF rest)
  = (String.rev cur +:+ x +:+ nl) :: Py.readlines_go "" rest.
Proof.
  revert cur. induction x as [|c x IH]; intros cur Hx.
  - change ("" +:+ String Py.LF rest) with (String Py.LF rest).
    cbn [Py.readlines_go]. rewrite Ascii.eqb_refl. by rewrite string_rev_cons.
  - cbn [has_char] in Hx. apply orb_false_elim in Hx as [Hc Hx].
    change (String c x +:+ String Py.LF rest) with (String c (x +:+ String Py.LF rest)).
    cbn [Py.readlines_go]. rewrite Ascii.eqb_sym, Hc, IH by done.
    rewrite string_rev_cons, string_app_assoc. done.
Qed.

Lemma string_app_nil_r s : s +:+ "" = s.
Proof.
  induction s as [|c s IH]; [done|].
  change (String c (s +:+ "") = String c s). by rewrite IH.
Qed.

Lemma concat_empty_cons a (l : list string) :
  String.concat "" (a :: l) = a +:+ String.concat "" l.
Proof. destruct l; [symmetry; apply string_app_nil_r|done]. Qed.

(** The lines of a text made of the given lines, each followed by a line
    feed. *)
Lemma readlines_lines (lines : list string) :
  Forall (λ x, has_char Py.LF x = false) lines →
  Py.readlines (String.concat "" ((λ x, x +:+ nl) <$> lines)) = (λ x, x +:+ nl) <$> lines.
Proof.
  unfold Py.readlines. induction 1 as [|x lines Hx _ IH]; [done|].
  rewrite fmap_cons, concat_empty_cons. unfold nl at 1. rewrite string_app_assoc.
  change (String Py.LF "" +:+ ?r) with (String Py.LF r).
  rewrite readlines_go_line by done. by rewrite IH.
Qed.

Lemma requirements_text_lines x (lines : list string) :
  requirements_text (x :: lines) = String.concat "" ((λ x, x +:+ nl) <$> (x :: lines)).
Proof.
  unfold requirements_text, Py.join. revert x.
  induction lines as [|y lines IH]; intros x.
  - rewrite fmap_cons, concat_empty_cons. cbn [String.concat fmap list_fmap].
    by rewrite string_app_nil_r.
  - change (String.concat nl (x :: y :: lines)) with (x +:+ nl +:+ String.concat nl (y :: lines)).
    rewrite !string_app_assoc, IH. by rewrite (fmap_cons _ x), concat_empty_cons, string_app_assoc.
Qed.

Lemma requirement_lines_text (imports : list string) :
  Forall (λ x, has_char Py.LF x = false) imports →
  requirement_lines (requirements_text imports)
  = Py.strip <$> filter (λ line, kept_line line = true) imports.
Proof.
  intros Himports. unfold requirement_lines. destruct imports as [|x imports]; [done|].
  rewrite requirements_text_lines, readlines_lines by done.
  generalize (x :: imports). clear. intros l.
  induction l as [|y l IH]; [done|].
  rewrite fmap_cons, !filter_cons, kept_line_app_nl.
  case_decide; [|exact IH]. rewrite !fmap_cons, strip_app_nl. by rewrite IH.
Qed.

Section manifest.
Context `{Packaging}.

Lemma created_manifest_checked
    (fs : gmap string FileNode) script_dir (imports : list string) dists installed :
  Forall (λ x, has_char Py.LF x = false) imports →
  ∃ fs',
    create_requirements_file (Ret ()) fs script_dir imports
    = (Ret fs', ["✅ Создан requirements.txt для " +:+ os_path_basename script_dir])
    ∧ open_read fs' (Py.path_join script_dir "requirements.txt")
      = Ret (requirements_text imports)
    ∧ requirement_lines (requirements_text imports)
      = Py.strip <$> filter (λ line, kept_line line = true) imports
    ∧ check_dependencies fs' dists (Some installed) script_dir
      = (let r := check_requirements installed
                    (Py.strip <$> filter (λ line, kept_line line = true) imports) in
         (r.1, Some installed, r.2)).
Proof.
  intros Himports.
  pose proof (requirement_lines_text imports Himports) as Hlines.
  unfold create_requirements_file. eexists. split; [done|].
  assert (Hread : open_read (<[Py.path_join script_dir "requirements.txt"
                               := File (requirements_text imports)]> fs)
                    (Py.path_join script_dir "requirements.txt")
                  = Ret (requirements_text imports)).
  { unfold open_read. by rewrite lookup_insert_eq. }
  split; [exact Hread|]. split; [exact Hlines|].
  unfold check_dependencies, os_path_exists.
  rewrite bool_decide_eq_true_2 by (rewrite lookup_insert_eq; eauto).
  cbn [negb get_installed_packages]. rewrite Hread, Hlines.
  by destruct (check_requirements _ _).
Qed.

(** X21.  The manifest [create_requirements_file] writes is read back by the
    dependency check as the names it was given.  For names that hold no line
    terminator, the file holds one name per line; [check_dependencies] on
    the resulting file system, with a snapshot in the cache, checks exactly
    the given names with surrounding white space removed, leaving out the
    names that are blank or start with [#], in the given order. *)
Theorem created_manifest_is_read_back
    (fs : gmap string FileNode) script_dir (imports : list string) dists installed :
  Forall one_line imports →
  ∃ fs',
    create_requirements_file (Ret ()) fs script_dir imports
    = (Ret fs', ["✅ Создан requirements.txt для " +:+ os_path_basename script_dir])
    ∧ open_read fs' (Py.path_join script_dir "requirements.txt")
      = Ret (requirements_text imports)
    ∧ requirement_lines (requirements_text imports)
      = Py.strip <$> filter (λ line, kept_line line = true) imports
    ∧ check_dependencies fs' dists (Some installed) script_dir
      = (let r := check_requirements installed
                    (Py.strip <$> filter (λ line, kept_line line = true) imports) in
         (r.1, Some installed, r.2)).
Proof.
  intros Himports. apply created_manifest_checked.
  eapply Forall_impl; [exact Himports|]. by intros x [? _].
Qed.

End manifest.

(** ** Script list *)

Lemma elem_of_List_filter {A} (f : A → bool) (l : list A) x :
  x ∈ List.filter f l ↔ x ∈ l ∧ f x = true.
Proof. rewrite !list_elem_of_In. apply List.filter_In. Qed.

Lemma List_filter_Permutation {A} (f : A → bool) (l l' : list A) :
  l ≡ₚ l' → List.filter f l ≡ₚ List.filter f l'.
Proof.
  induction 1 as [|x l l' _ IH|x y l|l1 l2 l3 _ IH1 _ IH2]; cbn.
  - done.
  - destruct (f x); [by constructor|done].
  - destruct (f x), (f y); try done. apply perm_swap.
  - by etrans.
Qed.

Lemma List_filter_sublist {A} (f : A → bool) (l : list A) : List.filter f l `sublist_of` l.
Proof.
  induction l as [|x l IH]; [constructor|]. cbn.
  destruct (f x); by constructor.
Qed.

Lemma sorted_Permutation (l l' : list string) : l ≡ₚ l' → Py.sorted l = Py.sorted l'.
Proof.
  intros Hp. unfold Py.sorted. apply (Sorted_unique String.le).
  - apply Sorted_merge_sort. apply _.
  - apply Sorted_merge_sort. apply _.
  - by rewrite !merge_sort_Permutation.
Qed.

(** X22.  The script list shows the pinned scripts first, in the saved order,
    and then the other scripts in alphabetical order.  A folder is listed
    exactly when it is a directory holding a [script.py] and it is either
    not pinned or named in the saved order: a pinned script that the saved
    order does not name is not listed at all. *)
Theorem get_all_scripts_pinned_first
    cwd (fs : gmap string FileNode) listing saved_order (pinned : gset string) result fs' :
  get_all_scripts cwd fs listing saved_order pinned = Ret (result, fs') →
  (∀ x, x ∈ result
        ↔ (x ∈ listing ∧ is_script_folder fs' (Py.path_join cwd "scripts") x = true)
          ∧ (x ∈ pinned → x ∈ saved_order))
  ∧ ∃ pinned_part others,
      result = pinned_part ++ others
      ∧ Forall (λ x, x ∈ pinned) pinned_part
      ∧ pinned_part `sublist_of` saved_order
      ∧ Forall (λ x, x ∉ pinned) others
      ∧ StronglySorted String.le others.
Proof.
  unfold get_all_scripts. destruct (os_makedirs fs _) as [fs1|e]; [|done].
  cbn [exc_bind]. intros [= <- <-]. unfold order_scripts.
  set (all := List.filter (is_script_folder fs1 (Py.path_join cwd "scripts")) listing).
  assert (Hall : ∀ x, x ∈ all ↔ x ∈ listing
                           ∧ is_script_folder fs1 (Py.path_join cwd "scripts") x = true).
  { intros x. apply elem_of_List_filter. }
  split.
  - intros x. rewrite elem_of_app, elem_of_List_filter. unfold Py.sorted.
    rewrite merge_sort_Permutation, elem_of_List_filter, <- Hall.
    rewrite andb_true_iff, negb_true_iff, !bool_decide_eq_true, bool_decide_eq_false.
    destruct (decide (x ∈ pinned)); tauto.
  - eexists _, _. split; [reflexivity|]. split; [|split; [|split]].
    + apply Forall_forall. intros x [_ Hx]%elem_of_List_filter.
      apply andb_true_iff in Hx as [Hx _]. by apply bool_decide_eq_true in Hx.
    + apply List_filter_sublist.
    + apply Forall_forall. intros x. unfold Py.sorted.
      rewrite merge_sort_Permutation. intros [_ Hx]%elem_of_List_filter.
      by apply negb_true_iff, bool_decide_eq_false in Hx.
    + apply StronglySorted_merge_sort; apply _.
Qed.

(** X23.  The script list does not depend on the order in which the operating
    system lists the [scripts] directory. *)
Theorem get_all_scripts_listing_order
    cwd (fs : gmap string FileNode) listing listing' saved_order (pinned : gset string) :
  listing ≡ₚ listing' →
  get_all_scripts cwd fs listing saved_order pinned
  = get_all_scripts cwd fs listing' saved_order pinned.
Proof.
  intros Hp. unfold get_all_scripts. destruct (os_makedirs fs _) as [fs1|e]; [|done].
  cbn [exc_bind]. do 2 f_equal. unfold order_scripts.
  pose proof (List_filter_Permutation
                (is_script_folder fs1 (Py.path_join cwd "scripts")) _ _ Hp) as Hall.
  f_equal.
  - apply List.filter_ext. intros x. f_equal. apply bool_decide_ext. by rewrite Hall.
  - apply sorted_Permutation. by apply List_filter_Permutation.
Qed.

Lemma string_app_inj_l (a x y : string) : a +:+ x = a +:+ y → x = y.
Proof.
  induction a as [|c a IH]; [done|].
  change (String c (a +:+ x) = String c (a +:+ y) → x = y). intros [= Heq]. by apply IH.
Qed.

(** X24.  Toggling the pin of a script twice restores the set of pinned
    scripts, whether or not the file could be saved: the first toggle flips
    the membership of that script and of no other, and the two toggles log
    the two different notices. *)
Theorem toggle_pin_script_twice saved saved' (pinned : gset string) script_name :
  let once := toggle_pin_script saved pinned script_name in
  let twice := toggle_pin_script saved' once.1 script_name in
  twice.1 = pinned
  ∧ (script_name ∈ once.1 ↔ script_name ∉ pinned)
  ∧ (∀ x, x ≠ script_name → (x ∈ once.1 ↔ x ∈ pinned))
  ∧ head once.2 ≠ head twice.2.
Proof.
  cbv zeta. unfold toggle_pin_script.
  destruct (decide (script_name ∈ pinned)) as [Hin|Hin].
  - rewrite (bool_decide_eq_true_2 (script_name ∈ pinned)) by done. cbn [fst snd].
    rewrite bool_decide_eq_false_2 by set_solver. cbn [fst snd head].
    split; [|split; [|split]].
    + apply set_eq. intros x. destruct (decide (x = script_name)); set_solver.
    + set_solver.
    + set_solver.
    + intros [= Heq]. by do 2 apply string_app_inj_l in Heq.
  - rewrite (bool_decide_eq_false_2 (script_name ∈ pinned)) by done. cbn [fst snd].
    rewrite bool_decide_eq_true_2 by set_solver. cbn [fst snd head].
    split; [|split; [|split]].
    + set_solver.
    + set_solver.
    + set_solver.
    + intros [= Heq]. by do 2 apply string_app_inj_l in Heq.
Qed.

(** ** From the analyzer to the manifest *)

Lemma has_char_split_go c sep skip cur s m :
  m ∈ Py.split_go sep skip cur s → has_char c m = true →
  has_char c cur = true ∨ has_char c s = true.
Proof.
  revert skip cur. induction s as [|x s IH]; intros skip cur.
  - cbn [Py.split_go]. intros ->%list_elem_of_singleton. rewrite has_char_rev. auto.
  - cbn [Py.split_go has_char]. destruct skip as [|k].
    + destruct (String.prefix sep (String x s)).
      * intros [ -> |Hm]%elem_of_cons Hc.
        -- rewrite has_char_rev in Hc. auto.
        -- destruct (IH _ _ Hm Hc) as [?| ->]; [done|]. right. apply orb_true_r.
      * intros Hm Hc. destruct (IH _ _ Hm Hc) as [Hcur| ->].
        -- cbn [has_char] in Hcur. apply orb_prop in Hcur as [ -> |?]; auto.
        -- right. apply orb_true_r.
    + intros Hm Hc. destruct (IH _ _ Hm Hc) as [?| ->]; [auto|]. right. apply orb_true_r.
Qed.

Lemma has_char_split c sep s m :
  m ∈ Py.split sep s → has_char c m = true → has_char c s = true.
Proof. intros Hm Hc. by destruct (has_char_split_go _ _ _ _ _ _ Hm Hc). Qed.

(** The pieces of [s.split('\n')] hold no line feed. *)
Lemma split_go_nl_no_LF skip cur s m :
  m ∈ Py.split_go nl skip cur s → has_char Py.LF cur = false → has_char Py.LF m = false.
Proof.
  revert skip cur. induction s as [|x s IH]; intros skip cur.
  - cbn [Py.split_go]. intros ->%list_elem_of_singleton. by rewrite has_char_rev.
  - cbn [Py.split_go]. destruct skip as [|k]; [|apply IH].
    destruct (String.prefix nl (String x s)) eqn:Hp.
    + intros [ -> |Hm]%elem_of_cons Hcur; [by rewrite has_char_rev|]. by eapply IH.
    + intros Hm Hcur. eapply IH; [exact Hm|]. cbn [has_char]. rewrite Hcur, orb_false_r.
      apply Ascii.eqb_neq. intros <-. cbn in Hp. by destruct s.
Qed.

(** Every character of a name the analyzer finds on a line is a character
    of the line. *)
Lemma line_imports_chars c line x :
  x ∈ line_imports line → has_char c x = true → has_char c line = true.
Proof.
  unfold line_imports, analyze_line.
  destruct (Py.startswith "import " line).
  - rewrite union_empty_l_L, elem_of_list_to_set, list_elem_of_filter.
    intros [_ Hx]. unfold import_modules in Hx.
    apply list_elem_of_fmap in Hx as (m & -> & Hm).
    rewrite !item0_split. intros Hc.
    do 2 apply has_char_before in Hc. apply has_char_strip in Hc.
    eapply has_char_slice_from, has_char_split; done.
  - destruct (Py.startswith "from " line); [|set_solver].
    destruct (_ && _); [|set_solver].
    case_bool_decide; [|set_solver].
    rewrite union_empty_l_L, elem_of_singleton. intros ->.
    rewrite item0_split. intros Hc. apply has_char_before in Hc.
    destruct (Py.split_ws line !! 1) as [p|] eqn:Hp; [|done].
    eapply has_char_split_ws; [|exact Hc]. by eapply list_elem_of_lookup_2.
Qed.

Lemma analyze_source_one_line content imports :
  has_char CR content = false →
  analyze_source content = Some imports →
  Forall one_line imports.
Proof.
  intros Hcr. unfold analyze_source. cbv zeta. case_bool_decide; [done|].
  intros [= <-]. apply Forall_forall. intros x Hx.
  apply sorted_elements, analyze_source_contributed in Hx as (raw & Hraw & _ & Hx).
  split.
  - destruct (has_char Py.LF x) eqn:Hc; [|done].
    apply (line_imports_chars _ _ _ Hx), has_char_strip in Hc.
    by rewrite (split_go_nl_no_LF _ _ _ _ Hraw) in Hc.
  - destruct (has_char CR x) eqn:Hc; [|done].
    apply (line_imports_chars _ _ _ Hx), has_char_strip in Hc.
    apply (has_char_split _ _ _ _ Hraw) in Hc. congruence.
Qed.

Section analyzed.
Context `{Packaging}.

(** X25.  What the analyzer finds is what the dependency check later reads.
    For a script text without carriage returns in which [analyze_imports]
    finds external modules, the names hold no line terminator; so the
    manifest that [create_requirements_file] writes from them, as
    [_add_script_handler] does, makes [check_dependencies] check exactly
    those names, with surrounding white space removed and without the names
    that are blank or start with [#]. *)
Theorem analyzed_manifest_is_read_back
    content imports logs (fs : gmap string FileNode) script_dir dists installed :
  has_char CR content = false →
  analyze_imports (Ret content) = (Some imports, logs) →
  Forall one_line imports
  ∧ ∃ fs',
      create_requirements_file (Ret ()) fs script_dir imports
      = (Ret fs', ["✅ Создан requirements.txt для " +:+ os_path_basename script_dir])
      ∧ check_dependencies fs' dists (Some installed) script_dir
        = (let r := check_requirements installed
                      (Py.strip <$> filter (λ line, kept_line line = true) imports) in
           (r.1, Some installed, r.2)).
Proof.
  intros Hcr [= Himports _].
  pose proof (analyze_source_one_line _ _ Hcr Himports) as Hone.
  split; [exact Hone|].
  destruct (created_manifest_checked fs script_dir imports dists installed)
    as (fs' & Hc & _ & _ & Hcheck).
  { eapply Forall_impl; [exact Hone|]. by intros x [? _]. }
  eauto.
Qed.

End analyzed.

Section resets.
Context `{Packaging}.




End resets.

Section check_errors.
Context `{Packaging}.

(** X27.  A dependency check that cannot be carried out counts as unmet
    dependencies.  For a script that has a manifest, when the package index
    cannot be built (a distribution without a name), or the index is there
    but the manifest cannot be read, [check_dependencies] answers [False]
    and logs the error once.  The cache is left as
    [get_installed_packages] left it: empty in the first case, holding the
    snapshot in the second. *)
Theorem check_dependencies_errors_are_unmet
    (fs : gmap string FileNode) dists cache script_dir e :
  os_path_exists fs (Py.path_join script_dir "requirements.txt") = true →
  (get_installed_packages dists cache).1 = Raise e
  ∨ ((∃ installed, (get_installed_packages dists cache).1 = Ret installed)
     ∧ open_read fs (Py.path_join script_dir "requirements.txt") = Raise e) →
  check_dependencies fs dists cache script_dir
  = (false, (get_installed_packages dists cache).2,
     ["❌ Ошибка проверки зависимостей: " +:+ e])
  ∧ ((get_installed_packages dists cache).1 = Raise e →
     (get_installed_packages dists cache).2 = None).
Proof.
  intros Hex Herr. unfold check_dependencies. rewrite Hex. cbn [negb]. split.
  - destruct (get_installed_packages dists cache) as [[installed|e'] cache'] eqn:Hg;
      cbn [fst snd] in *.
    + destruct Herr as [?|[_ Hread]]; [done|]. by rewrite Hread.
    + destruct Herr as [[= ->]|[[? ?] _]]; done.
  - unfold get_installed_packages. destruct cache; [done|].
    by destruct (build_index dists).
Qed.

End check_errors.

(** ** Witnesses *)

(** X8, witness: the installation for [demo] is started once, a second request
    is refused. *)
Lemma install_dependencies_single_flight_witness :
  ∃ s1, install_dependencies no_slot "scripts/demo" demo_python demo_after_install
        = Some ((), s1)
    ∧ install_starts s1 = 1
    ∧ install_dependencies no_slot "scripts/demo" demo_python s1
      = Some ((), logged (log_events "⚠️ Установка зависимостей уже запущена. Ожидайте.") s1).
Proof.
  destruct (install_dependencies_single_flight no_slot
              "scripts/demo" demo_python "scripts/demo" demo_python demo_after_install
              eq_refl eq_refl)
    as (s1 & Hcall & _ & Hstart & _ & Hagain).
  exists s1. split; [exact Hcall|]. split; [|exact Hagain].
  exact (proj2 (Hstart eq_refl)).
Defined.

(** X9, witness: [fresh] has no manifest; nothing is started and the completion
    is taken for that of another script. *)
Lemma install_dependencies_without_manifest_witness :
  ∃ s', install_dependencies (_on_dependencies_installed (H := Pep440.lib) 1)
          "scripts/fresh" "scripts/fresh/.venv/bin/python" demo_creating = Some ((), s')
    ∧ nothing_started demo_creating s'
    ∧ last (trace s')
      = Some (console_append
                "DEBUG: Установка зависимостей завершена для другого скрипта (scripts/fresh).").
Proof.
  destruct (install_dependencies_without_manifest (H := Pep440.lib) 0 "scripts/fresh"
              "scripts/fresh/.venv/bin/python" demo_creating eq_refl)
    as (s' & Hcall & Htrace & Hnothing & _).
  { discriminate. }
  exists s'. split; [exact Hcall|]. split; [exact Hnothing|].
  rewrite Htrace. reflexivity.
Defined.

(** X10, witness: an installation that cannot be started. *)
Lemma failed_installation_aborts_run_witness :
  ∃ s', deliver_install_all (H := Pep440.lib) 1 "scripts/demo"
          (InstallThread.run failing_install) demo_after_install = Some ((), s')
    ∧ nothing_started demo_after_install s'
    ∧ progress_bar s' = (0%Z, false).
Proof.
  destruct (failed_installation_aborts_run (H := Pep440.lib) 0 "scripts/demo"
              failing_install demo_after_install)
    as (s1 & s' & Hcall & _ & Hs' & Hnothing).
  { intros (_ & Hpopen & _). discriminate Hpopen. }
  exists s'. split; [exact Hcall|]. split; [exact Hnothing|].
  rewrite Hs'. reflexivity.
Defined.

(** X11, witness: [virtualenv] exits with code 2. *)
Lemma failed_creation_starts_nothing_witness :
  ∃ s', deliver_venv_all (H := Pep440.lib) 1 "scripts/fresh"
          (VenvCreation.run "scripts/fresh/.venv" failing_creation) demo_provisioning
        = Some ((), s')
    ∧ only_reported demo_provisioning s'
    ∧ progress_bar s' = (0%Z, false).
Proof.
  destruct (failed_creation_starts_nothing (H := Pep440.lib) 1 "scripts/fresh"
              "scripts/fresh/.venv" failing_creation demo_provisioning)
    as (s1 & result & s' & Hcall & _ & Hs' & Hreported & _).
  { intros (_ & (c & Hc & Hcode) & _). injection Hc as <-. discriminate Hcode. }
  exists s'. split; [exact Hcall|]. split; [exact Hreported|].
  rewrite Hs'. reflexivity.
Defined.

(** X12, witness: the environment of [fresh] is created and its manifest is
    installed with the new interpreter. *)
Lemma created_environment_gets_dependencies_witness :
  ∃ s', deliver_venv_all (H := Pep440.lib) 1 "scripts/fresh"
          (VenvCreation.run "scripts/fresh/.venv" clean_creation) demo_provisioning
        = Some ((), s')
    ∧ _install_thread s'
      = Some {| InstallThread.python_exec := "scripts/fresh/.venv/bin/python";
                InstallThread.requirements_path := "scripts/fresh/requirements.txt";
                InstallThread.isRunning := true |}
    ∧ install_starts s' = 1
    ∧ worker_starts s' = 0.
Proof.
  destruct (created_environment_gets_dependencies (H := Pep440.lib) 1 "scripts/fresh"
              clean_creation demo_provisioning)
    as (s' & Hcall & Hthread & Hinstall & Hworker & _).
  - split; [right; exists 1%Z; eexists; repeat split; discriminate|].
    split; [eexists; split; reflexivity|reflexivity].
  - reflexivity.
  - reflexivity.
  - exists s'. split; [exact Hcall|]. split; [exact Hthread|].
    split; [exact Hinstall|exact Hworker].
Defined.

(** X13, witness: [fresh] is selected and its environment has been created; no
    worker is started. *)
Lemma created_environment_never_launches_witness :
  ∃ s', deliver_venv_all (H := Pep440.lib) 1 (get_script_dir "fresh")
          (VenvCreation.run "scripts/fresh/.venv" clean_creation) demo_creating
        = Some ((), s')
    ∧ worker_thread s' = None
    ∧ worker_starts s' = 0.
Proof.
  destruct (created_environment_never_launches (H := Pep440.lib) 0 "fresh"
              "scripts/fresh/.venv" clean_creation demo_creating eq_refl eq_refl)
    as (s' & Hcall & Hthread & _ & Hworker).
  exists s'. split; [exact Hcall|]. split; [exact Hthread|exact Hworker].
Defined.

(** X14, witness: [demo] is ready and is launched. *)
Lemma prepare_and_run_launches_witness :
  ∃ s', _prepare_and_run_script (H := Pep440.lib) no_slot "demo" demo_ready = Some ((), s')
    ∧ worker_thread s'
      = Some {| WorkerThread.script_path := "/app/scripts/demo/script.py";
                WorkerThread.cwd := Some "/app/scripts/demo";
                WorkerThread.python_exec := demo_python;
                WorkerThread.isRunning := true |}
    ∧ running_script_name s' = Some "demo"
    ∧ worker_starts s' = 1
    ∧ questions s' = 0.
Proof.
  destruct (prepare_and_run_launches (H := Pep440.lib) no_slot "demo" demo_ready)
    as (s' & Hcall & Hthread & Hrunning & Hworker & _ & _ & Hquestions & _).
  - reflexivity.
  - reflexivity.
  - vm_compute. reflexivity.
  - reflexivity.
  - exists s'. split; [exact Hcall|]. split; [exact Hthread|].
    split; [exact Hrunning|]. split; [exact Hworker|exact Hquestions].
Defined.

(** X15, witness: the stale snapshot of [demo_after_install] makes the check
    fail; the user answers Yes and the installation is started. *)
Lemma prepare_and_run_asks_before_installing_witness :
  ∃ s', _prepare_and_run_script (H := Pep440.lib) no_slot "demo"
          (set_replies [true] demo_after_install) = Some ((), s')
    ∧ replies s' = []
    ∧ questions s' = 1
    ∧ worker_starts s' = 0
    ∧ install_starts s' = 1.
Proof.
  destruct (prepare_and_run_asks_before_installing (H := Pep440.lib) no_slot "demo"
              (set_replies [true] demo_after_install))
    as (s' & Hcall & Hreplies & Hq & _ & Hworker & _ & _ & Hyes).
  - reflexivity.
  - reflexivity.
  - vm_compute. reflexivity.
  - exists s'. split; [exact Hcall|]. split; [exact Hreplies|].
    split; [exact Hq|]. split; [exact Hworker|].
    exact (proj2 (Hyes eq_refl)).
Defined.

(** X16, witness: the environment of [fresh] is being created; the run waits. *)
Lemma prepare_and_run_waits_for_environment_witness :
  ∃ s', _prepare_and_run_script (H := Pep440.lib) no_slot "fresh" demo_creating
        = Some ((), s')
    ∧ worker_starts s' = 0
    ∧ venv_starts s' = 0
    ∧ last (trace s')
      = Some (console_append "Ожидаю создания виртуального окружения для запуска скрипта...").
Proof.
  destruct (prepare_and_run_waits_for_environment (H := Pep440.lib) no_slot "fresh"
              demo_creating eq_refl eq_refl)
    as (s' & Hcall & _ & Hworker & _ & _ & _ & Hvenv & Hlast).
  exists s'. split; [exact Hcall|]. split; [exact Hworker|].
  split; [exact Hvenv|exact Hlast].
Defined.


(** X21, witness: a manifest for [requests] and [numpy], checked against the
    snapshot that holds [requests]. *)
Lemma created_manifest_is_read_back_witness :
  ∃ fs', create_requirements_file (Ret ()) ∅ "scripts/demo" ["numpy"; "requests"]
         = (Ret fs', ["✅ Создан requirements.txt для demo"])
    ∧ open_read fs' demo_requirements = Ret ("numpy" +:+ nl +:+ "requests" +:+ nl)
    ∧ (check_dependencies (H := Pep440.lib) fs' [] (Some demo_index) "scripts/demo").1.1
      = false.
Proof.
  destruct (created_manifest_is_read_back (H := Pep440.lib) ∅ "scripts/demo"
              ["numpy"; "requests"] [] demo_index)
    as (fs' & Hcall & Hread & _ & Hcheck).
  { repeat constructor. }
  exists fs'. split; [exact Hcall|]. split; [exact Hread|].
  rewrite Hcheck. reflexivity.
Defined.

(** X22, witness: [gamma] and [alpha] are pinned, [gamma] first in the saved
    order; [beta] is not pinned; [notes] holds no script. *)
Lemma get_all_scripts_pinned_first_witness :
  get_all_scripts "/app" demo_scripts ["beta"; "notes"; "alpha"; "gamma"]
    ["gamma"; "beta"; "alpha"] {[ "alpha"; "gamma" ]}
  = Ret (["gamma"; "alpha"; "beta"], demo_scripts)
  ∧ "notes" ∉ ["gamma"; "alpha"; "beta"].
Proof.
  assert (Hcall : get_all_scripts "/app" demo_scripts ["beta"; "notes"; "alpha"; "gamma"]
                    ["gamma"; "beta"; "alpha"] {[ "alpha"; "gamma" ]}
                  = Ret (["gamma"; "alpha"; "beta"], demo_scripts)).
  { vm_compute. reflexivity. }
  split; [exact Hcall|].
  destruct (get_all_scripts_pinned_first _ _ _ _ _ _ _ Hcall) as [Hmem _].
  intros Hin. apply Hmem in Hin as [[_ Hfolder] _]. discriminate Hfolder.
Defined.

(** X23, witness: two listings of the same directory. *)
Lemma get_all_scripts_listing_order_witness :
  get_all_scripts "/app" demo_scripts ["beta"; "alpha"] [] ∅
  = get_all_scripts "/app" demo_scripts ["alpha"; "beta"] [] ∅.
Proof.
  apply get_all_scripts_listing_order. apply perm_swap.
Defined.

(** X25, witness: a script that imports [requests]. *)
Lemma analyzed_manifest_is_read_back_witness :
  ∃ fs', create_requirements_file (Ret ()) ∅ "scripts/demo" ["requests"]
         = (Ret fs', ["✅ Создан requirements.txt для demo"])
    ∧ (check_dependencies (H := Pep440.lib) fs' [] (Some demo_index) "scripts/demo").1.1
      = true.
Proof.
  destruct (analyzed_manifest_is_read_back (H := Pep440.lib)
              ("import os" +:+ nl +:+ "import requests" +:+ nl) ["requests"] []
              ∅ "scripts/demo" [] demo_index)
    as (_ & fs' & Hcall & Hcheck).
  - reflexivity.
  - vm_compute. reflexivity.
  - exists fs'. split; [exact Hcall|]. rewrite Hcheck. vm_compute. reflexivity.
Defined.

(** X27, witness: the manifest of [demo] is a directory. *)
Lemma check_dependencies_errors_are_unmet_witness :
  check_dependencies (H := Pep440.lib) {[ demo_requirements := Dir ]} []
    (Some demo_index) "scripts/demo"
  = (false, Some demo_index,
     ["❌ Ошибка проверки зависимостей: [Errno 21] Is a directory: 'scripts/demo/requirements.txt'"]).
Proof.
  refine (proj1 (check_dependencies_errors_are_unmet (H := Pep440.lib)
                   {[ demo_requirements := Dir ]} [] (Some demo_index) "scripts/demo"
                   "[Errno 21] Is a directory: 'scripts/demo/requirements.txt'" _ _)).
  - reflexivity.
  - right. split; [by eexists|reflexivity].
Defined.
